(** * NoGo2 GTP connection: command dispatcher and alpha-beta solver

    A shallow embedding of [A2'/NoGo2/gtp_connection.py] (class
    [GtpConnection]) and the properties of its dispatcher and of its
    time-bounded alpha-beta search.

    The connection object is threaded explicitly through a state and
    exception monad.  The collaborators that live in [board.py] and
    [board_util.py] ([GoBoard] methods, [GoBoardUtil] functions), the engine
    identity and the interpreter services ([time.process_time], [float],
    [traceback.format_exc]) are taken as a record of operations. *)

From Stdlib Require Import ZArith QArith List String Ascii Bool Lia Lqa DecimalString.
Import ListNotations.

Open Scope string_scope.
Open Scope Z_scope.

(** ** Python strings *)

Module Py.

Definition nl : string := String "010"%char EmptyString.

(** Characters on which [str.split()], [str.strip()] and [str.lstrip()]
    (no argument) cut: tab, line feed, vertical tab, form feed, carriage
    return, the four separators 28..31 and the space. *)
Definition isspace (c : ascii) : bool :=
  let n := nat_of_ascii c in
  ((9 <=? n)%nat && (n <=? 13)%nat) || ((28 <=? n)%nat && (n <=? 32)%nat).

Definition isdigit (c : ascii) : bool :=
  let n := nat_of_ascii c in (48 <=? n)%nat && (n <=? 57)%nat.

Fixpoint dropwhile (p : ascii -> bool) (cs : list ascii) : list ascii :=
  match cs with
  | c :: cs' => if p c then dropwhile p cs' else cs
  | [] => []
  end.

Definition mem_char (chars : string) (c : ascii) : bool :=
  existsb (Ascii.eqb c) (list_ascii_of_string chars).

(** [s.strip(chars)] *)
Definition strip (chars : string) (s : string) : string :=
  let p := mem_char chars in
  string_of_list_ascii
    (rev (dropwhile p (rev (dropwhile p (list_ascii_of_string s))))).

(** [s.lstrip()] *)
Definition lstrip (s : string) : string :=
  string_of_list_ascii (dropwhile isspace (list_ascii_of_string s)).

(** [re.sub("^\d+", "", s)] *)
Definition sub_leading_digits (s : string) : string :=
  string_of_list_ascii (dropwhile isdigit (list_ascii_of_string s)).

Fixpoint split_go (cs cur : list ascii) : list string :=
  match cs with
  | [] => match cur with [] => [] | _ => [string_of_list_ascii (rev cur)] end
  | c :: cs' =>
      if isspace c then
        match cur with
        | [] => split_go cs' []
        | _ => string_of_list_ascii (rev cur) :: split_go cs' []
        end
      else split_go cs' (c :: cur)
  end.

(** [s.split()]: cut on runs of whitespace, no empty piece. *)
Definition split (s : string) : list string :=
  split_go (list_ascii_of_string s) [].

Fixpoint split_on_go (sep : ascii) (cs cur : list ascii) : list string :=
  match cs with
  | [] => [string_of_list_ascii (rev cur)]
  | c :: cs' =>
      if Ascii.eqb c sep then
        string_of_list_ascii (rev cur) :: split_on_go sep cs' []
      else split_on_go sep cs' (c :: cur)
  end.

(** [s.split(sep)] for a one-character separator: every occurrence cuts,
    empty pieces are kept, and the empty string gives one empty piece. *)
Definition split_on (sep : ascii) (s : string) : list string :=
  split_on_go sep (list_ascii_of_string s) [].

Definition lower_char (c : ascii) : ascii :=
  let n := nat_of_ascii c in
  if (65 <=? n)%nat && (n <=? 90)%nat then ascii_of_nat (n + 32) else c.

(** [s.lower()] on the ASCII letters. *)
Definition lower (s : string) : string :=
  string_of_list_ascii (map lower_char (list_ascii_of_string s)).

(** [str(n)] for an integer. *)
Definition str_of_Z (z : Z) : string := NilZero.string_of_int (Z.to_int z).

(** [sep.join(l)] *)
Definition join (sep : string) (l : list string) : string := String.concat sep l.

(** The head character, for [s[0]] on a string known not to be empty. *)
Definition head (s : string) : option ascii :=
  match s with String c _ => Some c | EmptyString => None end.

End Py.

(** ** Exceptions and results *)

(** A Python exception: its class name and [str(e)]; [SystemExit] is kept
    apart because it does not derive from [Exception]. *)
Inductive exn : Type :=
| Exception (cls : string) (msg : string)
| SystemExit.

Definition str_exn (e : exn) : string :=
  match e with
  | Exception _ msg => msg
  | SystemExit => EmptyString
  end.

Definition is_Exception (e : exn) : bool :=
  match e with Exception _ _ => true | SystemExit => false end.

(** What a collaborator call gives back: a value or a raised exception. *)
Inductive res (A : Type) : Type :=
| Ok (a : A)
| Err (e : exn).
Arguments Ok {A} a.
Arguments Err {A} e.

(** [l[i]] on a Python list: negative indices count from the end. *)
Definition getitem {A : Type} (l : list A) (i : Z) : res A :=
  let n := Z.of_nat (List.length l) in
  let j := if i <? 0 then i + n else i in
  if (0 <=? j) && (j <? n) then
    match nth_error l (Z.to_nat j) with
    | Some a => Ok a
    | None => Err (Exception "IndexError" "list index out of range")
    end
  else Err (Exception "IndexError" "list index out of range").

Fixpoint list_set {A : Type} (l : list A) (i : nat) (a : A) : list A :=
  match l, i with
  | [], _ => []
  | _ :: l', O => a :: l'
  | x :: l', S i' => x :: list_set l' i' a
  end.

(** [arr[i] = v] on a one-dimensional array. *)
Definition setitem {A : Type} (l : list A) (i : Z) (a : A) : res (list A) :=
  let n := Z.of_nat (List.length l) in
  let j := if i <? 0 then i + n else i in
  if (0 <=? j) && (j <? n) then Ok (list_set l (Z.to_nat j) a)
  else Err (Exception "IndexError" "index out of bounds").

Definition all_digits (cs : list ascii) : bool :=
  match cs with [] => false | _ => forallb Py.isdigit cs end.

Fixpoint digits_value (cs : list ascii) (acc : Z) : Z :=
  match cs with
  | [] => acc
  | c :: cs' => digits_value cs' (10 * acc + (Z.of_nat (nat_of_ascii c) - 48))
  end.

(** The digits of a decimal literal, in which single underscores may group
    the digits ([1_000]); [None] when [cs] is not one: it is empty, holds
    another character, or has an underscore that is not between two
    digits. *)
Fixpoint ungroup (cs : list ascii) : option (list ascii) :=
  match cs with
  | [] => None
  | c :: cs' =>
      if Py.isdigit c then
        match cs' with
        | [] => Some [c]
        | "_"%char :: cs'' => option_map (cons c) (ungroup cs'')
        | _ => option_map (cons c) (ungroup cs')
        end
      else None
  end.

(** [int(s)] on a token without whitespace: an optional sign and a decimal
    literal. *)
Definition int_of_str (s : string) : res Z :=
  let bad := Err (Exception "ValueError"
                 ("invalid literal for int() with base 10: '" ++ s ++ "'")) in
  let literal (sign : Z) (cs : list ascii) :=
    match ungroup cs with
    | Some ds => Ok (sign * digits_value ds 0)
    | None => bad
    end in
  match list_ascii_of_string s with
  | "-"%char :: cs => literal (-1) cs
  | "+"%char :: cs => literal 1 cs
  | cs => literal 1 cs
  end.

(** ** The board and the collaborators *)

Module GoBoard.

(** Modelled from the spec: the fields of the [GoBoard] object ([board.py]
    is not part of the sources): a position is a grid of cells in
    EMPTY, BLACK, WHITE, BORDER, stored as a one-dimensional array indexed by
    point, plus the side to move; [gtp_connection.py] reads [size] and
    [to_play] and writes [board[point]] and [to_play]. *)
Record t : Type := mk {
  size : Z;
  board : list Z;
  to_play : Z
}.

Definition eqb (a b : t) : bool :=
  (size a =? size b) && (to_play a =? to_play b) &&
  (if list_eq_dec Z.eq_dec (board a) (board b) then true else false).

End GoBoard.

(** The colour codes: the docstrings of [play_cmd] and [genmove_cmd] give
    Black --> 1 and White --> 2, which is also how [solve_cmd] indexes its
    table of colour tokens. *)
Definition BLACK : Z := 1.
Definition WHITE : Z := 2.

(** Everything [gtp_connection.py] calls and does not define.  A method that
    may change the board returns the board it leaves behind together with
    its result; the others are read-only. *)
Record Collaborators : Type := {
  (* board_util constants *)
  EMPTY : Z;
  (* GoBoard methods *)
  reset : GoBoard.t -> Z -> GoBoard.t * res unit;
  move : GoBoard.t -> Z -> Z -> GoBoard.t * res bool;
  check_legal : GoBoard.t -> Z -> Z -> res bool;
  get_winner : GoBoard.t -> option Z;
  staticallyEvaluateForToPlay : GoBoard.t -> Z;
  _coord_to_point : GoBoard.t -> Z -> Z -> Z;
  _point_to_coord : GoBoard.t -> Z -> res (Z * Z);
  get_twoD_board : GoBoard.t -> string;
  final_score : GoBoard.t -> Q -> res string;
  (* GoBoardUtil functions *)
  color_to_int : string -> res Z;
  move_to_coord : string -> Z -> res (option (Z * Z));
  generate_legal_moves : GoBoard.t -> Z -> res string;
  generate_random_move : GoBoard.t -> Z -> nat -> res Z;
  format_point : Z * Z -> res string;
  opponent : Z -> Z;
  (* go_engine *)
  name : string;
  version : string;
  (* interpreter services: the k-th reading of time.process_time(), in
     seconds; float(s); traceback.format_exc() *)
  process_time : nat -> Q;
  float_of_str : string -> res Q;
  format_exc : exn -> string
}.

(** ** The connection object *)

(** The attributes of [GtpConnection] set in [__init__], and the world it
    talks to: what was written to the standard output and to the standard
    error, how many times the clock was read, how many random draws were
    made. *)
Record GtpConnection : Type := mkGtp {
  _debug_mode : bool;
  komi : Q;
  board : GoBoard.t;
  notdone : bool;
  timelimit : Z;
  starttime : Q;
  winMoves : list string;
  genCall : bool;
  stdout : list string;
  stderr : list string;
  clock : nat;
  draws : nat
}.

Definition set_komi (v : Q) (s : GtpConnection) : GtpConnection :=
  mkGtp (_debug_mode s) v (board s) (notdone s) (timelimit s) (starttime s)
        (winMoves s) (genCall s) (stdout s) (stderr s) (clock s) (draws s).
Definition set_board (v : GoBoard.t) (s : GtpConnection) : GtpConnection :=
  mkGtp (_debug_mode s) (komi s) v (notdone s) (timelimit s) (starttime s)
        (winMoves s) (genCall s) (stdout s) (stderr s) (clock s) (draws s).
Definition set_notdone (v : bool) (s : GtpConnection) : GtpConnection :=
  mkGtp (_debug_mode s) (komi s) (board s) v (timelimit s) (starttime s)
        (winMoves s) (genCall s) (stdout s) (stderr s) (clock s) (draws s).
Definition set_timelimit (v : Z) (s : GtpConnection) : GtpConnection :=
  mkGtp (_debug_mode s) (komi s) (board s) (notdone s) v (starttime s)
        (winMoves s) (genCall s) (stdout s) (stderr s) (clock s) (draws s).
Definition set_starttime (v : Q) (s : GtpConnection) : GtpConnection :=
  mkGtp (_debug_mode s) (komi s) (board s) (notdone s) (timelimit s) v
        (winMoves s) (genCall s) (stdout s) (stderr s) (clock s) (draws s).
Definition set_winMoves (v : list string) (s : GtpConnection) : GtpConnection :=
  mkGtp (_debug_mode s) (komi s) (board s) (notdone s) (timelimit s) (starttime s)
        v (genCall s) (stdout s) (stderr s) (clock s) (draws s).
Definition set_genCall (v : bool) (s : GtpConnection) : GtpConnection :=
  mkGtp (_debug_mode s) (komi s) (board s) (notdone s) (timelimit s) (starttime s)
        (winMoves s) v (stdout s) (stderr s) (clock s) (draws s).
Definition set_stdout (v : list string) (s : GtpConnection) : GtpConnection :=
  mkGtp (_debug_mode s) (komi s) (board s) (notdone s) (timelimit s) (starttime s)
        (winMoves s) (genCall s) v (stderr s) (clock s) (draws s).
Definition set_stderr (v : list string) (s : GtpConnection) : GtpConnection :=
  mkGtp (_debug_mode s) (komi s) (board s) (notdone s) (timelimit s) (starttime s)
        (winMoves s) (genCall s) (stdout s) v (clock s) (draws s).
Definition set_clock (v : nat) (s : GtpConnection) : GtpConnection :=
  mkGtp (_debug_mode s) (komi s) (board s) (notdone s) (timelimit s) (starttime s)
        (winMoves s) (genCall s) (stdout s) (stderr s) v (draws s).
Definition set_draws (v : nat) (s : GtpConnection) : GtpConnection :=
  mkGtp (_debug_mode s) (komi s) (board s) (notdone s) (timelimit s) (starttime s)
        (winMoves s) (genCall s) (stdout s) (stderr s) (clock s) v.

(** [state.board[...]] and [state.to_play] are fields of the one board
    object the connection holds ([state = self.board] in [solve_cmd]). *)
Definition set_grid (g : list Z) (s : GtpConnection) : GtpConnection :=
  set_board (GoBoard.mk (GoBoard.size (board s)) g (GoBoard.to_play (board s))) s.
Definition set_to_play (c : Z) (s : GtpConnection) : GtpConnection :=
  set_board (GoBoard.mk (GoBoard.size (board s)) (GoBoard.board (board s)) c) s.

(** [__init__], up to the board that [GoBoard(7)] builds. *)
Definition init (debug_mode : bool) (b7 : GoBoard.t) : GtpConnection :=
  mkGtp debug_mode 0%Q b7 false 1 0%Q [] false [] [] O O.

(** ** The monad of the methods *)

Inductive outcome (A : Type) : Type :=
| Return (a : A)
| Raise (e : exn)
| OutOfFuel.
Arguments Return {A} a.
Arguments Raise {A} e.
Arguments OutOfFuel {A}.

Definition M (A : Type) : Type := GtpConnection -> outcome A * GtpConnection.

Definition ret {A : Type} (a : A) : M A := fun s => (Return a, s).

Definition bind {A B : Type} (m : M A) (f : A -> M B) : M B :=
  fun s =>
    match m s with
    | (Return a, s') => f a s'
    | (Raise e, s') => (Raise e, s')
    | (OutOfFuel, s') => (OutOfFuel, s')
    end.

Notation "x <- m ;; k" := (bind m (fun x => k))
  (at level 61, m at next level, right associativity).
Notation "m ;;; k" := (bind m (fun _ => k))
  (at level 61, right associativity).

Definition raise {A : Type} (e : exn) : M A := fun s => (Raise e, s).
Definition self : M GtpConnection := fun s => (Return s, s).
Definition modify (f : GtpConnection -> GtpConnection) : M unit :=
  fun s => (Return tt, f s).

(** The result of a read-only collaborator call. *)
Definition lift {A : Type} (r : res A) : M A :=
  match r with Ok a => ret a | Err e => raise e end.

(** A collaborator method called on [self.board]: the board it leaves is
    stored back, whether it returned or raised. *)
Definition on_board {A : Type} (f : GoBoard.t -> GoBoard.t * res A) : M A :=
  fun s => let (b', r) := f (board s) in lift r (set_board b' s).

(** [try: body  except Exception as e: handler e]: [SystemExit] passes. *)
Definition try_except_Exception {A : Type} (body : M A) (handler : exn -> M A) : M A :=
  fun s =>
    match body s with
    | (Raise e, s') => if is_Exception e then handler e s' else (Raise e, s')
    | r => r
    end.

(** [try: body  except: handler], which catches everything. *)
Definition try_except {A : Type} (body : M A) (handler : M A) : M A :=
  fun s =>
    match body s with
    | (Raise _, s') => handler s'
    | r => r
    end.

Definition is_nil {A : Type} (l : list A) : bool :=
  match l with [] => true | _ => false end.

(** [point[0], point[1]] and [row, col = ...] on what [move_to_coord]
    returned: [None] is neither subscriptable nor iterable. *)
Definition subscript2 (p : option (Z * Z)) : res (Z * Z) :=
  match p with
  | Some rc => Ok rc
  | None => Err (Exception "TypeError" "'NoneType' object is not subscriptable")
  end.

Definition unpack2 (p : option (Z * Z)) : res (Z * Z) :=
  match p with
  | Some rc => Ok rc
  | None => Err (Exception "TypeError" "cannot unpack non-iterable NoneType object")
  end.

(** [f( *move)] on what [move_to_coord] returned: the call unpacks its
    argument, and the error names the callee [f]: by its qualified name,
    as the interpreter prints it since version 3.9 (before that, by its
    bare name). *)
Definition star_args (f : string) (p : option (Z * Z)) : res (Z * Z) :=
  match p with
  | Some rc => Ok rc
  | None => Err (Exception "TypeError"
                   (f ++ "() argument after * must be an iterable, not NoneType"))
  end.

(** [str((row, col))] *)
Definition str_of_pair (rc : Z * Z) : string :=
  "(" ++ Py.str_of_Z (fst rc) ++ ", " ++ Py.str_of_Z (snd rc) ++ ")".

Definition str_of_coord (p : option (Z * Z)) : string :=
  match p with Some rc => str_of_pair rc | None => "None" end.

(** What [alphabeta] returns: an integer value, or the string ['a']. *)
Inductive ab_ret : Type :=
| RInt (v : Z)
| RAbort.

(** [-int(r)]: [int('a')] raises [ValueError]. *)
Definition neg_int (r : ab_ret) : res Z :=
  match r with
  | RInt v => Ok (- v)
  | RAbort => Err (Exception "ValueError" "invalid literal for int() with base 10: 'a'")
  end.

(** The names bound in [self.commands], in the order of the dict. *)
Definition command_names : list string :=
  ["protocol_version"; "quit"; "name"; "boardsize"; "showboard"; "clear_board";
   "komi"; "version"; "known_command"; "set_free_handicap"; "genmove";
   "list_commands"; "play"; "final_score"; "legal_moves"; "timelimit"; "solve"].

(** [self.argmap]: required number of arguments and usage message. *)
Definition argmap : list (string * (Z * string)) :=
  [("boardsize", (1, "Usage: boardsize INT"));
   ("komi", (1, "Usage: komi FLOAT"));
   ("known_command", (1, "Usage: known_command CMD_NAME"));
   ("set_free_handicap", (1, "Usage: set_free_handicap MOVE (e.g. A4)"));
   ("genmove", (1, "Usage: genmove {w, b}"));
   ("play", (2, "Usage: play {b, w} MOVE"));
   ("legal_moves", (1, "Usage: legal_moves {w, b}"));
   ("timelimit", (1, "Usage: timelimit seconds (1 <= seconds <= 100)"))].

Fixpoint lookup {A : Type} (k : string) (d : list (string * A)) : option A :=
  match d with
  | [] => None
  | (k', v) :: d' => if String.eqb k k' then Some v else lookup k d'
  end.

Definition len {A : Type} (l : list A) : Z := Z.of_nat (List.length l).

(** Lines 102-113 of [get_cmd]: the command name and the arguments of a
    line, or [None] for a line that is skipped. *)
Definition parse_line (command : string) : option (string * list string) :=
  if (String.length (Py.strip (" " ++ String "013"%char (String "009"%char EmptyString)) command) =? 0)%nat
  then None
  else
    match Py.head command with
    | None => None
    | Some c0 =>
        if Ascii.eqb c0 "#"%char then None
        else
          let command :=
            if Py.isdigit c0 then Py.lstrip (Py.sub_leading_digits command)
            else command in
          match Py.split command with
          | [] => None
          | command_name :: args => Some (command_name, args)
          end
    end.

Section Connection.

Variable C : Collaborators.

(** *** Output *)

Definition write_stdout (data : string) : M unit :=
  modify (fun s => set_stdout (stdout s ++ [data])%list s).

Definition debug_msg (msg : string) : M unit :=
  s <- self ;;
  if _debug_mode s then modify (fun s => set_stderr (stderr s ++ [msg])%list s)
  else ret tt.

Definition error (error_msg : string) : M unit :=
  write_stdout ("? " ++ error_msg ++ Py.nl ++ Py.nl).

Definition respond (response : string) : M unit :=
  write_stdout ("= " ++ response ++ Py.nl ++ Py.nl).

(** *** The clock and the random source *)

Definition time_process_time : M Q :=
  fun s => (Return (process_time C (clock s)), set_clock (S (clock s)) s).

Definition random_move (color : Z) : M Z :=
  fun s => lift (generate_random_move C (board s) color (draws s))
                (set_draws (S (draws s)) s).

(** *** The solver *)

(** Lines 458-459 and 462-463: the point is emptied and the side to move
    is switched back. *)
Definition undo (point : Z) : M unit :=
  s <- self ;;
  g <- lift (setitem (GoBoard.board (board s)) point (EMPTY C)) ;;
  modify (set_grid g) ;;;
  modify (fun s => set_to_play (opponent C (GoBoard.to_play (board s))) s).

(** The body of the [for m in ...] loop of [alphabeta], on the moves still
    to try; [rec] is the recursive call. *)
Fixpoint ab_loop (rec : Z -> Z -> Z -> M ab_ret) (beta d : Z)
    (ms : list string) (alpha : Z) : M ab_ret :=
  match ms with
  | [] => ret (RInt alpha)
  | m :: ms' =>
      s0 <- self ;;
      coord <- lift (move_to_coord C m (GoBoard.size (board s0))) ;;
      rc <- lift (subscript2 coord) ;;
      let point := _coord_to_point C (board s0) (fst rc) (snd rc) in
      on_board (fun b => move C b point (GoBoard.to_play b)) ;;;
      tried <- try_except
                 (r <- rec (- beta) (- alpha) (d + 1) ;;
                  value <- lift (neg_int r) ;;
                  ret (Some value))
                 (undo point ;;; ret None) ;;
      match tried with
      | None => ret RAbort
      | Some value =>
          undo point ;;;
          let alpha' := if alpha <? value then value else alpha in
          if (alpha <? value) && (d =? 0) && (0 <=? value) then
            modify (fun s => set_winMoves (winMoves s ++ [m])%list s) ;;;
            ret RAbort
          else
            s1 <- self ;;
            if notdone s1 || negb (is_nil (winMoves s1)) then ret RAbort
            else if beta <=? value then ret (RInt beta)
            else ab_loop rec beta d ms' alpha'
      end
  end.

(** [alphabeta(self, state, alpha, beta, d)] with [state = self.board];
    [fuel] bounds the depth of the recursion. *)
Fixpoint alphabeta (fuel : nat) (alpha beta d : Z) : M ab_ret :=
  match fuel with
  | O => fun s => (OutOfFuel, s)
  | S fuel' =>
      now <- time_process_time ;;
      s0 <- self ;;
      let duration := (now - starttime s0)%Q in
      if notdone s0 || negb (is_nil (winMoves s0)) then ret RAbort
      else if negb (Qle_bool duration (inject_Z (timelimit s0))) then
        modify (set_notdone true) ;;;
        ret RAbort
      else
        match get_winner C (board s0) with
        | Some _ => ret (RInt (staticallyEvaluateForToPlay C (board s0)))
        | None =>
            moves <- lift (generate_legal_moves C (board s0)
                             (GoBoard.to_play (board s0))) ;;
            ab_loop (alphabeta fuel') beta d (Py.split_on " "%char moves) alpha
        end
  end.

Definition stone : list string := [EmptyString; "b"; "w"].

Definition solve_cmd (fuel : nat) (args : list string) : M unit :=
  modify (set_winMoves []) ;;;
  modify (set_notdone false) ;;;
  now <- time_process_time ;;
  modify (set_starttime now) ;;;
  win <- alphabeta fuel (-100000) 100000 0 ;;
  s0 <- self ;;
  if negb (genCall s0) then
    if negb (len (winMoves s0) =? 0) then
      s <- lift (getitem stone (GoBoard.to_play (board s0))) ;;
      w0 <- lift (getitem (winMoves s0) 0) ;;
      respond (s ++ " " ++ w0)
    else if notdone s0 then respond "unknown"
    else
      s <- lift (getitem stone (opponent C (GoBoard.to_play (board s0)))) ;;
      respond s
  else ret tt.

(** *** The command handlers *)

Definition protocol_version_cmd (args : list string) : M unit := respond "2".

Definition quit_cmd (args : list string) : M unit :=
  respond EmptyString ;;; raise SystemExit.

Definition name_cmd (args : list string) : M unit := respond (name C).

Definition version_cmd (args : list string) : M unit := respond (version C).

(** [self.reset(size)] *)
Definition reset_ (size : Z) : M unit := on_board (fun b => reset C b size).

Definition clear_board_cmd (args : list string) : M unit :=
  s <- self ;;
  reset_ (GoBoard.size (board s)) ;;;
  respond EmptyString.

Definition boardsize_cmd (args : list string) : M unit :=
  a0 <- lift (getitem args 0) ;;
  n <- lift (int_of_str a0) ;;
  reset_ n ;;;
  respond EmptyString.

Definition showboard_cmd (args : list string) : M unit :=
  s <- self ;;
  respond (Py.nl ++ get_twoD_board C (board s)).

Definition komi_cmd (args : list string) : M unit :=
  a0 <- lift (getitem args 0) ;;
  k <- lift (float_of_str C a0) ;;
  modify (set_komi k) ;;;
  respond EmptyString.

Definition known_command_cmd (args : list string) : M unit :=
  a0 <- lift (getitem args 0) ;;
  if existsb (String.eqb a0) command_names then respond "true"
  else respond "false".

Definition list_commands_cmd (args : list string) : M unit :=
  respond (Py.join " " command_names).

Fixpoint set_free_handicap_loop (points : list string) : M unit :=
  match points with
  | [] => ret tt
  | point :: rest =>
      s <- self ;;
      mv <- lift (move_to_coord C point (GoBoard.size (board s))) ;;
      rc <- lift (star_args "board.GoBoard._coord_to_point" mv) ;;
      let point := _coord_to_point C (board s) (fst rc) (snd rc) in
      ok <- on_board (fun b => move C b point BLACK) ;;
      (if ok then ret tt
       else
         s' <- self ;;
         debug_msg ("Illegal Move: " ++ str_of_coord mv ++ Py.nl ++ "Board:" ++ Py.nl
                    ++ get_twoD_board C (board s') ++ Py.nl)) ;;;
      set_free_handicap_loop rest
  end.

Definition set_free_handicap (args : list string) : M unit :=
  s <- self ;;
  on_board (fun b => reset C b (GoBoard.size (board s))) ;;;
  set_free_handicap_loop args ;;;
  respond EmptyString.

Definition legal_moves_cmd (args : list string) : M unit :=
  try_except_Exception
    (a0 <- lift (getitem args 0) ;;
     let board_color := Py.lower a0 in
     color <- lift (color_to_int C board_color) ;;
     s <- self ;;
     moves <- lift (generate_legal_moves C (board s) color) ;;
     respond moves)
    (fun e => respond ("Error: " ++ str_exn e)).

Definition unbound_local (v : string) : exn :=
  Exception "UnboundLocalError"
            ("local variable '" ++ v ++ "' referenced before assignment").

(** [play_cmd]: the handler of the [try] formats [board_color] and
    [board_move], which are bound by its first two statements; the
    [IndexError] of a missing argument is caught before they are bound, and
    the handler itself then fails on the unbound name. *)
Definition play_cmd (args : list string) : M unit :=
  match getitem args 0 with
  | Err _ => raise (unbound_local "board_color")
  | Ok a0 =>
      let board_color := Py.lower a0 in
      match getitem args 1 with
      | Err _ => raise (unbound_local "board_move")
      | Ok board_move =>
          try_except_Exception
            (color <- lift (color_to_int C board_color) ;;
             s <- self ;;
             mv <- lift (move_to_coord C board_move (GoBoard.size (board s))) ;;
             match mv with
             | Some rc =>
                 let mv := _coord_to_point C (board s) (fst rc) (snd rc) in
                 ok <- on_board (fun b => move C b mv color) ;;
                 if negb ok then ret tt
                 else respond EmptyString
             | None => ret tt
             end)
            (fun e =>
               respond ("illegal move: " ++ board_color ++ " " ++ board_move
                        ++ " " ++ str_exn e))
      end
  end.

Definition final_score_cmd (args : list string) : M unit :=
  s <- self ;;
  r <- lift (final_score C (board s) (komi s)) ;;
  respond r.

(** Lines 344-355 of [genmove_cmd]: the point of the first winning move, or
    of a random legal move when the solver recorded none. *)
Definition genmove_choose (color : Z) : M Z :=
  s1 <- self ;;
  if negb (len (winMoves s1) =? 0) then
    w0 <- lift (getitem (winMoves s1) 0) ;;
    c <- lift (move_to_coord C w0 (GoBoard.size (board s1))) ;;
    rc <- lift (unpack2 c) ;;
    ret (_coord_to_point C (board s1) (fst rc) (snd rc))
  else
    p <- random_move color ;;
    pc <- lift (_point_to_coord C (board s1) p) ;;
    m <- lift (format_point C pc) ;;
    c <- lift (move_to_coord C m (GoBoard.size (board s1))) ;;
    rc <- lift (unpack2 c) ;;
    ret (_coord_to_point C (board s1) (fst rc) (snd rc)).

Definition genmove_cmd (fuel : nat) (args : list string) : M unit :=
  try_except_Exception
    (modify (set_notdone false) ;;;
     a0 <- lift (getitem args 0) ;;
     let board_color := Py.lower a0 in
     color <- lift (color_to_int C board_color) ;;
     s <- self ;;
     match get_winner C (board s) with
     | Some _ => respond "resign"
     | None =>
         modify (set_winMoves []) ;;;
         modify (set_genCall true) ;;;
         (if String.eqb a0 "b" then modify (set_to_play BLACK)
          else modify (set_to_play WHITE)) ;;;
         solve_cmd fuel args ;;;
         modify (set_genCall false) ;;;
         mv <- genmove_choose color ;;
         s1 <- self ;;
         legal <- lift (check_legal C (board s1) mv color) ;;
         if negb legal then
           pc <- lift (_point_to_coord C (board s1) mv) ;;
           board_move <- lift (format_point C pc) ;;
           respond ("Illegal move: " ++ board_move) ;;;
           raise (Exception "RuntimeError" "Illegal move given by engine")
         else
           on_board (fun b => move C b mv color) ;;;
           s2 <- self ;;
           debug_msg ("Move: " ++ Py.str_of_Z mv ++ Py.nl ++ "Board: " ++ Py.nl
                      ++ get_twoD_board C (board s2) ++ Py.nl) ;;;
           pc <- lift (_point_to_coord C (board s2) mv) ;;
           board_move <- lift (format_point C pc) ;;
           respond board_move
     end)
    (fun e => respond ("Error: " ++ str_exn e)).

Definition timelimit_cmd (args : list string) : M unit :=
  a0 <- lift (getitem args 0) ;;
  n <- lift (int_of_str a0) ;;
  modify (set_timelimit n) ;;;
  respond EmptyString.

(** [self.commands] *)
Definition commands (fuel : nat) : list (string * (list string -> M unit)) :=
  [("protocol_version", protocol_version_cmd);
   ("quit", quit_cmd);
   ("name", name_cmd);
   ("boardsize", boardsize_cmd);
   ("showboard", showboard_cmd);
   ("clear_board", clear_board_cmd);
   ("komi", komi_cmd);
   ("version", version_cmd);
   ("known_command", known_command_cmd);
   ("set_free_handicap", set_free_handicap);
   ("genmove", genmove_cmd fuel);
   ("list_commands", list_commands_cmd);
   ("play", play_cmd);
   ("final_score", final_score_cmd);
   ("legal_moves", legal_moves_cmd);
   ("timelimit", timelimit_cmd);
   ("solve", solve_cmd fuel)].

(** *** The dispatcher *)

Definition arg_error (cmd : string) (argnum : Z) : M bool :=
  match lookup cmd argmap with
  | Some (required, usage) =>
      if argnum <? required then error usage ;;; ret true else ret false
  | None => ret false
  end.

Definition get_cmd (fuel : nat) (command : string) : M unit :=
  match parse_line command with
  | None => ret tt
  | Some (command_name, args) =>
      if String.eqb command_name "play"
         && negb (match lookup "play" argmap with
                  | Some (required, _) => required =? len args
                  | None => false
                  end)
      then
        a0 <- lift (getitem args 0) ;;
        respond ("illegal move: " ++ a0 ++ " wrong number of arguments")
      else
        bad <- arg_error command_name (len args) ;;
        if bad then ret tt
        else
          match lookup command_name (commands fuel) with
          | Some handler =>
              try_except_Exception
                (handler args)
                (fun e =>
                   debug_msg ("Error executing command " ++ str_exn e ++ Py.nl) ;;;
                   debug_msg ("Stack Trace:" ++ Py.nl ++ format_exc C e ++ Py.nl) ;;;
                   raise e)
          | None =>
              debug_msg ("Unknown command: " ++ command_name ++ Py.nl) ;;;
              error "Unknown command"
          end
  end.

(** [start_connection] on the lines read from the standard input. *)
Fixpoint start_connection_loop (fuel : nat) (lines : list string) : M unit :=
  match lines with
  | [] => ret tt
  | line :: rest => get_cmd fuel line ;;; start_connection_loop fuel rest
  end.

Definition start_connection (fuel : nat) (lines : list string) : M unit :=
  debug_msg ("Start up successful..." ++ Py.nl ++ Py.nl) ;;;
  start_connection_loop fuel lines.

(** *** Well-formed game trees

    The search relies on the board and the rules for what it never checks
    itself: that every enumerated move decodes to a point, that the board
    takes it by putting the mover's stone on a point that was empty and
    handing the move to the other side, and that the game ends.
    [well_formed n b] checks this for the whole tree below [b], down to
    depth [n]. *)

(** [b'] is [b] after a stone of the side to move was put on the empty
    point [p]. *)
Definition placed (b : GoBoard.t) (p : Z) (b' : GoBoard.t) : bool :=
  (0 <=? p) && (p <? len (GoBoard.board b))
  && match nth_error (GoBoard.board b) (Z.to_nat p) with
     | Some c => c =? EMPTY C
     | None => false
     end
  && GoBoard.eqb b'
       (GoBoard.mk (GoBoard.size b)
          (list_set (GoBoard.board b) (Z.to_nat p) (GoBoard.to_play b))
          (opponent C (GoBoard.to_play b)))
  && (opponent C (opponent C (GoBoard.to_play b)) =? GoBoard.to_play b).

(** One enumerated move [m] at [b]: it decodes, the board takes it as a
    placement, and the position it leads to passes [below]. *)
Definition move_ok (below : GoBoard.t -> bool) (b : GoBoard.t) (m : string) : bool :=
  match move_to_coord C m (GoBoard.size b) with
  | Ok (Some rc) =>
      let point := _coord_to_point C b (fst rc) (snd rc) in
      match move C b point (GoBoard.to_play b) with
      | (b', Ok _) => placed b point b' && below b'
      | (_, Err _) => false
      end
  | _ => false
  end.

Fixpoint well_formed (n : nat) (b : GoBoard.t) : bool :=
  match get_winner C b with
  | Some _ => true
  | None =>
      match n with
      | O => false
      | S n' =>
          match generate_legal_moves C b (GoBoard.to_play b) with
          | Err _ => false
          | Ok moves =>
              forallb (move_ok (well_formed n') b) (Py.split_on " "%char moves)
          end
      end
  end.

(** *** Vocabulary of the statements *)

(** The connection [s] after a search that left the flag [nd], the winning
    moves [wm] and the clock count [ck]: nothing else differs. *)
Definition searched (s : GtpConnection) (nd : bool) (wm : list string) (ck : nat)
  : GtpConnection :=
  mkGtp (_debug_mode s) (komi s) (board s) nd (timelimit s) (starttime s) wm
        (genCall s) (stdout s) (stderr s) ck (draws s).

(** What a frame entered with both flags clear leaves behind. *)
Definition search_post (s : GtpConnection) (r : ab_ret) (s' : GtpConnection) : Prop :=
  exists nd wm ck,
    s' = searched s nd wm ck /\
    (nd = true -> wm = []) /\
    (forall v, r = RInt v -> nd = false /\ wm = []) /\
    (r = RAbort -> nd = true \/ wm <> []).

(** The connection on which [solve_cmd] calls the search: lines 381-384
    have emptied the winning moves, cleared the flag and stored the
    reading of the clock. *)
Definition solve_entry (s : GtpConnection) : GtpConnection :=
  set_starttime (process_time C (clock s))
    (set_clock (S (clock s)) (set_notdone false (set_winMoves [] s))).

(** The connection on which [genmove_cmd] calls [solve_cmd]: lines 326 and
    333-339 have cleared the flag, emptied the winning moves, entered
    generation mode and given the move to the colour asked for. *)
Definition genmove_entry (a0 : string) (s : GtpConnection) : GtpConnection :=
  set_to_play (if String.eqb a0 "b" then BLACK else WHITE)
    (set_genCall true (set_winMoves [] (set_notdone false s))).

(** The elapsed time that the root frame of a [solve] started on [s]
    computes on entry. *)
Definition first_duration (s : GtpConnection) : Q :=
  (process_time C (S (clock s)) - process_time C (clock s))%Q.

(** The [k]-th reading of the clock shows more than the time limit of [s]
    since its start time: the test of line 442 in the frame that takes this
    reading. *)
Definition exceeded (s : GtpConnection) (k : nat) : Prop :=
  Qle_bool (process_time C k - starttime s) (inject_Z (timelimit s)) = false.

(** The readings of the clock taken between [s] and [s'], and the flag of
    [s']: it is set as soon as one of these readings exceeded the limit,
    and only when the last of them did. *)
Definition polled (s s' : GtpConnection) : Prop :=
  (clock s <= clock s')%nat /\
  (forall k, (clock s <= k < clock s')%nat -> exceeded s k -> notdone s' = true) /\
  (notdone s' = true -> (clock s < clock s')%nat /\ exceeded s (pred (clock s'))).

(** The colour token of [stone]. *)
Definition color_token (c : Z) : string := if c =? BLACK then "b" else "w".

Definition is_color (c : Z) : Prop := c = BLACK \/ c = WHITE.

(** The three payloads of [solve_cmd], by the winning moves [wm] and the
    flag [nd] that the search left, for the side to move [c]. *)
Definition solve_payload (c : Z) (nd : bool) (wm : list string) : string :=
  match wm with
  | w :: _ => color_token c ++ " " ++ w
  | [] => if nd then "unknown" else color_token (opponent C c)
  end.

(** The exception that decoding the move string [m] ends in before any move
    is applied, if it does: the one [move_to_coord] raises, or the
    [TypeError] of subscripting the [None] it returns. *)
Definition refused (m : string) (size : Z) : option exn :=
  match move_to_coord C m size with
  | Err e => Some e
  | Ok None => Some (Exception "TypeError" "'NoneType' object is not subscriptable")
  | Ok (Some _) => None
  end.

(** A response as [respond] and [error] frame it. *)
Definition success (payload : string) : string := "= " ++ payload ++ Py.nl ++ Py.nl.
Definition failure (message : string) : string := "? " ++ message ++ Py.nl ++ Py.nl.

End Connection.


(** ** The plain negamax solver *)

Section Negamax.

Variable C : Collaborators.

(** The body of the [for m in ...] loop of [negamaxBoolean], on the moves
    still to try; [rec] is the recursive call and [result] the local
    variable of that name. *)
Fixpoint nb_loop (rec : Z -> M bool) (depth : Z) (ms : list string)
    (result : bool) : M bool :=
  match ms with
  | [] => ret result
  | m :: ms' =>
      s0 <- self ;;
      coord <- lift (move_to_coord C m (GoBoard.size (board s0))) ;;
      rc <- lift (subscript2 coord) ;;
      let point := _coord_to_point C (board s0) (fst rc) (snd rc) in
      on_board (fun b => move C b point (GoBoard.to_play b)) ;;;
      r <- rec (depth + 1) ;;
      let success := negb r in
      undo C point ;;;
      if success then
        (if depth =? 0 then
           modify (fun s => set_winMoves (winMoves s ++ [m])%list s)
         else ret tt) ;;;
        nb_loop rec depth ms' true
      else nb_loop rec depth ms' result
  end.

(** [negamaxBoolean(self, state, depth)] with [state = self.board]: the
    clock is read for [duration], which nothing uses (the test on it is
    commented out). *)
Fixpoint negamaxBoolean (fuel : nat) (depth : Z) : M bool :=
  match fuel with
  | O => fun s => (OutOfFuel, s)
  | S fuel' =>
      now <- time_process_time C ;;
      s0 <- self ;;
      match get_winner C (board s0) with
      | Some w => ret (w =? GoBoard.to_play (board s0))
      | None =>
          moves <- lift (generate_legal_moves C (board s0)
                           (GoBoard.to_play (board s0))) ;;
          nb_loop (negamaxBoolean fuel') depth (Py.split_on " "%char moves) false
      end
  end.

(** *** The game tree, for the statements about the two solvers *)

(** The position that playing the enumerated move [m] at [b] leads to. *)
Definition child (b : GoBoard.t) (m : string) : GoBoard.t :=
  match move_to_coord C m (GoBoard.size b) with
  | Ok (Some rc) =>
      fst (move C b (_coord_to_point C b (fst rc) (snd rc)) (GoBoard.to_play b))
  | _ => b
  end.

(** The moves enumerated at [b] for the side to move. *)
Definition moves_at (b : GoBoard.t) : list string :=
  match generate_legal_moves C b (GoBoard.to_play b) with
  | Ok moves => Py.split_on " "%char moves
  | Err _ => []
  end.

Definition max_of (xs : list Z) : Z :=
  match xs with
  | [] => 0
  | x :: xs' => fold_left Z.max xs' x
  end.

(** The negamax value of [b] for the side to move, down to depth [n]: the
    static evaluation of a position with a winner, else the best of the
    negated values of the positions one move away. *)
Fixpoint value (n : nat) (b : GoBoard.t) : Z :=
  match get_winner C b with
  | Some _ => staticallyEvaluateForToPlay C b
  | None =>
      match n with
      | O => 0
      | S n' => max_of (map (fun m => - value n' (child b m)) (moves_at b))
      end
  end.

(** Whether the side to move at [b] wins, down to depth [n]: it is the
    winner the board reports, or some move leads to a position that the
    other side does not win. *)
Fixpoint wins (n : nat) (b : GoBoard.t) : bool :=
  match get_winner C b with
  | Some w => w =? GoBoard.to_play b
  | None =>
      match n with
      | O => false
      | S n' => existsb (fun m => negb (wins n' (child b m))) (moves_at b)
      end
  end.

(** The moves at [b] after which the other side does not win. *)
Definition winning_moves (n : nat) (b : GoBoard.t) : list string :=
  match get_winner C b with
  | Some _ => []
  | None =>
      match n with
      | O => []
      | S n' => filter (fun m => negb (wins n' (child b m))) (moves_at b)
      end
  end.

(** The clock never shows more than the time limit of [s] since its start
    time: no frame of a search on [s] finds the time exceeded. *)
Definition in_time (s : GtpConnection) : Prop :=
  forall k,
    Qle_bool (process_time C k - starttime s) (inject_Z (timelimit s)) = true.

(** The static evaluation agrees with the winner the board reports: it is
    positive when the side to move is the winner and negative otherwise. *)
Definition signed_evaluation : Prop :=
  forall b w,
    get_winner C b = Some w ->
    (w = GoBoard.to_play b -> 0 < staticallyEvaluateForToPlay C b) /\
    (w <> GoBoard.to_play b -> staticallyEvaluateForToPlay C b < 0).

End Negamax.

(** What a fail-hard search with the window [(alpha, beta)] may return for
    a position of value [v]: a value at most [alpha] when [v] is, at least
    [beta] when [v] is, and [v] itself inside the window. *)
Definition within (alpha beta v r : Z) : Prop :=
  (v <= alpha -> r <= alpha) /\ (beta <= v -> beta <= r) /\
  (alpha < v < beta -> r = v).

(** *** Relations between a connection and a later one *)

(** [s'] differs from [s] at most in the board, the two solver flags and
    the count of clock readings. *)
Definition same_session (s s' : GtpConnection) : Prop :=
  _debug_mode s' = _debug_mode s /\ komi s' = komi s /\
  timelimit s' = timelimit s /\ starttime s' = starttime s /\
  genCall s' = genCall s /\ stdout s' = stdout s /\
  stderr s' = stderr s /\ draws s' = draws s.

(** A string that [respond] or [error] wrote. *)
Definition framed (r : string) : Prop :=
  exists payload, r = "= " ++ payload ++ Py.nl ++ Py.nl
                  \/ r = "? " ++ payload ++ Py.nl ++ Py.nl.

(** [s'] has the output of [s] followed by framed responses only, and the
    same debug mode; out of debug mode it has the same standard error. *)
Definition framed_output (s s' : GtpConnection) : Prop :=
  (exists rs, stdout s' = (stdout s ++ rs)%list /\ Forall framed rs) /\
  _debug_mode s' = _debug_mode s /\
  (_debug_mode s = false -> stderr s' = stderr s).


(** [s'] has the komi and the time limit of [s]. *)
Definition same_settings (s s' : GtpConnection) : Prop :=
  komi s' = komi s /\ timelimit s' = timelimit s.

(** A method after which the connection is always related by [R] to the
    one it started on, however it ends. *)
Definition respects (R : GtpConnection -> GtpConnection -> Prop)
    {A : Type} (m : M A) : Prop :=
  forall s, R s (snd (m s)).

(** The tokens that [split] cuts out are not empty and hold no
    whitespace. *)
Definition token (t : string) : Prop :=
  t <> EmptyString /\ forallb (fun c => negb (Py.isspace c)) (list_ascii_of_string t) = true.

(** The commands whose handlers reach for the board: the first six call
    methods that change it or run the search on it, the last three hand it
    to a method or a function that reports on it. *)
Definition board_commands : list string :=
  ["boardsize"; "clear_board"; "set_free_handicap"; "play"; "genmove"; "solve";
   "showboard"; "final_score"; "legal_moves"].

(** ** A reference board *)

Module Ref.

(** Modelled from the spec: a Board and a MoveCodec/Rules pair with the
    interface of the external collaborators ([board.py] and [board_util.py]
    are not part of the sources), small enough to run the connection on
    concrete positions.  The grid is [size * size] points, row after row; a
    move is accepted on an empty point of the grid, puts the stone there and
    passes the turn, and a rejected move leaves the position unchanged; the
    side to move loses when no point is empty.  The definitions below are
    the parts of that pair. *)

(** Modelled from the spec: the column letters of the coordinate grammar. *)
Definition columns : string := "abcdefghjklmnopqrstuvwxyz".

(** Modelled from the spec: the code of an EMPTY cell. *)
Definition empty : Z := 0.

(** Modelled from the spec: the other side. *)
Definition opponent (c : Z) : Z := BLACK + WHITE - c.

(** Modelled from the spec: the coordinate conversions of the Board. *)
Definition coord_to_point (b : GoBoard.t) (row col : Z) : Z :=
  (row - 1) * GoBoard.size b + (col - 1).

Definition point_to_coord (b : GoBoard.t) (p : Z) : res (Z * Z) :=
  if GoBoard.size b <=? 0 then Err (Exception "ZeroDivisionError" "division by zero")
  else Ok (p / GoBoard.size b + 1, p mod GoBoard.size b + 1).

(** Modelled from the spec: the coordinate string of a point, a column
    letter (there is no column i) and a row number. *)
Definition format_point (rc : Z * Z) : res string :=
  match String.get (Z.to_nat (snd rc - 1)) columns with
  | Some c => if 1 <=? snd rc then Ok (String c (Py.str_of_Z (fst rc)))
              else Err (Exception "ValueError" "wrong coordinate")
  | None => Err (Exception "ValueError" "wrong coordinate")
  end.

Fixpoint index_of (c : ascii) (s : string) (i : Z) : option Z :=
  match s with
  | EmptyString => None
  | String c' s' => if Ascii.eqb c c' then Some i else index_of c s' (i + 1)
  end.

Definition wrong_coordinate {A : Type} : res A :=
  Err (Exception "ValueError" "wrong coordinate").

(** Modelled from the spec: the coordinates that a move string denotes;
    a string that is no coordinate of the board is refused. *)
Definition move_to_coord (point : string) (board_size : Z) : res (option (Z * Z)) :=
  let s := Py.lower point in
  if String.eqb s "pass" then Ok None
  else
    match s with
    | EmptyString => wrong_coordinate
    | String col_c rest =>
        match index_of col_c columns 1, int_of_str rest with
        | Some col, Ok row =>
            if (1 <=? row) && (row <=? board_size) && (col <=? board_size)
            then Ok (Some (row, col))
            else wrong_coordinate
        | _, _ => wrong_coordinate
        end
    end.

(** Modelled from the spec: the colour enum of a colour token. *)
Definition color_to_int (c : string) : res Z :=
  if String.eqb c "b" then Ok BLACK
  else if String.eqb c "w" then Ok WHITE
  else Err (Exception "ValueError" "wrong color").

Definition is_empty_point (b : GoBoard.t) (p : Z) : bool :=
  (0 <=? p)
  && match nth_error (GoBoard.board b) (Z.to_nat p) with
     | Some c => c =? empty
     | None => false
     end.

(** Modelled from the spec: the Board reinitialised to a size. *)
Definition reset (b : GoBoard.t) (size : Z) : GoBoard.t * res unit :=
  (GoBoard.mk size (repeat empty (Z.to_nat (size * size))) BLACK, Ok tt).

(** Modelled from the spec: [move(point, color) -> legal], which leaves a
    rejected position unchanged. *)
Definition move (b : GoBoard.t) (p color : Z) : GoBoard.t * res bool :=
  if is_empty_point b p then
    (GoBoard.mk (GoBoard.size b) (list_set (GoBoard.board b) (Z.to_nat p) color)
                (opponent color), Ok true)
  else (b, Ok false).

(** Modelled from the spec: the Board's legality check. *)
Definition check_legal (b : GoBoard.t) (p color : Z) : res bool :=
  Ok (is_empty_point b p).

Definition empty_points (b : GoBoard.t) : list Z :=
  filter (is_empty_point b) (map Z.of_nat (seq 0 (List.length (GoBoard.board b)))).

(** Modelled from the spec: winner detection, [None] while the game runs. *)
Definition get_winner (b : GoBoard.t) : option Z :=
  match empty_points b with
  | [] => Some (opponent (GoBoard.to_play b))
  | _ => None
  end.

(** Modelled from the spec: the static evaluation of a terminal position
    for the side to move, +1 for a win and -1 for a loss. *)
Definition staticallyEvaluateForToPlay (b : GoBoard.t) : Z :=
  match get_winner b with
  | Some w => if w =? GoBoard.to_play b then 1 else -1
  | None => 0
  end.

Fixpoint format_all (b : GoBoard.t) (ps : list Z) : res (list string) :=
  match ps with
  | [] => Ok []
  | p :: ps' =>
      match point_to_coord b p with
      | Err e => Err e
      | Ok rc =>
          match format_point rc, format_all b ps' with
          | Ok m, Ok ms => Ok (m :: ms)
          | Err e, _ => Err e
          | _, Err e => Err e
          end
      end
  end.

(** Modelled from the spec: the legal moves as a space-joined list of
    move strings. *)
Definition generate_legal_moves (b : GoBoard.t) (color : Z) : res string :=
  match format_all b (empty_points b) with
  | Ok ms => Ok (Py.join " " ms)
  | Err e => Err e
  end.

(** Modelled from the spec: a legal move picked by the random draw. *)
Definition generate_random_move (b : GoBoard.t) (color : Z) (draw : nat) : res Z :=
  match empty_points b with
  | [] => Err (Exception "ValueError" "no legal move")
  | p :: ps => Ok (nth (draw mod S (List.length ps)) (p :: ps) p)
  end.

Definition get_twoD_board (b : GoBoard.t) : string :=
  Py.join " " (map Py.str_of_Z (GoBoard.board b)).

Definition float_of_str (s : string) : res Q :=
  match int_of_str s with
  | Ok z => Ok (inject_Z z)
  | Err _ => Err (Exception "ValueError" ("could not convert string to float: '" ++ s ++ "'"))
  end.

(** Modelled from the spec: the same board, rejecting a move by raising
    with a detail instead of returning false. *)
Definition move_or_raise (b : GoBoard.t) (p color : Z) : GoBoard.t * res bool :=
  if is_empty_point b p then move b p color
  else (b, Err (Exception "ValueError" "occupied")).

(** The collaborators over a clock [time], a winner detection [winner], a
    legality check [legal] and a way [mover] to play a move. *)
Definition collaborators_with (time : nat -> Q)
    (winner : GoBoard.t -> option Z)
    (legal : GoBoard.t -> Z -> Z -> res bool)
    (mover : GoBoard.t -> Z -> Z -> GoBoard.t * res bool) : Collaborators :=
  Build_Collaborators
    empty reset mover legal winner staticallyEvaluateForToPlay
    coord_to_point point_to_coord get_twoD_board (fun _ _ => Ok "0")
    color_to_int move_to_coord generate_legal_moves generate_random_move
    format_point opponent
    "NoGo2" "0.0"
    time float_of_str
    (fun e => "Traceback (most recent call last): " ++ str_exn e).

(** A clock that advances by a millisecond between two readings. *)
Definition millis (k : nat) : Q := (Z.of_nat k # 1000)%Q.

Definition collaborators : Collaborators :=
  collaborators_with millis get_winner check_legal move.

(** The empty board of the given size, Black to move. *)
Definition fresh (size : Z) : GoBoard.t := fst (reset (GoBoard.mk 0 [] BLACK) size).

Definition start (size : Z) : GtpConnection := init false (fresh size).

(** A slow machine: half a second between two readings of the clock. *)
Definition half_seconds (k : nat) : Q := (Z.of_nat k # 2)%Q.

Definition slow : Collaborators :=
  collaborators_with half_seconds get_winner check_legal move.

(** A board whose winner detection never fires. *)
Definition no_winner : Collaborators :=
  collaborators_with millis (fun _ => None) check_legal move.

(** A board whose legality check refuses every move. *)
Definition rejecting : Collaborators :=
  collaborators_with millis get_winner (fun _ _ _ => Ok false) move.

(** A board that raises on a move it rejects. *)
Definition raising : Collaborators :=
  collaborators_with millis get_winner check_legal move_or_raise.

(** A line as [readline] returns it. *)
Definition line (s : string) : string := s ++ Py.nl.

(** The 1 x 1 board after Black played its only point: White is to move
    and has lost. *)
Definition full1 : GtpConnection := init false (GoBoard.mk 1 [BLACK] WHITE).

(** The 2 x 2 board after [play b a1]. *)
Definition after_a1 : GtpConnection :=
  snd (get_cmd collaborators 0 (line "play b a1") (start 2)).

(** A clock that stands still: no search runs out of time. *)
Definition frozen : Collaborators :=
  collaborators_with (fun _ => 0%Q) get_winner check_legal move.

(** The empty 2 x 2 board in generation mode. *)
Definition generating : GtpConnection := set_genCall true (start 2).

(** The empty 2 x 2 board with a time limit of zero seconds. *)
Definition hurried : GtpConnection := set_timelimit 0 (start 2).


End Ref.

(** ** Properties *)

(** *** Arrays *)

Lemma list_set_length {A : Type} (l : list A) (i : nat) (a : A) :
  List.length (list_set l i a) = List.length l.
Proof.
  revert i; induction l as [|x l IH]; intros [|i]; simpl; auto.
Qed.

Lemma list_set_undo {A : Type} (l : list A) (i : nat) (a e : A) :
  nth_error l i = Some e -> list_set (list_set l i a) i e = l.
Proof.
  revert i; induction l as [|x l IH]; intros [|i]; simpl; intros H;
    try discriminate.
  - now inversion H.
  - now rewrite IH.
Qed.

Lemma GoBoard_eqb_eq (a b : GoBoard.t) : GoBoard.eqb a b = true -> a = b.
Proof.
  destruct a as [sa ga ta], b as [sb gb tb]; unfold GoBoard.eqb; simpl.
  destruct (list_eq_dec Z.eq_dec ga gb) as [->|]; rewrite ?andb_false_r;
    try discriminate.
  rewrite andb_true_r, andb_true_iff, !Z.eqb_eq. now intros [-> ->].
Qed.

Lemma board_eta (b : GoBoard.t) :
  GoBoard.mk (GoBoard.size b) (GoBoard.board b) (GoBoard.to_play b) = b.
Proof. now destruct b. Qed.

(** *** Running the monad *)

Lemma bind_Return {A B : Type} (m : M A) (f : A -> M B) s a s' :
  m s = (Return a, s') -> bind m f s = f a s'.
Proof. unfold bind; now intros ->. Qed.

Section Search.

Variable C : Collaborators.

Lemma alphabeta_S fuel alpha beta d :
  alphabeta C (S fuel) alpha beta d =
  (now <- time_process_time C ;;
   s0 <- self ;;
   let duration := (now - starttime s0)%Q in
   if notdone s0 || negb (is_nil (winMoves s0)) then ret RAbort
   else if negb (Qle_bool duration (inject_Z (timelimit s0))) then
     modify (set_notdone true) ;;; ret RAbort
   else
     match get_winner C (board s0) with
     | Some _ => ret (RInt (staticallyEvaluateForToPlay C (board s0)))
     | None =>
         moves <- lift (generate_legal_moves C (board s0) (GoBoard.to_play (board s0))) ;;
         ab_loop C (alphabeta C fuel) beta d (Py.split_on " "%char moves) alpha
     end).
Proof. reflexivity. Qed.

(** Entered with the flag set or a winning move recorded, a frame reads the
    clock and returns ['a']. *)
Lemma alphabeta_entry_abort fuel alpha beta d s :
  notdone s = true \/ winMoves s <> [] ->
  alphabeta C (S fuel) alpha beta d s = (Return RAbort, set_clock (S (clock s)) s).
Proof.
  intros H. rewrite alphabeta_S. unfold bind, time_process_time, self; simpl.
  destruct H as [-> | H]; [reflexivity|].
  destruct (winMoves s); [congruence|]. now rewrite orb_true_r.
Qed.

Lemma placed_spec b p b' :
  placed C b p b' = true ->
  setitem (GoBoard.board b') p (EMPTY C) = Ok (GoBoard.board b) /\
  GoBoard.size b' = GoBoard.size b /\
  opponent C (GoBoard.to_play b') = GoBoard.to_play b.
Proof.
  unfold placed. rewrite !andb_true_iff.
  intros [[[[Hlo Hhi] Hnth] Heq] Hopp].
  apply GoBoard_eqb_eq in Heq. subst b'. simpl.
  apply Z.leb_le in Hlo. apply Z.ltb_lt in Hhi. apply Z.eqb_eq in Hopp.
  unfold len in Hhi.
  destruct (nth_error (GoBoard.board b) (Z.to_nat p)) as [c|] eqn:E; [|discriminate].
  apply Z.eqb_eq in Hnth. subst c.
  repeat split; auto.
  unfold setitem. rewrite list_set_length.
  destruct (p <? 0) eqn:E1; [apply Z.ltb_lt in E1; lia|].
  assert (H1 : (0 <=? p) && (p <? Z.of_nat (List.length (GoBoard.board b))) = true).
  { apply andb_true_iff. split; [now apply Z.leb_le | now apply Z.ltb_lt]. }
  rewrite H1. f_equal. now apply list_set_undo.
Qed.

Lemma undo_ok p s g :
  setitem (GoBoard.board (board s)) p (EMPTY C) = Ok g ->
  undo C p s =
  (Return tt,
   set_board (GoBoard.mk (GoBoard.size (board s)) g
                (opponent C (GoBoard.to_play (board s)))) s).
Proof.
  intros H. unfold undo, bind, self, lift, modify. rewrite H. reflexivity.
Qed.

Lemma well_formed_S n b :
  well_formed C (S n) b =
  match get_winner C b with
  | Some _ => true
  | None =>
      match generate_legal_moves C b (GoBoard.to_play b) with
      | Err _ => false
      | Ok moves => forallb (move_ok C (well_formed C n) b) (Py.split_on " "%char moves)
      end
  end.
Proof. reflexivity. Qed.

(** The loop of a frame entered with both flags clear, over moves that are
    well formed: it returns, and the board is as it was. *)
Lemma ab_loop_wf n fuel beta d :
  (forall s alpha beta d,
      well_formed C n (board s) = true -> notdone s = false -> winMoves s = [] ->
      exists r s', alphabeta C fuel alpha beta d s = (Return r, s') /\ search_post s r s') ->
  forall ms s alpha,
    forallb (move_ok C (well_formed C n) (board s)) ms = true ->
    notdone s = false -> winMoves s = [] ->
    exists r s',
      ab_loop C (alphabeta C fuel) beta d ms alpha s = (Return r, s') /\
      search_post s r s'.
Proof.
  intros IH ms. induction ms as [|m ms IHms]; intros s alpha Hms Hnd Hwm.
  - exists (RInt alpha), s. split; [reflexivity|].
    exists false, []. exists (clock s). destruct s; simpl in *; subst.
    repeat split; auto; discriminate.
  - simpl in Hms. apply andb_true_iff in Hms. destruct Hms as [Hm Hms].
    unfold move_ok in Hm.
    destruct (move_to_coord C m (GoBoard.size (board s))) as [[rc|]|] eqn:Ecoord;
      try discriminate.
    set (p := _coord_to_point C (board s) (fst rc) (snd rc)) in *.
    destruct (move C (board s) p (GoBoard.to_play (board s))) as [b' [ok|]] eqn:Emove;
      try discriminate.
    apply andb_true_iff in Hm. destruct Hm as [Hplaced Hwf].
    apply placed_spec in Hplaced. destruct Hplaced as (Hset & Hsize & Hopp).
    destruct (IH (set_board b' s) (- beta) (- alpha) (d + 1) Hwf Hnd Hwm)
      as (r1 & s2 & Hrec & nd & wm & ck & -> & Hflag & Hint & Habort).
    assert (Hundo : undo C p (searched (set_board b' s) nd wm ck) =
                    (Return tt, searched s nd wm ck)).
    { rewrite undo_ok with (g := GoBoard.board (board s)) by exact Hset.
      simpl. rewrite Hsize, Hopp, board_eta. reflexivity. }
    cbn [ab_loop].
    rewrite (bind_Return _ _ s s s) by reflexivity.
    rewrite Ecoord.
    rewrite (bind_Return _ _ s (Some rc) s) by reflexivity.
    rewrite (bind_Return _ _ s rc s) by reflexivity.
    fold p.
    rewrite (bind_Return _ _ s ok (set_board b' s))
      by (unfold on_board; rewrite Emove; reflexivity).
    destruct r1 as [v|].
    + destruct (Hint v eq_refl) as [-> ->].
      rewrite (bind_Return _ _ _ (Some (- v)) (searched (set_board b' s) false [] ck))
        by (unfold try_except, bind; rewrite Hrec; reflexivity).
      rewrite (bind_Return _ _ _ tt _ Hundo).
      destruct ((alpha <? - v) && (d =? 0) && (0 <=? - v)) eqn:Ewin.
      * exists RAbort, (searched s false [m] ck). split; [reflexivity|].
        exists false, [m], ck. repeat split; try discriminate.
        intros _. right. discriminate.
      * rewrite (bind_Return self _ (searched s false [] ck) _ _ eq_refl).
        cbn [notdone winMoves searched is_nil orb negb].
        destruct (beta <=? - v) eqn:Ecut.
        -- exists (RInt beta), (searched s false [] ck). split; [reflexivity|].
           exists false, [], ck. repeat split; auto; discriminate.
        -- destruct (IHms (searched s false [] ck) (if alpha <? - v then - v else alpha))
             as (r & s' & Hloop & nd' & wm' & ck' & -> & Hpost); auto.
           exists r, (searched s nd' wm' ck'). split; [exact Hloop|].
           exists nd', wm', ck'. split; [reflexivity | exact Hpost].
    + rewrite (bind_Return _ _ _ None (searched s nd wm ck)).
      * exists RAbort, (searched s nd wm ck). split; [reflexivity|].
        exists nd, wm, ck. repeat split; auto; discriminate.
      * unfold try_except. rewrite (bind_Return _ _ _ _ _ Hrec).
        unfold lift at 1, neg_int, raise, bind at 1.
        rewrite (bind_Return _ _ _ tt _ Hundo). reflexivity.
Qed.

(** A frame entered with both flags clear on a well-formed tree, with fuel
    for its depth. *)
Lemma alphabeta_wf n :
  forall fuel s alpha beta d,
    (n < fuel)%nat ->
    well_formed C n (board s) = true -> notdone s = false -> winMoves s = [] ->
    exists r s', alphabeta C fuel alpha beta d s = (Return r, s') /\ search_post s r s'.
Proof.
  induction n as [|n IHn]; intros [|fuel] s alpha beta d Hfuel Hwf Hnd Hwm;
    try lia; rewrite alphabeta_S;
    unfold bind at 1, time_process_time at 1;
    rewrite (bind_Return self _ (set_clock (S (clock s)) s) _ _ eq_refl);
    cbn [notdone winMoves set_clock timelimit starttime board];
    rewrite Hnd, Hwm; cbn [is_nil orb negb];
    (destruct (Qle_bool _ _); cbn [negb];
     [| exists RAbort, (searched s true [] (S (clock s))); split;
        [destruct s; simpl in *; subst; reflexivity|];
        exists true, [], (S (clock s)); repeat split; auto; discriminate]).
  - simpl in Hwf.
    destruct (get_winner C (board s)); [|discriminate].
    eexists _, _. split; [reflexivity|].
    exists false, [], (S (clock s)). destruct s; simpl in *; subst.
    repeat split; auto; discriminate.
  - rewrite well_formed_S in Hwf.
    destruct (get_winner C (board s)).
    + eexists _, _. split; [reflexivity|].
      exists false, [], (S (clock s)). destruct s; simpl in *; subst.
      repeat split; auto; discriminate.
    + destruct (generate_legal_moves C (board s) (GoBoard.to_play (board s)))
        as [moves|] eqn:Emoves; [|discriminate].
      rewrite (bind_Return _ _ _ moves _ eq_refl).
      destruct (ab_loop_wf n fuel beta d) with
        (ms := Py.split_on " "%char moves) (s := set_clock (S (clock s)) s) (alpha := alpha)
        as (r & s' & Hloop & nd & wm & ck & -> & Hpost); auto.
      intros s0 a b0 d0. apply IHn. lia.
      exists r, (searched s nd wm ck). split; [exact Hloop|].
      exists nd, wm, ck. split; [reflexivity | exact Hpost].
Qed.

(** A frame entered with both flags clear and within the time limit, on a
    position of which the board reports a winner. *)
Lemma alphabeta_terminal fuel alpha beta d s w :
  notdone s = false ->
  winMoves s = [] ->
  Qle_bool (process_time C (clock s) - starttime s) (inject_Z (timelimit s)) = true ->
  get_winner C (board s) = Some w ->
  alphabeta C (S fuel) alpha beta d s =
  (Return (RInt (staticallyEvaluateForToPlay C (board s))), set_clock (S (clock s)) s).
Proof.
  intros Hnd Hwm Htime Hwin.
  rewrite alphabeta_S.
  unfold bind at 1, time_process_time at 1.
  rewrite (bind_Return self _ (set_clock (S (clock s)) s) _ _ eq_refl).
  cbn [notdone winMoves set_clock timelimit starttime board].
  rewrite Hnd, Hwm, Htime, Hwin. reflexivity.
Qed.

(** A frame entered with both flags clear after the time limit. *)
Lemma alphabeta_late fuel alpha beta d s :
  notdone s = false ->
  winMoves s = [] ->
  Qle_bool (process_time C (clock s) - starttime s) (inject_Z (timelimit s)) = false ->
  alphabeta C (S fuel) alpha beta d s =
  (Return RAbort, set_notdone true (set_clock (S (clock s)) s)).
Proof.
  intros Hnd Hwm Htime.
  rewrite alphabeta_S.
  unfold bind at 1, time_process_time at 1.
  rewrite (bind_Return self _ (set_clock (S (clock s)) s) _ _ eq_refl).
  cbn [notdone winMoves set_clock timelimit starttime board].
  rewrite Hnd, Hwm, Htime. reflexivity.
Qed.

(** *** The undo discipline *)

(** C3: on a well-formed game tree, every frame of the search, root or not
    and whatever the flags on entry, returns, and the board it leaves is the
    board it found, whichever way it returns (all moves tried, beta cutoff,
    winning move recorded at the root, abort passed up); the same holds of
    the loop over any run of siblings still to examine. *)
Theorem alphabeta_restores_board (n fuel : nat) (s : GtpConnection)
    (alpha beta d : Z) :
  well_formed C n (board s) = true ->
  (n < fuel)%nat ->
  (exists r s',
      alphabeta C fuel alpha beta d s = (Return r, s') /\ board s' = board s) /\
  (forall siblings lower,
      notdone s = false -> winMoves s = [] ->
      forallb (move_ok C (well_formed C n) (board s)) siblings = true ->
      exists r s',
        ab_loop C (alphabeta C fuel) beta d siblings lower s = (Return r, s') /\
        board s' = board s).
Proof.
  intros Hwf Hfuel. split.
  - destruct (notdone s) eqn:Hnd.
    + destruct fuel as [|fuel]; [lia|].
      rewrite alphabeta_entry_abort by auto. eexists _, _. split; reflexivity.
    + destruct (winMoves s) as [|w ws] eqn:Hwm.
      * destruct (alphabeta_wf n fuel s alpha beta d Hfuel Hwf Hnd Hwm)
          as (r & s' & Hrun & nd & wm & ck & -> & _).
        exists r, (searched s nd wm ck). split; [exact Hrun | reflexivity].
      * destruct fuel as [|fuel]; [lia|].
        rewrite alphabeta_entry_abort by (right; congruence).
        eexists _, _. split; reflexivity.
  - intros siblings lower Hnd Hwm Hms.
    destruct (ab_loop_wf n fuel beta d) with (ms := siblings) (s := s) (alpha := lower)
      as (r & s' & Hloop & nd & wm & ck & -> & _); auto.
    + intros s0 a b0 d0. now apply alphabeta_wf.
    + exists r, (searched s nd wm ck). split; [exact Hloop | reflexivity].
Qed.

(** *** What [solve] answers *)

Lemma solve_cmd_unfold fuel args s :
  solve_cmd C fuel args s =
  (win <- alphabeta C fuel (-100000) 100000 0 ;;
   s0 <- self ;;
   if negb (genCall s0) then
     if negb (len (winMoves s0) =? 0) then
       tok <- lift (getitem stone (GoBoard.to_play (board s0))) ;;
       w0 <- lift (getitem (winMoves s0) 0) ;;
       respond (tok ++ " " ++ w0)
     else if notdone s0 then respond "unknown"
     else
       tok <- lift (getitem stone (opponent C (GoBoard.to_play (board s0)))) ;;
       respond tok
   else ret tt) (solve_entry C s).
Proof. reflexivity. Qed.

Lemma len_cons_nonzero {A : Type} (x : A) (l : list A) :
  negb (len (x :: l) =? 0) = true.
Proof.
  apply negb_true_iff, Z.eqb_neq. unfold len. simpl List.length. lia.
Qed.

Lemma stone_color c : is_color c -> getitem stone c = Ok (color_token c).
Proof. intros [-> | ->]; reflexivity. Qed.

Lemma solve_entry_wf fuel n s :
  well_formed C n (board s) = true -> (n < fuel)%nat ->
  exists r nd wm ck,
    alphabeta C fuel (-100000) 100000 0 (solve_entry C s) =
      (Return r, searched (solve_entry C s) nd wm ck) /\
    (nd = true -> wm = []) /\
    (forall v, r = RInt v -> nd = false /\ wm = []) /\
    (r = RAbort -> nd = true \/ wm <> []).
Proof.
  intros Hwf Hfuel.
  destruct (alphabeta_wf n fuel (solve_entry C s) (-100000) 100000 0 Hfuel)
    as (r & s' & Hrun & nd & wm & ck & -> & Hpost); auto.
  exists r, nd, wm, ck. split; [exact Hrun | exact Hpost].
Qed.

(** C1: outside generation mode, on a well-formed game tree with a side to
    move, [solve] writes exactly one response, decided by the winning moves
    and the flag the search leaves: the token of the side to move and the
    first winning move when one was recorded, else the opponent's token when
    the flag is clear, else [unknown]. *)
Theorem solve_cmd_response (fuel n : nat) (args : list string) (s : GtpConnection) :
  genCall s = false ->
  well_formed C n (board s) = true ->
  (n < fuel)%nat ->
  is_color (GoBoard.to_play (board s)) ->
  opponent C BLACK = WHITE ->
  opponent C WHITE = BLACK ->
  exists nd wm ck,
    solve_cmd C fuel args s =
    (Return tt,
     set_stdout
       (stdout s ++ [success (solve_payload C (GoBoard.to_play (board s)) nd wm)])%list
       (searched (solve_entry C s) nd wm ck)).
Proof.
  intros Hgen Hwf Hfuel Hcol Hob How.
  destruct (solve_entry_wf fuel n s Hwf Hfuel) as (r & nd & wm & ck & Hrun & _).
  exists nd, wm, ck.
  rewrite solve_cmd_unfold, (bind_Return _ _ _ _ _ Hrun).
  rewrite (bind_Return self _ (searched (solve_entry C s) nd wm ck) _ _ eq_refl).
  cbn [genCall searched solve_entry winMoves notdone board
       set_starttime set_clock set_notdone set_winMoves].
  rewrite Hgen. cbn [negb].
  destruct wm as [|w ws].
  - cbn [len List.length Z.of_nat Z.eqb negb]. destruct nd; [reflexivity|].
    assert (Hopp : is_color (opponent C (GoBoard.to_play (board s)))).
    { destruct Hcol as [-> | ->]; [rewrite Hob; now right | rewrite How; now left]. }
    rewrite (stone_color _ Hopp). reflexivity.
  - rewrite len_cons_nonzero. rewrite (stone_color _ Hcol). reflexivity.
Qed.

(** C8: when the board already reports a winner as [solve] is invoked, the
    winner being the opponent of the side to move: if the elapsed time on
    entry of the root frame is within the limit, the response is the
    winner's colour token; if it already exceeds the limit, the response is
    [unknown]. *)
Theorem solve_cmd_terminal (fuel : nat) (args : list string) (s : GtpConnection)
    (w : Z) :
  genCall s = false ->
  get_winner C (board s) = Some w ->
  w = opponent C (GoBoard.to_play (board s)) ->
  is_color w ->
  let in_time := Qle_bool (first_duration C s) (inject_Z (timelimit s)) in
  solve_cmd C (S fuel) args s =
  (Return tt,
   set_stdout
     (stdout s ++ [success (if in_time then color_token w else "unknown")])%list
     (searched (solve_entry C s) (negb in_time) [] (S (S (clock s))))).
Proof.
  intros Hgen Hwin Hw Hcol in_time. subst in_time.
  rewrite solve_cmd_unfold.
  destruct (Qle_bool (first_duration C s) (inject_Z (timelimit s))) eqn:Htime.
  - rewrite (bind_Return _ _ _ _ _
               (alphabeta_terminal fuel _ _ _ (solve_entry C s) w eq_refl eq_refl Htime Hwin)).
    rewrite (bind_Return self _ _ _ _ eq_refl).
    cbn [genCall winMoves notdone board set_clock set_starttime set_notdone
         set_winMoves solve_entry].
    rewrite Hgen. cbn [negb len List.length Z.of_nat Z.eqb].
    rewrite <- Hw, (stone_color _ Hcol). reflexivity.
  - rewrite (bind_Return _ _ _ _ _
               (alphabeta_late fuel _ _ _ (solve_entry C s) eq_refl eq_refl Htime)).
    rewrite (bind_Return self _ _ _ _ eq_refl).
    cbn [genCall winMoves notdone board set_clock set_starttime set_notdone
         set_winMoves solve_entry].
    rewrite Hgen. reflexivity.
Qed.

(** *** An empty enumeration *)

(** C9: in a frame entered with both flags clear and within the time limit,
    on a position of which the board reports no winner and the rules
    enumerate no move, the loop runs once on the empty move string; when the
    codec refuses that string (it raises, or returns [None]), the error is
    raised out of the frame, board and flags untouched: the position is not
    treated as terminal. *)
Theorem alphabeta_empty_enumeration (fuel : nat) (alpha beta d : Z)
    (s : GtpConnection) (e : exn) :
  notdone s = false ->
  winMoves s = [] ->
  Qle_bool (process_time C (clock s) - starttime s) (inject_Z (timelimit s)) = true ->
  get_winner C (board s) = None ->
  generate_legal_moves C (board s) (GoBoard.to_play (board s)) = Ok EmptyString ->
  refused C EmptyString (GoBoard.size (board s)) = Some e ->
  alphabeta C (S fuel) alpha beta d s = (Raise e, set_clock (S (clock s)) s).
Proof.
  intros Hnd Hwm Htime Hwin Hmoves Hcoord.
  rewrite alphabeta_S.
  unfold bind at 1, time_process_time at 1.
  rewrite (bind_Return self _ (set_clock (S (clock s)) s) _ _ eq_refl).
  cbn [notdone winMoves set_clock timelimit starttime board].
  rewrite Hnd, Hwm, Htime, Hwin, Hmoves. cbn [is_nil orb negb].
  rewrite (bind_Return _ _ _ EmptyString _ eq_refl).
  cbn [Py.split_on Py.split_on_go list_ascii_of_string rev string_of_list_ascii ab_loop].
  rewrite (bind_Return self _ (set_clock (S (clock s)) s) _ _ eq_refl).
  cbn [board set_clock]. unfold refused in Hcoord.
  destruct (move_to_coord C EmptyString (GoBoard.size (board s))) as [[rc|]|e'];
    inversion Hcoord; subst; reflexivity.
Qed.

(** *** The flag across commands *)
















(** *** The dispatcher *)

(** [known_command] and [list_commands] see the keys of the table that
    the dispatcher looks handlers up in. *)
Lemma commands_keys fuel : map fst (commands C fuel) = command_names.
Proof. reflexivity. Qed.

Lemma getitem_0 {A : Type} (a : A) (l : list A) : getitem (a :: l) 0 = Ok a.
Proof.
  unfold getitem. cbn [Z.ltb Z.compare].
  replace ((0 <=? 0) && (0 <? Z.of_nat (List.length (a :: l)))) with true.
  - reflexivity.
  - symmetry. apply andb_true_iff. split; [reflexivity|].
    apply Z.ltb_lt. simpl List.length. lia.
Qed.

Lemma arg_error_enough cmd required usage n s :
  lookup cmd argmap = Some (required, usage) -> required <= n ->
  arg_error cmd n s = (Return false, s).
Proof.
  intros H Hn. unfold arg_error. rewrite H.
  replace (n <? required) with false; [reflexivity|].
  symmetry. apply Z.ltb_ge. exact Hn.
Qed.

(** C7: a [play] line with one argument, or with three or more, gets the
    success-framed response [= illegal move: <first-arg> wrong number of
    arguments]; nothing else changes, the handler is not run. *)
Theorem play_wrong_arity (fuel : nat) (line a0 : string) (rest : list string)
    (s : GtpConnection) :
  parse_line line = Some ("play", a0 :: rest) ->
  len (a0 :: rest) <> 2 ->
  get_cmd C fuel line s =
  (Return tt,
   set_stdout
     (stdout s ++ [success ("illegal move: " ++ a0 ++ " wrong number of arguments")])%list
     s).
Proof.
  intros Hline Hlen. unfold get_cmd. rewrite Hline.
  cbn [String.eqb Ascii.eqb Bool.eqb lookup argmap andb].
  replace (2 =? len (a0 :: rest)) with false
    by (symmetry; apply Z.eqb_neq; congruence).
  cbn [negb]. rewrite getitem_0. reflexivity.
Qed.

Lemma getitem_1 {A : Type} (a b : A) (l : list A) : getitem (a :: b :: l) 1 = Ok b.
Proof.
  unfold getitem. cbn [Z.ltb Z.compare].
  replace ((0 <=? 1) && (1 <? Z.of_nat (List.length (a :: b :: l)))) with true.
  - reflexivity.
  - symmetry. apply andb_true_iff. split; [reflexivity|].
    apply Z.ltb_lt. simpl List.length. lia.
Qed.

(** A line that passes the two arity checks reaches its handler. *)
Lemma get_cmd_dispatch fuel line cmd args handler s :
  parse_line line = Some (cmd, args) ->
  (cmd = "play" -> len args = 2) ->
  (forall required usage,
      lookup cmd argmap = Some (required, usage) -> required <= len args) ->
  lookup cmd (commands C fuel) = Some handler ->
  get_cmd C fuel line s =
  try_except_Exception (handler args)
    (fun e =>
       debug_msg ("Error executing command " ++ str_exn e ++ Py.nl) ;;;
       debug_msg ("Stack Trace:" ++ Py.nl ++ format_exc C e ++ Py.nl) ;;;
       raise e) s.
Proof.
  intros Hline Hplay Harity Hh. unfold get_cmd. rewrite Hline.
  assert (Hskip : String.eqb cmd "play"
                  && negb match lookup "play" argmap with
                          | Some (required, _) => required =? len args
                          | None => false
                          end = false).
  { destruct (String.eqb cmd "play") eqn:E; [|reflexivity].
    apply String.eqb_eq in E. rewrite (Hplay E). reflexivity. }
  rewrite Hskip.
  assert (Harg : arg_error cmd (len args) s = (Return false, s)).
  { destruct (lookup cmd argmap) as [[required usage]|] eqn:El.
    - eapply arg_error_enough; eauto.
    - unfold arg_error. rewrite El. reflexivity. }
  rewrite (bind_Return _ _ _ _ _ Harg). rewrite Hh. reflexivity.
Qed.

(** [play_cmd] on two arguments that decode, by what the board does. *)
Lemma play_cmd_run c m s color rc :
  color_to_int C (Py.lower c) = Ok color ->
  move_to_coord C m (GoBoard.size (board s)) = Ok (Some rc) ->
  play_cmd C [c; m] s =
  match move C (board s) (_coord_to_point C (board s) (fst rc) (snd rc)) color with
  | (b', Ok true) =>
      (Return tt, set_stdout (stdout s ++ [success EmptyString])%list (set_board b' s))
  | (b', Ok false) => (Return tt, set_board b' s)
  | (b', Err e) =>
      if is_Exception e then
        (Return tt,
         set_stdout
           (stdout s ++ [success ("illegal move: " ++ Py.lower c ++ " " ++ m ++ " "
                                  ++ str_exn e)])%list
           (set_board b' s))
      else (Raise e, set_board b' s)
  end.
Proof.
  intros Hcolor Hcoord. unfold play_cmd.
  rewrite getitem_0, getitem_1.
  unfold try_except_Exception.
  rewrite Hcolor.
  rewrite (bind_Return (lift (Ok color)) _ s color s eq_refl).
  rewrite (bind_Return self _ s _ _ eq_refl).
  rewrite Hcoord.
  rewrite (bind_Return (lift (Ok (Some rc))) _ s _ s eq_refl).
  unfold on_board, bind.
  destruct (move C (board s) (_coord_to_point C (board s) (fst rc) (snd rc)) color)
    as [b' [[|]|e]]; reflexivity.
Qed.

(** C6: a [play] line with two arguments that decode.  An accepted move
    gets the empty success response.  A move that the board rejects by
    returning false gets no response at all; one that it rejects by raising
    gets the success-framed [= illegal move: <color> <move> <detail>].  In
    both cases the position is unchanged (the board's contract) and the
    dispatcher returns. *)
Theorem play_cmd_outcomes (fuel : nat) (line c m : string) (s : GtpConnection)
    (color : Z) (rc : Z * Z) :
  parse_line line = Some ("play", [c; m]) ->
  color_to_int C (Py.lower c) = Ok color ->
  move_to_coord C m (GoBoard.size (board s)) = Ok (Some rc) ->
  (forall b' r,
      move C (board s) (_coord_to_point C (board s) (fst rc) (snd rc)) color = (b', r) ->
      r <> Ok true -> b' = board s) ->
  get_cmd C fuel line s =
  match move C (board s) (_coord_to_point C (board s) (fst rc) (snd rc)) color with
  | (b', Ok true) =>
      (Return tt, set_stdout (stdout s ++ [success EmptyString])%list (set_board b' s))
  | (_, Ok false) => (Return tt, s)
  | (_, Err (Exception _ detail)) =>
      (Return tt,
       set_stdout
         (stdout s ++ [success ("illegal move: " ++ Py.lower c ++ " " ++ m ++ " " ++ detail)])%list
         s)
  | (_, Err SystemExit) => (Raise SystemExit, s)
  end.
Proof.
  intros Hline Hcolor Hcoord Hcontract.
  rewrite (get_cmd_dispatch fuel line "play" [c; m] (play_cmd C) s Hline);
    [ | reflexivity | intros required usage H; inversion H; reflexivity | reflexivity ].
  unfold try_except_Exception. rewrite (play_cmd_run c m s color rc Hcolor Hcoord).
  destruct (move C (board s) (_coord_to_point C (board s) (fst rc) (snd rc)) color)
    as [b' r] eqn:Emove.
  assert (Hsame : r <> Ok true -> set_board b' s = s).
  { intros Hr. rewrite (Hcontract b' r eq_refl Hr). now destruct s. }
  destruct r as [[|]|[cls detail|]]; cbn [is_Exception str_exn];
    try rewrite Hsame by discriminate; reflexivity.
Qed.

(** C10: a [legal_moves] line on which the colour token does not decode,
    or the enumeration raises, gets the success-framed response
    [= Error: <detail>] and the dispatcher returns; and on no arguments
    does the handler let an exception of class [Exception] out. *)
Theorem legal_moves_error (fuel : nat) (line a0 : string) (rest : list string)
    (s : GtpConnection) (cls detail : string) :
  parse_line line = Some ("legal_moves", a0 :: rest) ->
  (color_to_int C (Py.lower a0) = Err (Exception cls detail) \/
   exists color,
     color_to_int C (Py.lower a0) = Ok color /\
     generate_legal_moves C (board s) color = Err (Exception cls detail)) ->
  get_cmd C fuel line s =
    (Return tt, set_stdout (stdout s ++ [success ("Error: " ++ detail)])%list s) /\
  (forall args s0 cls0 msg0,
      fst (legal_moves_cmd C args s0) <> Raise (Exception cls0 msg0)).
Proof.
  intros Hline Hraise. split.
  - rewrite (get_cmd_dispatch fuel line "legal_moves" (a0 :: rest)
               (legal_moves_cmd C) s Hline);
      [ | discriminate
        | intros required usage H; inversion H; unfold len; simpl List.length; lia
        | reflexivity ].
    unfold legal_moves_cmd, try_except_Exception.
    rewrite getitem_0.
    rewrite (bind_Return (lift (Ok a0)) _ s a0 s eq_refl).
    destruct Hraise as [Hcolor | (color & Hcolor & Hmoves)]; rewrite Hcolor.
    + reflexivity.
    + rewrite (bind_Return (lift (Ok color)) _ s color s eq_refl).
      rewrite (bind_Return self _ s _ _ eq_refl).
      rewrite Hmoves. reflexivity.
  - intros args s0 cls0 msg0. unfold legal_moves_cmd, try_except_Exception.
    match goal with |- context [match ?body s0 with _ => _ end] =>
      destruct (body s0) as [[[]|e|] s1] end; cbn [fst]; try discriminate.
    destruct e; cbn [is_Exception fst respond]; discriminate.
Qed.

(** C5: when the move that [genmove] chose fails the board's check, the
    handler writes the success-framed [= Illegal move: <move>], raises
    [RuntimeError], catches it itself and writes the success-framed
    [= Error: Illegal move given by engine]; it returns normally, nothing
    is raised to the dispatcher, and no move is played. *)
Theorem genmove_illegal_move (fuel : nat) (a0 : string) (rest : list string)
    (s s1 s2 : GtpConnection) (color mv : Z) (pc : Z * Z) (board_move : string) :
  color_to_int C (Py.lower a0) = Ok color ->
  get_winner C (board s) = None ->
  solve_cmd C fuel (a0 :: rest) (genmove_entry a0 s) = (Return tt, s1) ->
  genmove_choose C color (set_genCall false s1) = (Return mv, s2) ->
  check_legal C (board s2) mv color = Ok false ->
  _point_to_coord C (board s2) mv = Ok pc ->
  format_point C pc = Ok board_move ->
  genmove_cmd C fuel (a0 :: rest) s =
  (Return tt,
   set_stdout
     (stdout s2 ++ [success ("Illegal move: " ++ board_move);
                    success "Error: Illegal move given by engine"])%list
     s2).
Proof.
  intros Hcolor Hwin Hsolve Hchoose Hlegal Hpc Hfmt.
  unfold genmove_cmd, try_except_Exception.
  rewrite (bind_Return (modify (set_notdone false)) _ s tt _ eq_refl).
  rewrite getitem_0.
  rewrite (bind_Return (lift (Ok a0)) _ _ a0 _ eq_refl).
  cbv zeta. rewrite Hcolor.
  rewrite (bind_Return (lift (Ok color)) _ _ color _ eq_refl).
  rewrite (bind_Return self _ (set_notdone false s) _ _ eq_refl).
  cbn [board set_notdone]. rewrite Hwin.
  rewrite (bind_Return (modify (set_winMoves [])) _ _ tt _ eq_refl).
  rewrite (bind_Return (modify (set_genCall true)) _ _ tt _ eq_refl).
  rewrite (bind_Return _ _ _ tt (genmove_entry a0 s))
    by (unfold genmove_entry; destruct (String.eqb a0 "b"); reflexivity).
  rewrite (bind_Return _ _ _ _ _ Hsolve).
  rewrite (bind_Return (modify (set_genCall false)) _ _ tt _ eq_refl).
  rewrite (bind_Return _ _ _ _ _ Hchoose).
  rewrite (bind_Return self _ s2 _ _ eq_refl).
  rewrite Hlegal.
  rewrite (bind_Return (lift (Ok false)) _ _ false _ eq_refl).
  cbn [negb]. rewrite Hpc.
  rewrite (bind_Return (lift (Ok pc)) _ _ pc _ eq_refl).
  rewrite Hfmt.
  rewrite (bind_Return (lift (Ok board_move)) _ _ board_move _ eq_refl).
  cbv [bind respond write_stdout modify raise is_Exception str_exn].
  cbn [stdout set_stdout]. rewrite <- app_assoc. reflexivity.
Qed.

End Search.

(** *** The clock and the flag *)

Section Polling.

Variable C : Collaborators.

Lemma polled_refl s : notdone s = false -> polled C s s.
Proof.
  intros H. split; [lia|]. split; [intros k Hk; lia | congruence].
Qed.

Lemma polled_trans s1 s2 s3 :
  starttime s2 = starttime s1 -> timelimit s2 = timelimit s1 ->
  notdone s2 = false ->
  polled C s1 s2 -> polled C s2 s3 -> polled C s1 s3.
Proof.
  unfold polled, exceeded. intros -> -> Hnd (H1 & H2 & _) (H4 & H5 & H6).
  split; [lia|]. split.
  - intros k Hk Hlate. destruct (Nat.lt_ge_cases k (clock s2)) as [Hlt|Hge].
    + rewrite (H2 k) in Hnd by (auto; lia). discriminate.
    + apply (H5 k); auto. lia.
  - intros H. destruct (H6 H) as [Hlt Hlate]. split; [lia | exact Hlate].
Qed.

(** The reading of a frame entered with the flag clear and within the time
    limit. *)
Lemma polled_step s :
  notdone s = false ->
  Qle_bool (process_time C (clock s) - starttime s) (inject_Z (timelimit s)) = true ->
  polled C s (set_clock (S (clock s)) s).
Proof.
  intros Hnd Htime. unfold polled, exceeded. cbn [clock set_clock notdone].
  split; [lia|]. split.
  - intros k Hk Hlate. replace k with (clock s) in Hlate by lia. congruence.
  - congruence.
Qed.

(** The loop of a frame entered with both flags clear, over moves that are
    well formed: what [ab_loop_wf] says of it, and the flag it leaves
    follows the readings taken below it. *)
Lemma ab_loop_polled n fuel beta d :
  (forall s alpha beta d,
      well_formed C n (board s) = true -> notdone s = false -> winMoves s = [] ->
      exists r s', alphabeta C fuel alpha beta d s = (Return r, s') /\
                   search_post s r s' /\ polled C s s') ->
  forall ms s alpha,
    forallb (move_ok C (well_formed C n) (board s)) ms = true ->
    notdone s = false -> winMoves s = [] ->
    exists r s',
      ab_loop C (alphabeta C fuel) beta d ms alpha s = (Return r, s') /\
      search_post s r s' /\ polled C s s'.
Proof.
  intros IH ms. induction ms as [|m ms IHms]; intros s alpha Hms Hnd Hwm.
  - exists (RInt alpha), s. split; [reflexivity|]. split; [|now apply polled_refl].
    exists false, []. exists (clock s). destruct s; simpl in *; subst.
    repeat split; auto; discriminate.
  - simpl in Hms. apply andb_true_iff in Hms. destruct Hms as [Hm Hms].
    unfold move_ok in Hm.
    destruct (move_to_coord C m (GoBoard.size (board s))) as [[rc|]|] eqn:Ecoord;
      try discriminate.
    set (p := _coord_to_point C (board s) (fst rc) (snd rc)) in *.
    destruct (move C (board s) p (GoBoard.to_play (board s))) as [b' [ok|]] eqn:Emove;
      try discriminate.
    apply andb_true_iff in Hm. destruct Hm as [Hplaced Hwf].
    apply placed_spec in Hplaced. destruct Hplaced as (Hset & Hsize & Hopp).
    destruct (IH (set_board b' s) (- beta) (- alpha) (d + 1) Hwf Hnd Hwm)
      as (r1 & s2 & Hrec & (nd & wm & ck & -> & Hflag & Hint & Habort) & Hpoll).
    assert (Hpoll' : polled C s (searched s nd wm ck)) by exact Hpoll.
    assert (Hundo : undo C p (searched (set_board b' s) nd wm ck) =
                    (Return tt, searched s nd wm ck)).
    { rewrite undo_ok with (g := GoBoard.board (board s)) by exact Hset.
      simpl. rewrite Hsize, Hopp, board_eta. reflexivity. }
    cbn [ab_loop].
    rewrite (bind_Return _ _ s s s) by reflexivity.
    rewrite Ecoord.
    rewrite (bind_Return _ _ s (Some rc) s) by reflexivity.
    rewrite (bind_Return _ _ s rc s) by reflexivity.
    fold p.
    rewrite (bind_Return _ _ s ok (set_board b' s))
      by (unfold on_board; rewrite Emove; reflexivity).
    destruct r1 as [v|].
    + destruct (Hint v eq_refl) as [-> ->].
      rewrite (bind_Return _ _ _ (Some (- v)) (searched (set_board b' s) false [] ck))
        by (unfold try_except, bind; rewrite Hrec; reflexivity).
      rewrite (bind_Return _ _ _ tt _ Hundo).
      destruct ((alpha <? - v) && (d =? 0) && (0 <=? - v)) eqn:Ewin.
      * exists RAbort, (searched s false [m] ck). split; [reflexivity|].
        split; [|exact Hpoll'].
        exists false, [m], ck. repeat split; try discriminate.
        intros _. right. discriminate.
      * rewrite (bind_Return self _ (searched s false [] ck) _ _ eq_refl).
        cbn [notdone winMoves searched is_nil orb negb].
        destruct (beta <=? - v) eqn:Ecut.
        -- exists (RInt beta), (searched s false [] ck). split; [reflexivity|].
           split; [|exact Hpoll'].
           exists false, [], ck. repeat split; auto; discriminate.
        -- destruct (IHms (searched s false [] ck) (if alpha <? - v then - v else alpha))
             as (r & s' & Hloop & (nd' & wm' & ck' & -> & Hpost) & Hpoll2); auto.
           exists r, (searched s nd' wm' ck'). split; [exact Hloop|]. split.
           ++ exists nd', wm', ck'. split; [reflexivity | exact Hpost].
           ++ apply (polled_trans s (searched s false [] ck)); auto.
    + rewrite (bind_Return _ _ _ None (searched s nd wm ck)).
      * exists RAbort, (searched s nd wm ck). split; [reflexivity|].
        split; [|exact Hpoll'].
        exists nd, wm, ck. repeat split; auto; discriminate.
      * unfold try_except. rewrite (bind_Return _ _ _ _ _ Hrec).
        unfold lift at 1, neg_int, raise, bind at 1.
        rewrite (bind_Return _ _ _ tt _ Hundo). reflexivity.
Qed.

(** A frame entered with both flags clear on a well-formed tree, with fuel
    for its depth: it reads the clock, and the flag it leaves follows the
    readings taken in it and below it. *)
Lemma alphabeta_polled n :
  forall fuel s alpha beta d,
    (n < fuel)%nat ->
    well_formed C n (board s) = true -> notdone s = false -> winMoves s = [] ->
    exists r s', alphabeta C fuel alpha beta d s = (Return r, s') /\
                 search_post s r s' /\ polled C s s' /\ (clock s < clock s')%nat.
Proof.
  induction n as [|n IHn]; intros [|fuel] s alpha beta d Hfuel Hwf Hnd Hwm;
    try lia; rewrite alphabeta_S;
    unfold bind at 1, time_process_time at 1;
    rewrite (bind_Return self _ (set_clock (S (clock s)) s) _ _ eq_refl);
    cbn [notdone winMoves set_clock timelimit starttime board];
    rewrite Hnd, Hwm; cbn [is_nil orb negb];
    (destruct (Qle_bool (process_time C (clock s) - starttime s)
                 (inject_Z (timelimit s))) eqn:Htime; cbn [negb];
     [| exists RAbort, (searched s true [] (S (clock s))); split;
        [destruct s; simpl in *; subst; reflexivity|]; split;
        [ exists true, [], (S (clock s)); repeat split; auto; discriminate
        | split; [|cbn [clock searched]; lia];
          unfold polled, exceeded; cbn [clock searched notdone Nat.pred];
          split; [lia|]; split; [reflexivity|]; intros _; split; [lia | exact Htime] ]]).
  - simpl in Hwf.
    destruct (get_winner C (board s)); [|discriminate].
    eexists _, _. split; [reflexivity|].
    split; [|split; [now apply polled_step | cbn [clock set_clock]; lia]].
    exists false, [], (S (clock s)). destruct s; simpl in *; subst.
    repeat split; auto; discriminate.
  - rewrite well_formed_S in Hwf.
    destruct (get_winner C (board s)).
    + eexists _, _. split; [reflexivity|].
      split; [|split; [now apply polled_step | cbn [clock set_clock]; lia]].
      exists false, [], (S (clock s)). destruct s; simpl in *; subst.
      repeat split; auto; discriminate.
    + destruct (generate_legal_moves C (board s) (GoBoard.to_play (board s)))
        as [moves|] eqn:Emoves; [|discriminate].
      rewrite (bind_Return _ _ _ moves _ eq_refl).
      destruct (ab_loop_polled n fuel beta d) with
        (ms := Py.split_on " "%char moves) (s := set_clock (S (clock s)) s) (alpha := alpha)
        as (r & s' & Hloop & (nd & wm & ck & -> & Hpost) & Hpoll); auto.
      { intros s0 a b0 d0 H1 H2 H3.
        destruct (IHn fuel s0 a b0 d0) as (r0 & s0' & Hr0 & Hp0 & Hq0 & _);
          auto; [lia|]. now exists r0, s0'. }
      exists r, (searched s nd wm ck). split; [exact Hloop|]. split; [|split].
      * exists nd, wm, ck. split; [reflexivity | exact Hpost].
      * apply (polled_trans s (set_clock (S (clock s)) s)); auto.
        now apply polled_step.
      * destruct Hpoll as [Hle _]. cbn [clock searched set_clock] in Hle |- *. lia.
Qed.

(** C2: on a well-formed game tree the search of [solve] returns, having
    read the clock at least once.  If any of the readings it took, in the
    root frame or in any frame below it, showed more than the time limit
    since the start of the solve, then the time-exceeded flag is set, no
    winning move was recorded and the response is [unknown], never a win or
    a loss.  Whenever the search leaves the flag set, the last reading it
    took exceeded the limit (the search stopped there), no winning move was
    recorded and the response is [unknown]. *)
Theorem solve_cmd_time_exceeded (fuel n : nat) (args : list string)
    (s : GtpConnection) :
  genCall s = false ->
  well_formed C n (board s) = true ->
  (n < fuel)%nat ->
  exists r s1,
    alphabeta C fuel (-100000) 100000 0 (solve_entry C s) = (Return r, s1) /\
    (S (clock s) < clock s1)%nat /\
    (forall k,
        (S (clock s) <= k < clock s1)%nat ->
        exceeded C (solve_entry C s) k ->
        notdone s1 = true /\
        winMoves s1 = [] /\
        solve_cmd C fuel args s =
          (Return tt, set_stdout (stdout s ++ [success "unknown"])%list s1)) /\
    (notdone s1 = true ->
     exceeded C (solve_entry C s) (pred (clock s1)) /\
     winMoves s1 = [] /\
     solve_cmd C fuel args s =
       (Return tt, set_stdout (stdout s ++ [success "unknown"])%list s1)) /\
    (Qle_bool (first_duration C s) (inject_Z (timelimit s)) = false ->
     notdone s1 = true).
Proof.
  intros Hgen Hwf Hfuel.
  destruct (alphabeta_polled n fuel (solve_entry C s) (-100000) 100000 0 Hfuel)
    as (r & s1 & Hrun & (nd & wm & ck & -> & Hflag & _) & (Hle & Hlate & Hset) & Hread);
    auto.
  cbn [clock searched solve_entry set_starttime set_clock set_notdone set_winMoves
       notdone] in Hle, Hlate, Hset, Hread.
  assert (Hunknown :
            nd = true ->
            wm = [] /\
            solve_cmd C fuel args s =
              (Return tt,
               set_stdout (stdout s ++ [success "unknown"])%list
                 (searched (solve_entry C s) nd wm ck))).
  { intros ->. rewrite (Hflag eq_refl) in *.
    split; [reflexivity|].
    rewrite solve_cmd_unfold, (bind_Return _ _ _ _ _ Hrun).
    rewrite (bind_Return self _ (searched (solve_entry C s) true [] ck) _ _ eq_refl).
    cbn [genCall searched solve_entry winMoves notdone
         set_starttime set_clock set_notdone set_winMoves].
    rewrite Hgen. reflexivity. }
  exists r, (searched (solve_entry C s) nd wm ck).
  split; [exact Hrun|]. cbn [clock searched notdone winMoves].
  split; [exact Hread|]. split; [|split].
  - intros k Hk Hexc. pose proof (Hlate k Hk Hexc) as Hnd.
    split; [exact Hnd | now apply Hunknown].
  - intros Hnd. split; [now apply Hset | now apply Hunknown].
  - intros Hexc. apply (Hlate (S (clock s))); [lia | exact Hexc].
Qed.



End Polling.

(** ** Checked instances on the reference board *)

Lemma alphabeta_restores_board_witness :
  well_formed Ref.collaborators 4 (board (Ref.start 2)) = true /\
  (4 < 5)%nat /\
  exists r s',
    alphabeta Ref.collaborators 5 (-100000) 100000 0 (Ref.start 2) = (Return r, s') /\
    board s' = board (Ref.start 2).
Proof.
  split; [vm_compute; reflexivity|]. split; [lia|].
  refine (proj1 (alphabeta_restores_board Ref.collaborators 4 5 (Ref.start 2)
                   (-100000) 100000 0 _ _));
    [vm_compute; reflexivity | lia].
Defined.

Lemma solve_cmd_response_witness :
  exists nd wm ck,
    solve_cmd Ref.collaborators 5 [] Ref.after_a1 =
    (Return tt,
     set_stdout
       (stdout Ref.after_a1 ++
        [success (solve_payload Ref.collaborators
                    (GoBoard.to_play (board Ref.after_a1)) nd wm)])%list
       (searched (solve_entry Ref.collaborators Ref.after_a1) nd wm ck)).
Proof.
  apply (solve_cmd_response Ref.collaborators 5 4 [] Ref.after_a1).
  - reflexivity.
  - vm_compute; reflexivity.
  - lia.
  - right; reflexivity.
  - reflexivity.
  - reflexivity.
Defined.

(** On a slow machine (a reading every half second, a limit of one second)
    the readings of the root frame and of the frame below it are within the
    limit and the next one, two moves below the root, exceeds it: the answer
    is [unknown]. *)
Lemma solve_cmd_time_exceeded_witness :
  Qle_bool (first_duration Ref.slow (Ref.start 2))
           (inject_Z (timelimit (Ref.start 2))) = true /\
  exceeded Ref.slow (solve_entry Ref.slow (Ref.start 2)) 3 /\
  stdout (snd (solve_cmd Ref.slow 5 [] (Ref.start 2))) = [success "unknown"].
Proof.
  split; [reflexivity|]. split; [reflexivity|].
  destruct (solve_cmd_time_exceeded Ref.slow 5 4 [] (Ref.start 2))
    as (r & s1 & Hrun & _ & Hlate & _);
    [reflexivity | vm_compute; reflexivity | lia |].
  assert (Hck : clock s1 = 4%nat).
  { apply (f_equal (fun x => clock (snd x))) in Hrun.
    vm_compute in Hrun. symmetry. exact Hrun. }
  destruct (Hlate 3%nat) as (_ & _ & Hsolve).
  - rewrite Hck; cbn; lia.
  - reflexivity.
  - rewrite Hsolve. reflexivity.
Defined.

Lemma solve_cmd_terminal_witness :
  solve_cmd Ref.collaborators 1 [] Ref.full1 =
  (Return tt,
   set_stdout (stdout Ref.full1 ++ [success "b"])%list
     (searched (solve_entry Ref.collaborators Ref.full1) false [] 2)).
Proof.
  apply (solve_cmd_terminal Ref.collaborators 0 [] Ref.full1 BLACK).
  - reflexivity.
  - reflexivity.
  - reflexivity.
  - left; reflexivity.
Defined.

(** C8, as stated, fails: on the same terminal position, after
    [timelimit 0], the answer of [solve] is [unknown]. *)
Lemma solve_terminal_unknown :
  let s := snd (get_cmd Ref.collaborators 1 (Ref.line "timelimit 0") Ref.full1) in
  get_winner Ref.collaborators (board s) = Some BLACK /\
  get_cmd Ref.collaborators 1 (Ref.line "solve") s =
  (Return tt,
   set_stdout (stdout s ++ [success "unknown"])%list
     (searched (solve_entry Ref.collaborators s) true [] 2)).
Proof. vm_compute. split; reflexivity. Qed.

Lemma alphabeta_empty_enumeration_witness :
  alphabeta Ref.no_winner 1 (-100000) 100000 0 Ref.full1 =
  (Raise (Exception "ValueError" "wrong coordinate"), set_clock 1 Ref.full1).
Proof.
  apply (alphabeta_empty_enumeration Ref.no_winner 0 (-100000) 100000 0 Ref.full1);
    vm_compute; reflexivity.
Defined.

(** C9, as stated, fails: with no winner reported and no move enumerated,
    the frame raises, and so does [solve], without a response. *)
Lemma empty_enumeration_raises :
  get_winner Ref.no_winner (board Ref.full1) = None /\
  generate_legal_moves Ref.no_winner (board Ref.full1)
    (GoBoard.to_play (board Ref.full1)) = Ok EmptyString /\
  fst (alphabeta Ref.no_winner 5 (-100000) 100000 0 Ref.full1) =
    Raise (Exception "ValueError" "wrong coordinate") /\
  fst (solve_cmd Ref.no_winner 5 [] Ref.full1) =
    Raise (Exception "ValueError" "wrong coordinate") /\
  stdout (snd (solve_cmd Ref.no_winner 5 [] Ref.full1)) = stdout Ref.full1.
Proof. vm_compute. repeat split; reflexivity. Qed.



Lemma play_wrong_arity_witness :
  get_cmd Ref.collaborators 0 (Ref.line "play b") (Ref.start 2) =
  (Return tt,
   set_stdout
     (stdout (Ref.start 2)
      ++ [success ("illegal move: " ++ "b" ++ " wrong number of arguments")])%list
     (Ref.start 2)).
Proof.
  apply (play_wrong_arity Ref.collaborators 0 (Ref.line "play b") "b" [] (Ref.start 2)).
  - reflexivity.
  - discriminate.
Defined.

(** C7, as stated, fails: the response to [play b] is framed as a success,
    not as a failure. *)
Lemma play_b_is_success_framed :
  stdout (snd (get_cmd Ref.collaborators 0 (Ref.line "play b") (Ref.start 2))) =
    [success "illegal move: b wrong number of arguments"] /\
  success "illegal move: b wrong number of arguments" <>
    failure "illegal move: b wrong number of arguments".
Proof. split; [vm_compute; reflexivity | discriminate]. Qed.

Lemma play_cmd_outcomes_witness :
  get_cmd Ref.collaborators 0 (Ref.line "play w a1") Ref.after_a1 =
  (Return tt, Ref.after_a1).
Proof.
  apply (play_cmd_outcomes Ref.collaborators 0 (Ref.line "play w a1") "w" "a1"
           Ref.after_a1 WHITE (1, 1)).
  - reflexivity.
  - reflexivity.
  - reflexivity.
  - intros b' r H _. vm_compute in H. now inversion H.
Defined.

(** C6, as stated, fails: a move on an occupied point gets no response at
    all from a board that rejects it by returning false, and a response
    framed as a success from a board that rejects it by raising. *)
Lemma rejected_play_is_not_a_failure :
  move Ref.collaborators (board Ref.after_a1) 0 WHITE = (board Ref.after_a1, Ok false) /\
  get_cmd Ref.collaborators 0 (Ref.line "play w a1") Ref.after_a1 =
    (Return tt, Ref.after_a1) /\
  move Ref.raising (board Ref.after_a1) 0 WHITE =
    (board Ref.after_a1, Err (Exception "ValueError" "occupied")) /\
  get_cmd Ref.raising 0 (Ref.line "play w a1") Ref.after_a1 =
    (Return tt,
     set_stdout (stdout Ref.after_a1 ++ [success "illegal move: w a1 occupied"])%list
       Ref.after_a1) /\
  success "illegal move: w a1 occupied" <> failure "illegal move: w a1 occupied".
Proof.
  split; [vm_compute; reflexivity|]. split; [vm_compute; reflexivity|].
  split; [vm_compute; reflexivity|]. split; [vm_compute; reflexivity|].
  discriminate.
Qed.

Lemma legal_moves_error_witness :
  get_cmd Ref.collaborators 0 (Ref.line "legal_moves x") (Ref.start 2) =
  (Return tt,
   set_stdout (stdout (Ref.start 2) ++ [success ("Error: " ++ "wrong color")])%list
     (Ref.start 2)).
Proof.
  refine (proj1 (legal_moves_error Ref.collaborators 0 (Ref.line "legal_moves x") "x" []
                   (Ref.start 2) "ValueError" "wrong color" _ _)).
  - reflexivity.
  - left; reflexivity.
Defined.

Lemma genmove_illegal_move_witness :
  exists s2,
    genmove_cmd Ref.rejecting 5 ["b"] (Ref.start 2) =
    (Return tt,
     set_stdout
       (stdout s2 ++ [success ("Illegal move: " ++ "a1");
                      success "Error: Illegal move given by engine"])%list
       s2).
Proof.
  eexists.
  apply (genmove_illegal_move Ref.rejecting 5 "b" [] (Ref.start 2)
           (snd (solve_cmd Ref.rejecting 5 ["b"] (genmove_entry "b" (Ref.start 2))))
           _ BLACK 0 (1, 1) "a1").
  - reflexivity.
  - reflexivity.
  - vm_compute; reflexivity.
  - vm_compute; reflexivity.
  - reflexivity.
  - reflexivity.
  - reflexivity.
Defined.

(** C5, as stated, fails: the move that [genmove] chose is refused by the
    board's check, both responses are framed as successes and the handler
    returns. *)
Lemma genmove_illegal_is_swallowed :
  let r := genmove_cmd Ref.rejecting 5 ["b"] (Ref.start 2) in
  fst r = Return tt /\
  stdout (snd r) = [success "Illegal move: a1";
                    success "Error: Illegal move given by engine"] /\
  board (snd r) = board (Ref.start 2).
Proof. vm_compute. repeat split; reflexivity. Qed.

(** A session on the reference board: on the empty 2 x 2 board the side to
    move loses, after [play b a1] White wins with b1; the protocol errors
    are framed as failures. *)
Example session_2x2 :
  let r := start_connection Ref.collaborators 5
             (map Ref.line ["boardsize 2"; "solve"; "play b a1"; "solve";
                            "10 known_command quit"; "bogus"; "komi";
                            "# comment"; "legal_moves w"])
             (Ref.start 7) in
  fst r = Return tt /\
  stdout (snd r) =
    [success EmptyString; success "w"; success EmptyString; success "w b1";
     success "true"; failure "Unknown command"; failure "Usage: komi FLOAT";
     success "b1 a2 b2"].
Proof. vm_compute. split; reflexivity. Qed.

(** On a slow machine the time limit of one second is exceeded at the third
    frame of the search, and the answer is [unknown]. *)
Example slow_solve_unknown :
  let r := solve_cmd Ref.slow 5 [] (Ref.start 2) in
  fst r = Return tt /\
  stdout (snd r) = [success "unknown"] /\
  notdone (snd r) = true /\ clock (snd r) = 4%nat /\
  board (snd r) = board (Ref.start 2).
Proof. vm_compute. repeat split; reflexivity. Qed.

(** [play] with no argument at all: formatting [args[0]] raises, outside
    any [try], and nothing is written. *)
Example play_without_arguments :
  get_cmd Ref.collaborators 0 (Ref.line "play") (Ref.start 2) =
  (Raise (Exception "IndexError" "list index out of range"), Ref.start 2).
Proof. vm_compute. reflexivity. Qed.

(** ** Further properties *)

(** *** Reading a line *)

Lemma isspace_not_digit c : Py.isspace c = true -> Py.isdigit c = false.
Proof.
  unfold Py.isspace, Py.isdigit. intros H.
  apply orb_true_iff in H. rewrite !andb_true_iff, !Nat.leb_le in H.
  apply andb_false_iff. rewrite !Nat.leb_gt. lia.
Qed.

Lemma split_go_blank cs :
  forallb Py.isspace cs = true -> Py.split_go cs [] = [].
Proof.
  induction cs as [|c cs IH]; simpl; [reflexivity|].
  intros H. apply andb_true_iff in H. destruct H as [-> H]. auto.
Qed.

Lemma split_go_dropwhile cs :
  Py.split_go (Py.dropwhile Py.isspace cs) [] = Py.split_go cs [].
Proof.
  induction cs as [|c cs IH]; simpl; [reflexivity|].
  destruct (Py.isspace c) eqn:E; [exact IH|]. simpl. now rewrite E.
Qed.

Lemma list_ascii_of_string_app a b :
  list_ascii_of_string (a ++ b) = (list_ascii_of_string a ++ list_ascii_of_string b)%list.
Proof. induction a as [|c a IH]; simpl; [reflexivity | now rewrite IH]. Qed.

Lemma dropwhile_digits ds rest :
  forallb Py.isdigit ds = true ->
  match rest with c :: _ => Py.isdigit c = false | [] => True end ->
  Py.dropwhile Py.isdigit (ds ++ rest) = rest.
Proof.
  intros Hds Hrest. induction ds as [|d ds IH]; simpl in *.
  - destruct rest as [|c rest]; [reflexivity|]. simpl. now rewrite Hrest.
  - apply andb_true_iff in Hds. destruct Hds as [-> Hds]. auto.
Qed.

Lemma dropwhile_last p (l : list ascii) c :
  p c = false -> Py.dropwhile p (l ++ [c]) <> [].
Proof.
  intros Hc. induction l as [|x l IH]; simpl.
  - rewrite Hc. discriminate.
  - destruct (p x); [exact IH | discriminate].
Qed.

Lemma strip_keeps chars c s :
  Py.mem_char chars c = false ->
  (String.length (Py.strip chars (String c s)) =? 0)%nat = false.
Proof.
  intros Hc. unfold Py.strip. cbn [list_ascii_of_string Py.dropwhile].
  rewrite Hc. cbn [rev].
  pose proof (dropwhile_last (Py.mem_char chars) (rev (list_ascii_of_string s)) c Hc) as H.
  destruct (Py.dropwhile (Py.mem_char chars) (rev (list_ascii_of_string s) ++ [c]))
    as [|x l]; [congruence|].
  cbn [rev]. destruct (rev l ++ [x])%list as [|y l'] eqn:E.
  - destruct (rev l); discriminate.
  - reflexivity.
Qed.

Lemma forallb_rev' {A : Type} (f : A -> bool) (l : list A) :
  forallb f (rev l) = forallb f l.
Proof.
  induction l as [|x l IH]; simpl; [reflexivity|].
  rewrite forallb_app, IH. simpl. rewrite andb_true_r. apply andb_comm.
Qed.

Lemma split_go_tokens cs cur :
  forallb (fun c => negb (Py.isspace c)) cur = true ->
  Forall token (Py.split_go cs cur).
Proof.
  revert cur. induction cs as [|c cs IH]; intros cur Hcur; simpl.
  - destruct cur as [|x cur]; constructor; [|constructor].
    split.
    + intros H. apply (f_equal list_ascii_of_string) in H.
      rewrite list_ascii_of_string_of_list_ascii in H. simpl in H.
      destruct (rev cur); discriminate.
    + rewrite list_ascii_of_string_of_list_ascii, forallb_rev'. exact Hcur.
  - destruct (Py.isspace c) eqn:E.
    + destruct cur as [|x cur]; [now apply IH|].
      constructor; [|now apply IH].
      split.
      * intros H. apply (f_equal list_ascii_of_string) in H.
        rewrite list_ascii_of_string_of_list_ascii in H. simpl in H.
        destruct (rev cur); discriminate.
      * rewrite list_ascii_of_string_of_list_ascii, forallb_rev'. exact Hcur.
    + apply IH. simpl. now rewrite E, Hcur.
Qed.

Lemma bind_Raise {A B : Type} (m : M A) (f : A -> M B) s e s' :
  m s = (Raise e, s') -> bind m f s = (Raise e, s').
Proof. unfold bind; now intros ->. Qed.

Section Dispatcher.

Variable C : Collaborators.

(** X1: a line that starts with [#], and a line of whitespace only, are
    skipped: nothing is written and the connection is unchanged. *)
Theorem get_cmd_skips (fuel : nat) (line : string) (s : GtpConnection) :
  Py.head line = Some "#"%char
  \/ forallb Py.isspace (list_ascii_of_string line) = true ->
  get_cmd C fuel line s = (Return tt, s).
Proof.
  intros H. unfold get_cmd.
  assert (Hp : parse_line line = None); [|now rewrite Hp].
  unfold parse_line. destruct (_ =? _)%nat; [reflexivity|].
  destruct H as [H | H].
  - rewrite H. reflexivity.
  - destruct line as [|c0 rest]; [reflexivity|]. cbn [Py.head].
    destruct (Ascii.eqb c0 "#"); [reflexivity|].
    assert (Hc0 : Py.isspace c0 = true).
    { simpl in H. now apply andb_true_iff in H. }
    rewrite (isspace_not_digit _ Hc0).
    unfold Py.split. now rewrite split_go_blank.
Qed.

(** X2: a leading run of decimal digits is dropped before the line is cut
    into words: the command name and the arguments are the words of what
    follows the digits. *)
Theorem parse_line_request_id (id rest : string) :
  all_digits (list_ascii_of_string id) = true ->
  match Py.head rest with Some c => Py.isdigit c = false | None => True end ->
  parse_line (id ++ rest) =
  match Py.split rest with
  | [] => None
  | command_name :: args => Some (command_name, args)
  end.
Proof.
  intros Hid Hrest. destruct id as [|d id]; [discriminate|].
  cbn [list_ascii_of_string all_digits] in Hid.
  assert (Hd : Py.isdigit d = true).
  { cbn [forallb] in Hid. now apply andb_true_iff in Hid. }
  unfold parse_line. cbn [String.append Py.head].
  rewrite strip_keeps.
  2:{ unfold Py.mem_char. cbn [list_ascii_of_string String.append existsb].
      rewrite !orb_false_r.
      repeat match goal with
             | |- (_ || _)%bool = false => apply orb_false_iff; split
             end;
        (destruct (Ascii.eqb_spec d " "%char) as [->|]; [discriminate Hd|]);
        (destruct (Ascii.eqb_spec d "013"%char) as [->|]; [discriminate Hd|]);
        (destruct (Ascii.eqb_spec d "009"%char) as [->|]; [discriminate Hd|]);
        reflexivity. }
  destruct (Ascii.eqb_spec d "#"%char) as [->|]; [discriminate Hd|].
  rewrite Hd.
  unfold Py.sub_leading_digits, Py.lstrip, Py.split.
  rewrite !list_ascii_of_string_of_list_ascii.
  change (String d (id ++ rest)) with (String d id ++ rest).
  rewrite list_ascii_of_string_app.
  rewrite dropwhile_digits.
  - rewrite split_go_dropwhile. reflexivity.
  - exact Hid.
  - destruct rest; [exact I | exact Hrest].
Qed.

(** X3: the command name and the arguments that a line is cut into are
    never empty and hold no whitespace. *)
Theorem parse_line_words (line cmd : string) (args : list string) :
  parse_line line = Some (cmd, args) ->
  Forall token (cmd :: args).
Proof.
  unfold parse_line.
  destruct (_ =? _)%nat; [discriminate|].
  destruct (Py.head line) as [c0|]; [|discriminate].
  destruct (Ascii.eqb c0 "#"); [discriminate|].
  match goal with |- context [Py.split ?l] =>
    pose proof (split_go_tokens (list_ascii_of_string l) [] eq_refl) as H;
    fold (Py.split l) in H; destruct (Py.split l) as [|n a] end;
    [discriminate|].
  intros E. inversion E; subst. exact H.
Qed.

Lemma lookup_not_in {A : Type} (k : string) (d : list (string * A)) :
  existsb (String.eqb k) (map fst d) = false -> lookup k d = None.
Proof.
  induction d as [|[k' v] d IH]; simpl; [reflexivity|].
  intros H. apply orb_false_iff in H. destruct H as [-> H]. auto.
Qed.

Lemma lookup_in {A : Type} (k : string) (d : list (string * A)) :
  existsb (String.eqb k) (map fst d) = true -> exists v, lookup k d = Some v.
Proof.
  induction d as [|[k' v] d IH]; simpl; [discriminate|].
  destruct (String.eqb k k'); [eauto|]. exact IH.
Qed.

Lemma argmap_keys_known k :
  existsb (String.eqb k) command_names = false -> lookup k argmap = None.
Proof.
  intros H. apply lookup_not_in. cbn [map fst argmap existsb].
  cbn [command_names existsb] in H.
  repeat (apply orb_false_iff in H; destruct H as [? H]).
  repeat (apply orb_false_iff; split); auto.
Qed.

(** X4: a line whose first word is no key of the command table gets the
    response [? Unknown command]; in debug mode the name goes to the
    standard error; nothing else changes, whatever the arguments. *)
Theorem get_cmd_unknown (fuel : nat) (line cmd : string) (args : list string)
    (s : GtpConnection) :
  parse_line line = Some (cmd, args) ->
  existsb (String.eqb cmd) command_names = false ->
  get_cmd C fuel line s =
  (Return tt,
   set_stdout (stdout s ++ [failure "Unknown command"])%list
     (if _debug_mode s
      then set_stderr (app (stderr s) ["Unknown command: " ++ cmd ++ Py.nl]) s
      else s)).
Proof.
  intros Hline Hcmd. unfold get_cmd. rewrite Hline.
  assert (Hplay : String.eqb cmd "play" = false).
  { cbn [command_names existsb] in Hcmd.
    repeat (apply orb_false_iff in Hcmd; destruct Hcmd as [? Hcmd]); assumption. }
  rewrite Hplay. cbn [andb].
  unfold arg_error. rewrite (argmap_keys_known _ Hcmd).
  rewrite (bind_Return (ret false) _ s false s eq_refl).
  rewrite lookup_not_in by (rewrite commands_keys; exact Hcmd).
  unfold debug_msg, bind, self, error, write_stdout, modify, ret.
  destruct s as [dbg k b nd tl st wm gc out err ck dr]; destruct dbg; reflexivity.
Qed.

(** X5: a command other than [play] that is given fewer arguments than
    [argmap] requires gets its usage message as a failure; its handler is
    not run and nothing else changes. *)
Theorem get_cmd_too_few_arguments (fuel : nat) (line cmd : string)
    (args : list string) (required : Z) (usage : string) (s : GtpConnection) :
  parse_line line = Some (cmd, args) ->
  cmd <> "play" ->
  lookup cmd argmap = Some (required, usage) ->
  len args < required ->
  get_cmd C fuel line s =
  (Return tt, set_stdout (stdout s ++ [failure usage])%list s).
Proof.
  intros Hline Hplay Hreq Hlen. unfold get_cmd. rewrite Hline.
  apply String.eqb_neq in Hplay. rewrite Hplay. cbn [andb].
  unfold arg_error. rewrite Hreq.
  apply Z.ltb_lt in Hlen. rewrite Hlen. reflexivity.
Qed.

(** X6: when the handler of a line raises an exception of class
    [Exception], the dispatcher writes two messages to the standard error in
    debug mode and raises it again: no response is added, and the loop over
    the input stops there, leaving the lines that follow unread. *)
Theorem get_cmd_reraises (fuel : nat) (line cmd : string) (args : list string)
    (handler : list string -> M unit) (s s1 : GtpConnection)
    (cls msg : string) (rest : list string) :
  parse_line line = Some (cmd, args) ->
  (cmd = "play" -> len args = 2) ->
  (forall required usage,
      lookup cmd argmap = Some (required, usage) -> required <= len args) ->
  lookup cmd (commands C fuel) = Some handler ->
  handler args s = (Raise (Exception cls msg), s1) ->
  let s2 :=
    if _debug_mode s1
    then set_stderr
           (app (stderr s1)
                ["Error executing command " ++ msg ++ Py.nl;
                 "Stack Trace:" ++ Py.nl ++ format_exc C (Exception cls msg) ++ Py.nl])
           s1
    else s1 in
  get_cmd C fuel line s = (Raise (Exception cls msg), s2) /\
  start_connection_loop C fuel (line :: rest) s = (Raise (Exception cls msg), s2).
Proof.
  intros Hline Hplay Harity Hh Hraise s2.
  assert (H : get_cmd C fuel line s = (Raise (Exception cls msg), s2)).
  { rewrite (get_cmd_dispatch C fuel line cmd args handler s Hline Hplay Harity Hh).
    unfold try_except_Exception. rewrite Hraise. cbn [is_Exception str_exn].
    subst s2. unfold debug_msg, bind, self, modify, ret, raise.
    destruct s1 as [dbg k b nd tl st wm gc out err ck dr]; destruct dbg;
      cbn [_debug_mode stderr set_stderr]; [|reflexivity].
    rewrite <- app_assoc. reflexivity. }
  split; [exact H|].
  cbn [start_connection_loop]. now rewrite (bind_Raise _ _ _ _ _ H).
Qed.

Lemma existsb_keys {A : Type} (k : string) (d : list (string * A)) :
  existsb (String.eqb k) (map fst d) =
  match lookup k d with Some _ => true | None => false end.
Proof.
  induction d as [|[k' v] d IH]; simpl; [reflexivity|].
  destruct (String.eqb k k'); [reflexivity | exact IH].
Qed.

(** X7: [known_command NAME] answers [true] exactly for the names that the
    dispatcher finds a handler for, and [false] for those it answers
    [Unknown command] to. *)
Theorem known_command_agrees (fuel : nat) (line a0 : string)
    (rest : list string) (s : GtpConnection) :
  parse_line line = Some ("known_command", a0 :: rest) ->
  get_cmd C fuel line s =
  (Return tt,
   set_stdout
     (stdout s ++ [success match lookup a0 (commands C fuel) with
                           | Some _ => "true"
                           | None => "false"
                           end])%list s).
Proof.
  intros Hline.
  rewrite (get_cmd_dispatch C fuel line "known_command" (a0 :: rest)
             known_command_cmd s Hline);
    [ | discriminate
      | intros required usage H; inversion H; unfold len; simpl List.length; lia
      | reflexivity ].
  unfold try_except_Exception, known_command_cmd.
  rewrite getitem_0.
  rewrite (bind_Return (lift (Ok a0)) _ s a0 s eq_refl).
  rewrite <- (commands_keys C fuel), existsb_keys.
  destruct (lookup a0 (commands C fuel)); reflexivity.
Qed.

(** X8: when the time is already exceeded as the root frame is entered,
    [solve] answers [unknown] whatever the position: the board and the
    rules are not consulted. *)
Theorem solve_cmd_late (fuel : nat) (args : list string) (s : GtpConnection) :
  genCall s = false ->
  Qle_bool (first_duration C s) (inject_Z (timelimit s)) = false ->
  solve_cmd C (S fuel) args s =
  (Return tt,
   set_stdout (stdout s ++ [success "unknown"])%list
     (searched (solve_entry C s) true [] (S (S (clock s))))).
Proof.
  intros Hgen Htime. rewrite solve_cmd_unfold.
  rewrite (bind_Return _ _ _ _ _
             (alphabeta_late C fuel _ _ _ (solve_entry C s) eq_refl eq_refl Htime)).
  rewrite (bind_Return self _ _ _ _ eq_refl).
  cbn [genCall winMoves notdone board set_clock set_starttime set_notdone
       set_winMoves solve_entry].
  rewrite Hgen. reflexivity.
Qed.

End Dispatcher.

(** *** What a method leaves alone *)

Section Respects.

Variable R : GtpConnection -> GtpConnection -> Prop.
Hypothesis R_refl : forall s, R s s.
Hypothesis R_trans : forall s1 s2 s3, R s1 s2 -> R s2 s3 -> R s1 s3.

Lemma respects_ret {A : Type} (a : A) : respects R (ret a).
Proof. intros s; apply R_refl. Qed.

Lemma respects_raise {A : Type} (e : exn) : respects R (@raise A e).
Proof. intros s; apply R_refl. Qed.

Lemma respects_lift {A : Type} (r : res A) : respects R (lift r).
Proof. intros s; destruct r; apply R_refl. Qed.

Lemma respects_self : respects R self.
Proof. intros s; apply R_refl. Qed.

Lemma respects_bind {A B : Type} (m : M A) (f : A -> M B) :
  respects R m -> (forall a, respects R (f a)) -> respects R (bind m f).
Proof.
  intros Hm Hf s. unfold bind. specialize (Hm s).
  destruct (m s) as [[a|e|] s1]; simpl in *; auto.
  eapply R_trans; [exact Hm | apply Hf].
Qed.

Lemma respects_try_Exception {A : Type} (body : M A) (handler : exn -> M A) :
  respects R body -> (forall e, respects R (handler e)) ->
  respects R (try_except_Exception body handler).
Proof.
  intros Hb Hh s. unfold try_except_Exception. specialize (Hb s).
  destruct (body s) as [[a|e|] s1]; simpl in *; auto.
  destruct (is_Exception e); simpl; auto.
  eapply R_trans; [exact Hb | apply Hh].
Qed.

Lemma respects_try {A : Type} (body handler : M A) :
  respects R body -> respects R handler -> respects R (try_except body handler).
Proof.
  intros Hb Hh s. unfold try_except. specialize (Hb s).
  destruct (body s) as [[a|e|] s1]; simpl in *; auto.
  eapply R_trans; [exact Hb | apply Hh].
Qed.

Lemma respects_modify f : (forall s, R s (f s)) -> respects R (modify f).
Proof. intros H s; apply H. Qed.

Lemma respects_on_board {A : Type} (f : GoBoard.t -> GoBoard.t * res A) :
  (forall s b, R s (set_board b s)) -> respects R (on_board f).
Proof.
  intros H s. unfold on_board. destruct (f (board s)) as [b' [a|e]]; apply H.
Qed.

End Respects.

Lemma respects_weaken (R R' : GtpConnection -> GtpConnection -> Prop)
    {A : Type} (m : M A) :
  (forall s s', R s s' -> R' s s') -> respects R m -> respects R' m.
Proof. intros H Hm s. apply H, Hm. Qed.

Lemma same_session_refl s : same_session s s.
Proof. repeat split. Qed.

Lemma same_session_trans s1 s2 s3 :
  same_session s1 s2 -> same_session s2 s3 -> same_session s1 s3.
Proof.
  unfold same_session. intros H1 H2.
  repeat match goal with H : _ /\ _ |- _ => destruct H end.
  repeat split; congruence.
Qed.

Lemma framed_output_refl s : framed_output s s.
Proof.
  split; [|split; [reflexivity | reflexivity]].
  exists []. rewrite app_nil_r. split; [reflexivity | constructor].
Qed.

Lemma framed_output_trans s1 s2 s3 :
  framed_output s1 s2 -> framed_output s2 s3 -> framed_output s1 s3.
Proof.
  intros [[r1 [E1 F1]] [D1 S1]] [[r2 [E2 F2]] [D2 S2]].
  split; [|split].
  - exists (r1 ++ r2)%list. split.
    + rewrite E2, E1, app_assoc. reflexivity.
    + apply Forall_app. now split.
  - congruence.
  - intros H. rewrite S2, S1; congruence.
Qed.

Lemma same_session_framed s s' : same_session s s' -> framed_output s s'.
Proof.
  intros (Hd & _ & _ & _ & _ & Ho & He & _).
  split; [|split; [exact Hd | intros _; exact He]].
  exists []. rewrite app_nil_r. split; [exact Ho | constructor].
Qed.



Lemma same_settings_refl s : same_settings s s.
Proof. split; reflexivity. Qed.

Lemma same_settings_trans s1 s2 s3 :
  same_settings s1 s2 -> same_settings s2 s3 -> same_settings s1 s3.
Proof. unfold same_settings; intros [] []; split; congruence. Qed.

Lemma same_session_settings s s' : same_session s s' -> same_settings s s'.
Proof. intros (_ & Hk & Ht & _). now split. Qed.

(** The steps of a proof that a method respects a relation [R] with the
    reflexivity [Hr] and transitivity [Ht]; [base] closes the leaves. *)
Ltac respects_with Hr Ht base :=
  repeat first
    [ base
    | apply (respects_ret _ Hr) | apply (respects_raise _ Hr)
    | apply (respects_lift _ Hr) | apply (respects_self _ Hr)
    | apply (respects_bind _ Ht); [| intros ?]
    | apply (respects_try_Exception _ Ht); [| intros ?]
    | apply (respects_try _ Ht)
    | match goal with
      | |- respects _ (match ?x with _ => _ end) => destruct x
      | |- respects _ (let _ := _ in _) => cbv zeta
      end ].




Section Session.

Variable C : Collaborators.

Ltac session_base :=
  first [ solve [apply respects_on_board; intros ? ?; repeat split]
        | solve [apply respects_modify; intros ?; repeat split] ].

Lemma session_clock : respects same_session (time_process_time C).
Proof. intros s. repeat split. Qed.

Lemma session_undo p : respects same_session (undo C p).
Proof.
  unfold undo.
  respects_with same_session_refl same_session_trans session_base.
Qed.

Lemma session_ab_loop rec beta d ms :
  (forall a b c, respects same_session (rec a b c)) ->
  forall alpha, respects same_session (ab_loop C rec beta d ms alpha).
Proof.
  intros Hrec. induction ms as [|m ms IH]; intros alpha; cbn [ab_loop].
  - apply (respects_ret _ same_session_refl).
  - respects_with same_session_refl same_session_trans
      ltac:(first [ apply Hrec | apply session_undo | apply IH | session_base ]).
Qed.

Lemma session_alphabeta fuel :
  forall alpha beta d, respects same_session (alphabeta C fuel alpha beta d).
Proof.
  induction fuel as [|fuel IH]; intros alpha beta d.
  - intros s. apply same_session_refl.
  - rewrite alphabeta_S.
    respects_with same_session_refl same_session_trans
      ltac:(first [ apply session_clock | apply session_ab_loop; exact IH
                  | session_base ]).
Qed.


(** X9: a search never writes to the standard output or the standard
    error and never changes the komi, the time limit, the start time, the
    generation mode, the debug mode or the count of random draws, with any
    board and rules, any fuel and however it ends. *)
Theorem alphabeta_same_session (fuel : nat) (alpha beta d : Z)
    (s : GtpConnection) :
  same_session s (snd (alphabeta C fuel alpha beta d s)).
Proof. apply session_alphabeta. Qed.

(** X10: in generation mode [solve_cmd] writes nothing, to the standard
    output or to the standard error, however the search ends. *)
Theorem solve_cmd_silent_in_generation (fuel : nat) (args : list string)
    (s : GtpConnection) :
  genCall s = true ->
  stdout (snd (solve_cmd C fuel args s)) = stdout s /\
  stderr (snd (solve_cmd C fuel args s)) = stderr s.
Proof.
  intros Hgen. rewrite solve_cmd_unfold. unfold bind.
  pose proof (session_alphabeta fuel (-100000) 100000 0 (solve_entry C s)) as H.
  destruct (alphabeta C fuel (-100000) 100000 0 (solve_entry C s)) as [[r|e|] s1];
    cbn [snd] in *; destruct H as (_ & _ & _ & _ & Hg & Ho & He & _);
    cbn [solve_entry genCall stdout stderr set_starttime set_clock set_notdone
         set_winMoves] in *.
  - unfold self. rewrite Hg, Hgen. cbn [negb ret snd]. now split.
  - now split.
  - now split.
Qed.

(** *** Responses *)

Ltac framed_same :=
  split; [exists []; rewrite app_nil_r; split; [reflexivity | constructor]
         | split; [reflexivity | intros _; reflexivity]].

Lemma framed_respond r : respects framed_output (respond r).
Proof.
  intros s. split; [|split; [reflexivity | intros _; reflexivity]].
  eexists. split; [reflexivity|]. constructor; [|constructor].
  exists r. now left.
Qed.

Lemma framed_error r : respects framed_output (error r).
Proof.
  intros s. split; [|split; [reflexivity | intros _; reflexivity]].
  eexists. split; [reflexivity|]. constructor; [|constructor].
  exists r. now right.
Qed.

Lemma framed_debug_msg r : respects framed_output (debug_msg r).
Proof.
  intros s. unfold debug_msg, bind, self.
  destruct (_debug_mode s) eqn:E; cbn [snd modify ret].
  - split; [exists []; rewrite app_nil_r; split; [reflexivity | constructor]|].
    split; [reflexivity|]. cbn [_debug_mode set_stderr]. congruence.
  - apply framed_output_refl.
Qed.

Ltac framed_base :=
  first [ apply framed_respond | apply framed_error | apply framed_debug_msg
        | solve [apply respects_on_board; intros ? ?; framed_same]
        | solve [apply respects_modify; intros ?; framed_same] ].

Ltac framed_steps :=
  respects_with framed_output_refl framed_output_trans framed_base.

Lemma framed_alphabeta fuel alpha beta d :
  respects framed_output (alphabeta C fuel alpha beta d).
Proof.
  eapply respects_weaken; [exact same_session_framed | apply session_alphabeta].
Qed.

Lemma framed_clock : respects framed_output (time_process_time C).
Proof. intros s. framed_same. Qed.

Lemma framed_random_move color : respects framed_output (random_move C color).
Proof.
  intros s. unfold random_move.
  destruct (generate_random_move C (board s) color (draws s)); framed_same.
Qed.

Lemma framed_solve_cmd fuel args : respects framed_output (solve_cmd C fuel args).
Proof.
  unfold solve_cmd.
  respects_with framed_output_refl framed_output_trans
    ltac:(first [ apply framed_alphabeta | apply framed_clock | framed_base ]).
Qed.

Lemma framed_genmove_cmd fuel args : respects framed_output (genmove_cmd C fuel args).
Proof.
  unfold genmove_cmd, genmove_choose.
  respects_with framed_output_refl framed_output_trans
    ltac:(first [ apply framed_solve_cmd | apply framed_random_move | framed_base ]).
Qed.

Lemma framed_set_free_handicap_loop points :
  respects framed_output (set_free_handicap_loop C points).
Proof.
  induction points as [|p ps IH]; cbn [set_free_handicap_loop].
  - apply (respects_ret _ framed_output_refl).
  - respects_with framed_output_refl framed_output_trans
      ltac:(first [ apply IH | framed_base ]).
Qed.

Lemma framed_handlers fuel cmd handler args :
  lookup cmd (commands C fuel) = Some handler ->
  respects framed_output (handler args).
Proof.
  intros H. unfold commands in H. cbn [lookup] in H.
  repeat match type of H with
         | (if String.eqb cmd ?k then _ else _) = _ =>
             destruct (String.eqb cmd k);
             [ inversion H; subst handler; clear H | ]
         end;
    try discriminate.
  all: try apply framed_solve_cmd; try apply framed_genmove_cmd.
  all: unfold protocol_version_cmd, quit_cmd, name_cmd, boardsize_cmd,
         showboard_cmd, clear_board_cmd, komi_cmd, version_cmd,
         known_command_cmd, set_free_handicap, list_commands_cmd, play_cmd,
         final_score_cmd, legal_moves_cmd, timelimit_cmd, reset_.
  all: respects_with framed_output_refl framed_output_trans
         ltac:(first [ apply framed_set_free_handicap_loop | framed_base ]).
Qed.

Lemma framed_get_cmd fuel line : respects framed_output (get_cmd C fuel line).
Proof.
  unfold get_cmd.
  destruct (parse_line line) as [[cmd args]|];
    [|apply (respects_ret _ framed_output_refl)].
  destruct (_ && _); [framed_steps|].
  apply (respects_bind _ framed_output_trans).
  - unfold arg_error. framed_steps.
  - intros bad. destruct bad; [apply (respects_ret _ framed_output_refl)|].
    destruct (lookup cmd (commands C fuel)) as [handler|] eqn:E; framed_steps.
    eapply framed_handlers; eauto.
Qed.

(** X11: whatever lines are read, everything that the session adds to the
    standard output is a sequence of responses framed as [= payload] or
    [? message] and closed by an empty line; the debug mode does not
    change, and out of debug mode nothing is written to the standard
    error. *)
Theorem session_output_is_framed (fuel : nat) (lines : list string)
    (s : GtpConnection) :
  framed_output s (snd (start_connection C fuel lines s)).
Proof.
  revert s.
  change (respects framed_output (start_connection C fuel lines)).
  unfold start_connection.
  apply (respects_bind _ framed_output_trans); [apply framed_debug_msg|].
  intros _. induction lines as [|line lines IH]; cbn [start_connection_loop].
  - apply (respects_ret _ framed_output_refl).
  - apply (respects_bind _ framed_output_trans); [apply framed_get_cmd|].
    intros _. exact IH.
Qed.


(** *** The board and the settings *)




Ltac settings_base :=
  first [ solve [apply respects_on_board; intros ? ?; split; reflexivity]
        | solve [apply respects_modify; intros ?; split; reflexivity]
        | solve [intros ?; split; reflexivity] ].

Lemma settings_alphabeta fuel alpha beta d :
  respects same_settings (alphabeta C fuel alpha beta d).
Proof.
  eapply respects_weaken; [exact same_session_settings | apply session_alphabeta].
Qed.

Lemma settings_debug_msg r : respects same_settings (debug_msg r).
Proof.
  intros s. unfold debug_msg, bind, self.
  destruct (_debug_mode s); split; reflexivity.
Qed.

Lemma settings_random_move color : respects same_settings (random_move C color).
Proof.
  intros s. unfold random_move.
  destruct (generate_random_move C (board s) color (draws s)); split; reflexivity.
Qed.

Lemma settings_solve_cmd fuel args : respects same_settings (solve_cmd C fuel args).
Proof.
  unfold solve_cmd.
  respects_with same_settings_refl same_settings_trans
    ltac:(first [ apply settings_alphabeta | settings_base ]).
Qed.

Lemma settings_genmove_cmd fuel args : respects same_settings (genmove_cmd C fuel args).
Proof.
  unfold genmove_cmd, genmove_choose.
  respects_with same_settings_refl same_settings_trans
    ltac:(first [ apply settings_solve_cmd | apply settings_random_move
                | apply settings_debug_msg | settings_base ]).
Qed.

Lemma settings_set_free_handicap_loop points :
  respects same_settings (set_free_handicap_loop C points).
Proof.
  induction points as [|p ps IH]; cbn [set_free_handicap_loop].
  - apply (respects_ret _ same_settings_refl).
  - respects_with same_settings_refl same_settings_trans
      ltac:(first [ apply IH | apply settings_debug_msg | settings_base ]).
Qed.

Lemma settings_handlers fuel cmd handler args :
  lookup cmd (commands C fuel) = Some handler ->
  cmd <> "komi" -> cmd <> "timelimit" ->
  respects same_settings (handler args).
Proof.
  intros H Hk Ht. unfold commands in H. cbn [lookup] in H.
  repeat match type of H with
         | (if String.eqb cmd ?k then _ else _) = _ =>
             let E := fresh "E" in
             destruct (String.eqb cmd k) eqn:E;
             [ apply String.eqb_eq in E; inversion H; subst handler; clear H | ]
         end;
    try discriminate; try contradiction.
  all: try apply settings_solve_cmd; try apply settings_genmove_cmd.
  all: unfold protocol_version_cmd, quit_cmd, name_cmd, boardsize_cmd,
         showboard_cmd, clear_board_cmd, version_cmd,
         known_command_cmd, set_free_handicap, list_commands_cmd, play_cmd,
         final_score_cmd, legal_moves_cmd, reset_.
  all: respects_with same_settings_refl same_settings_trans
         ltac:(first [ apply settings_set_free_handicap_loop
                     | apply settings_debug_msg | settings_base ]).
Qed.

(** X13: only [komi] changes the komi and only [timelimit] the time
    limit: every other line, [solve] and [genmove] with their searches
    included, leaves both as they were. *)
Theorem get_cmd_same_settings (fuel : nat) (line : string) (s : GtpConnection) :
  (forall cmd args, parse_line line = Some (cmd, args) ->
                    cmd <> "komi" /\ cmd <> "timelimit") ->
  komi (snd (get_cmd C fuel line s)) = komi s /\
  timelimit (snd (get_cmd C fuel line s)) = timelimit s.
Proof.
  intros H. revert s. change (respects same_settings (get_cmd C fuel line)).
  unfold get_cmd.
  destruct (parse_line line) as [[cmd args]|];
    [|apply (respects_ret _ same_settings_refl)].
  destruct (H cmd args eq_refl) as [Hk Ht].
  destruct (_ && _);
    [respects_with same_settings_refl same_settings_trans settings_base|].
  apply (respects_bind _ same_settings_trans).
  - unfold arg_error.
    respects_with same_settings_refl same_settings_trans settings_base.
  - intros bad. destruct bad; [apply (respects_ret _ same_settings_refl)|].
    destruct (lookup cmd (commands C fuel)) as [handler|] eqn:E;
      respects_with same_settings_refl same_settings_trans
        ltac:(first [ apply settings_debug_msg | settings_base ]).
    eapply settings_handlers; eauto.
Qed.

End Session.

Section Genmove.

Variable C : Collaborators.

(** *** [genmove] *)

(** The first statements of [genmove_cmd], up to the call of the solver. *)
Lemma genmove_cmd_start fuel a0 rest s color :
  color_to_int C (Py.lower a0) = Ok color ->
  get_winner C (board s) = None ->
  genmove_cmd C fuel (a0 :: rest) s =
  try_except_Exception
    (solve_cmd C fuel (a0 :: rest) ;;;
     modify (set_genCall false) ;;;
     mv <- genmove_choose C color ;;
     s1 <- self ;;
     legal <- lift (check_legal C (board s1) mv color) ;;
     if negb legal then
       pc <- lift (_point_to_coord C (board s1) mv) ;;
       board_move <- lift (format_point C pc) ;;
       respond ("Illegal move: " ++ board_move) ;;;
       raise (Exception "RuntimeError" "Illegal move given by engine")
     else
       on_board (fun b => move C b mv color) ;;;
       s2 <- self ;;
       debug_msg ("Move: " ++ Py.str_of_Z mv ++ Py.nl ++ "Board: " ++ Py.nl
                  ++ get_twoD_board C (board s2) ++ Py.nl) ;;;
       pc <- lift (_point_to_coord C (board s2) mv) ;;
       board_move <- lift (format_point C pc) ;;
       respond board_move)
    (fun e => respond ("Error: " ++ str_exn e))
    (genmove_entry a0 s).
Proof.
  intros Hcolor Hwin.
  unfold genmove_cmd, try_except_Exception.
  rewrite (bind_Return (modify (set_notdone false)) _ s tt _ eq_refl).
  rewrite getitem_0.
  rewrite (bind_Return (lift (Ok a0)) _ _ a0 _ eq_refl).
  cbv zeta. rewrite Hcolor.
  rewrite (bind_Return (lift (Ok color)) _ _ color _ eq_refl).
  rewrite (bind_Return self _ (set_notdone false s) _ _ eq_refl).
  cbn [board set_notdone]. rewrite Hwin.
  rewrite (bind_Return (modify (set_winMoves [])) _ _ tt _ eq_refl).
  rewrite (bind_Return (modify (set_genCall true)) _ _ tt _ eq_refl).
  rewrite (bind_Return _ _ _ tt (genmove_entry a0 s))
    by (unfold genmove_entry; destruct (String.eqb a0 "b"); reflexivity).
  reflexivity.
Qed.

(** X14: [genmove] on a position of which the board already reports a
    winner answers [resign]: it clears the time-exceeded flag and does
    nothing else, no search is run and no move is played. *)
Theorem genmove_resigns (fuel : nat) (a0 : string) (rest : list string)
    (s : GtpConnection) (color w : Z) :
  color_to_int C (Py.lower a0) = Ok color ->
  get_winner C (board s) = Some w ->
  genmove_cmd C fuel (a0 :: rest) s =
  (Return tt,
   set_stdout (stdout s ++ [success "resign"])%list (set_notdone false s)).
Proof.
  intros Hcolor Hwin.
  unfold genmove_cmd, try_except_Exception.
  rewrite (bind_Return (modify (set_notdone false)) _ s tt _ eq_refl).
  rewrite getitem_0.
  rewrite (bind_Return (lift (Ok a0)) _ _ a0 _ eq_refl).
  cbv zeta. rewrite Hcolor.
  rewrite (bind_Return (lift (Ok color)) _ _ color _ eq_refl).
  rewrite (bind_Return self _ (set_notdone false s) _ _ eq_refl).
  cbn [board set_notdone]. rewrite Hwin. reflexivity.
Qed.

(** X15: when the move that [genmove] chose passes the board's check, it
    is played and answered as a success, whatever [board.move] returns (its
    result is not looked at); generation mode is off again. *)
Theorem genmove_plays (fuel : nat) (a0 : string) (rest : list string)
    (s s1 s2 : GtpConnection) (color mv : Z) (b' : GoBoard.t) (ok : bool)
    (pc : Z * Z) (board_move : string) :
  color_to_int C (Py.lower a0) = Ok color ->
  get_winner C (board s) = None ->
  solve_cmd C fuel (a0 :: rest) (genmove_entry a0 s) = (Return tt, s1) ->
  genmove_choose C color (set_genCall false s1) = (Return mv, s2) ->
  check_legal C (board s2) mv color = Ok true ->
  move C (board s2) mv color = (b', Ok ok) ->
  _point_to_coord C b' mv = Ok pc ->
  format_point C pc = Ok board_move ->
  genmove_cmd C fuel (a0 :: rest) s =
  (Return tt,
   set_stdout (stdout s2 ++ [success board_move])%list
     (set_board b'
        (if _debug_mode s2
         then set_stderr
                (app (stderr s2)
                     ["Move: " ++ Py.str_of_Z mv ++ Py.nl ++ "Board: " ++ Py.nl
                      ++ get_twoD_board C b' ++ Py.nl]) s2
         else s2))).
Proof.
  intros Hcolor Hwin Hsolve Hchoose Hlegal Hmove Hpc Hfmt.
  rewrite (genmove_cmd_start fuel a0 rest s color Hcolor Hwin).
  unfold try_except_Exception.
  rewrite (bind_Return _ _ _ _ _ Hsolve).
  rewrite (bind_Return (modify (set_genCall false)) _ _ tt _ eq_refl).
  rewrite (bind_Return _ _ _ _ _ Hchoose).
  rewrite (bind_Return self _ s2 _ _ eq_refl).
  rewrite Hlegal.
  rewrite (bind_Return (lift (Ok true)) _ _ true _ eq_refl).
  cbn [negb].
  rewrite (bind_Return _ _ s2 ok (set_board b' s2))
    by (unfold on_board; rewrite Hmove; reflexivity).
  rewrite (bind_Return self _ (set_board b' s2) _ _ eq_refl).
  cbn [board set_board].
  destruct s2 as [dbg k b nd tl st wm gc out err ck dr]; destruct dbg;
    cbn [board set_board _debug_mode] in *;
    unfold debug_msg, bind, self, modify, ret;
    cbn [_debug_mode set_board set_stderr stderr board];
    rewrite Hpc; cbn [lift ret]; rewrite Hfmt; reflexivity.
Qed.

Lemma solve_cmd_keeps_generation fuel args s :
  genCall s = true -> genCall (snd (solve_cmd C fuel args s)) = true.
Proof.
  intros Hgen. rewrite solve_cmd_unfold. unfold bind.
  pose proof (session_alphabeta C fuel (-100000) 100000 0 (solve_entry C s)) as H.
  destruct (alphabeta C fuel (-100000) 100000 0 (solve_entry C s)) as [[r|e|] s1];
    cbn [snd] in *; destruct H as (_ & _ & _ & _ & Hg & _);
    cbn [solve_entry genCall set_starttime set_clock set_notdone set_winMoves] in *;
    try congruence.
  unfold self. rewrite Hg, Hgen. cbn [negb ret snd]. congruence.
Qed.

(** X16: when the search raises during [genmove], the handler answers
    [= Error: <detail>] and the connection stays in generation mode: every
    later [solve_cmd] on it searches but writes no response. *)
Theorem genmove_failure_silences_solve (fuel : nat) (a0 : string)
    (rest : list string) (s s1 : GtpConnection) (color : Z) (cls msg : string) :
  color_to_int C (Py.lower a0) = Ok color ->
  get_winner C (board s) = None ->
  solve_cmd C fuel (a0 :: rest) (genmove_entry a0 s)
    = (Raise (Exception cls msg), s1) ->
  let s2 := set_stdout (stdout s1 ++ [success ("Error: " ++ msg)])%list s1 in
  genmove_cmd C fuel (a0 :: rest) s = (Return tt, s2) /\
  genCall s2 = true /\
  forall fuel' args, stdout (snd (solve_cmd C fuel' args s2)) = stdout s2.
Proof.
  intros Hcolor Hwin Hsolve s2.
  assert (Hgen : genCall s2 = true).
  { subst s2. cbn [genCall set_stdout].
    pose proof (solve_cmd_keeps_generation fuel (a0 :: rest) (genmove_entry a0 s)
                  eq_refl) as H.
    now rewrite Hsolve in H. }
  split; [|split; [exact Hgen|]].
  - rewrite (genmove_cmd_start fuel a0 rest s color Hcolor Hwin).
    unfold try_except_Exception.
    rewrite (bind_Raise _ _ _ _ _ Hsolve). reflexivity.
  - intros fuel' args. rewrite solve_cmd_unfold. unfold bind.
    pose proof (session_alphabeta C fuel' (-100000) 100000 0 (solve_entry C s2)) as H.
    destruct (alphabeta C fuel' (-100000) 100000 0 (solve_entry C s2)) as [[r|e|] s3];
      cbn [snd] in *; destruct H as (_ & _ & _ & _ & Hg & Ho & _);
      cbn [solve_entry genCall stdout set_starttime set_clock set_notdone
           set_winMoves] in *; try exact Ho.
    unfold self. rewrite Hg, Hgen. exact Ho.
Qed.

End Genmove.

(** *** The two solvers *)

Lemma split_on_go_nonempty sep cs cur : Py.split_on_go sep cs cur <> [].
Proof.
  revert cur. induction cs as [|c cs IH]; intros cur; simpl; [discriminate|].
  destruct (Ascii.eqb c sep); [discriminate | apply IH].
Qed.

Lemma max_of_cons x l : max_of (x :: l) = fold_left Z.max l x.
Proof. reflexivity. Qed.

Lemma fold_max_le l : forall a, a <= fold_left Z.max l a.
Proof.
  induction l as [|x l IH]; intros a; simpl; [lia|].
  specialize (IH (Z.max a x)). lia.
Qed.

Lemma fold_max_ge l : forall a x, In x l -> x <= fold_left Z.max l a.
Proof.
  induction l as [|y l IH]; intros a x; simpl; [tauto|].
  intros [-> | H].
  - pose proof (fold_max_le l (Z.max a x)). lia.
  - now apply IH.
Qed.

Lemma fold_max_lt l b : forall a, a < b -> Forall (fun x => x < b) l ->
  fold_left Z.max l a < b.
Proof.
  induction l as [|x l IH]; intros a Ha Hl; simpl; [exact Ha|].
  inversion Hl; subst. apply IH; [lia | assumption].
Qed.

Lemma fold_max_max l : forall a x,
  fold_left Z.max l (Z.max a x) = Z.max a (fold_left Z.max l x).
Proof.
  induction l as [|y l IH]; intros a x; simpl; [reflexivity|].
  rewrite <- IH. f_equal. lia.
Qed.

Section Solvers.

Variable C : Collaborators.

Lemma negamaxBoolean_S fuel depth :
  negamaxBoolean C (S fuel) depth =
  (now <- time_process_time C ;;
   s0 <- self ;;
   match get_winner C (board s0) with
   | Some w => ret (w =? GoBoard.to_play (board s0))
   | None =>
       moves <- lift (generate_legal_moves C (board s0) (GoBoard.to_play (board s0))) ;;
       nb_loop C (negamaxBoolean C fuel) depth (Py.split_on " "%char moves) false
   end).
Proof. reflexivity. Qed.

(** What [move_ok] says of one move. *)
Lemma move_ok_spec below b m :
  move_ok C below b m = true ->
  exists rc ok,
    move_to_coord C m (GoBoard.size b) = Ok (Some rc) /\
    move C b (_coord_to_point C b (fst rc) (snd rc)) (GoBoard.to_play b)
      = (child C b m, Ok ok) /\
    placed C b (_coord_to_point C b (fst rc) (snd rc)) (child C b m) = true /\
    below (child C b m) = true.
Proof.
  unfold move_ok, child.
  destruct (move_to_coord C m (GoBoard.size b)) as [[rc|]|]; try discriminate.
  destruct (move C b (_coord_to_point C b (fst rc) (snd rc)) (GoBoard.to_play b))
    as [b' [ok|]] eqn:E; try discriminate.
  intros H. apply andb_true_iff in H. destruct H as [Hp Hb].
  exists rc, ok. cbn [fst]. auto.
Qed.

Lemma undo_placed b p b' s :
  placed C b p b' = true -> board s = b' ->
  undo C p s = (Return tt, set_board b s).
Proof.
  intros Hp Hb. apply placed_spec in Hp. destruct Hp as (Hset & Hsize & Hopp).
  subst b'. rewrite undo_ok with (g := GoBoard.board b) by exact Hset.
  rewrite Hsize, Hopp, board_eta. reflexivity.
Qed.

Lemma nb_loop_wf n fuel depth :
  0 <= depth ->
  (forall s,
      well_formed C n (board s) = true ->
      exists ck,
        negamaxBoolean C fuel (depth + 1) s =
        (Return (wins C n (board s)), searched s (notdone s) (winMoves s) ck)) ->
  forall ms s result,
    forallb (move_ok C (well_formed C n) (board s)) ms = true ->
    exists ck,
      nb_loop C (negamaxBoolean C fuel) depth ms result s =
      (Return (result || existsb (fun m => negb (wins C n (child C (board s) m))) ms),
       searched s (notdone s)
         (winMoves s ++
          (if depth =? 0
           then filter (fun m => negb (wins C n (child C (board s) m))) ms
           else []))
         ck).
Proof.
  intros Hdepth IH ms. induction ms as [|m ms IHms]; intros s result Hms.
  - exists (clock s). cbn [nb_loop existsb filter]. rewrite orb_false_r.
    destruct (depth =? 0); rewrite app_nil_r; destruct s; reflexivity.
  - cbn [forallb] in Hms. apply andb_true_iff in Hms. destruct Hms as [Hm Hms].
    destruct (move_ok_spec _ _ _ Hm) as (rc & ok & Hcoord & Hmove & Hplaced & Hwf).
    set (b' := child C (board s) m) in *.
    set (p := _coord_to_point C (board s) (fst rc) (snd rc)) in *.
    destruct (IH (set_board b' s) Hwf) as (ck & Hrec).
    cbn [board set_board notdone winMoves] in Hrec.
    cbn [nb_loop].
    rewrite (bind_Return self _ s s s eq_refl).
    rewrite Hcoord.
    rewrite (bind_Return _ _ s (Some rc) s eq_refl).
    rewrite (bind_Return _ _ s rc s eq_refl).
    fold p.
    rewrite (bind_Return _ _ s ok (set_board b' s))
      by (unfold on_board; rewrite Hmove; reflexivity).
    rewrite (bind_Return _ _ _ _ _ Hrec).
    cbv zeta.
    rewrite (bind_Return _ _ _ tt (searched s (notdone s) (winMoves s) ck))
      by (rewrite (undo_placed (board s) p b') by (auto; reflexivity); reflexivity).
    cbn [existsb filter]. fold b'.
    destruct (wins C n b') eqn:Ewin; cbn [negb].
    + destruct (IHms (searched s (notdone s) (winMoves s) ck) result Hms)
        as (ck' & Hloop).
      cbn [board searched notdone winMoves] in Hloop.
      exists ck'. rewrite Hloop. cbn [orb]. reflexivity.
    + destruct (depth =? 0) eqn:Ed.
      * rewrite (bind_Return _ _ _ tt
                   (searched s (notdone s) (winMoves s ++ [m]) ck)) by reflexivity.
        destruct (IHms (searched s (notdone s) (winMoves s ++ [m]) ck) true Hms)
          as (ck' & Hloop).
        cbn [board searched notdone winMoves] in Hloop.
        exists ck'. rewrite Hloop, ?Ed, <- app_assoc.
        rewrite orb_true_r. reflexivity.
      * rewrite (bind_Return _ _ _ tt
                   (searched s (notdone s) (winMoves s) ck)) by reflexivity.
        destruct (IHms (searched s (notdone s) (winMoves s) ck) true Hms)
          as (ck' & Hloop).
        cbn [board searched notdone winMoves] in Hloop.
        exists ck'. rewrite Hloop, ?Ed. rewrite orb_true_r. reflexivity.
Qed.

Lemma moves_at_Ok b moves :
  generate_legal_moves C b (GoBoard.to_play b) = Ok moves ->
  moves_at C b = Py.split_on " "%char moves.
Proof. unfold moves_at. now intros ->. Qed.

Lemma negamaxBoolean_wf n :
  forall fuel s depth,
    0 <= depth -> (n < fuel)%nat ->
    well_formed C n (board s) = true ->
    exists ck,
      negamaxBoolean C fuel depth s =
      (Return (wins C n (board s)),
       searched s (notdone s)
         (winMoves s ++ (if depth =? 0 then winning_moves C n (board s) else []))
         ck).
Proof.
  induction n as [|n IHn]; intros [|fuel] s depth Hdepth Hfuel Hwf; try lia;
    rewrite negamaxBoolean_S;
    unfold bind at 1, time_process_time at 1;
    rewrite (bind_Return self _ (set_clock (S (clock s)) s) _ _ eq_refl);
    cbn [board set_clock].
  - cbn [well_formed] in Hwf.
    unfold winning_moves. cbn [wins].
    destruct (get_winner C (board s)); [|discriminate].
    exists (S (clock s)).
    destruct (depth =? 0); rewrite app_nil_r; destruct s; reflexivity.
  - rewrite well_formed_S in Hwf. unfold winning_moves. cbn [wins].
    destruct (get_winner C (board s)).
    + exists (S (clock s)).
      destruct (depth =? 0); rewrite app_nil_r; destruct s; reflexivity.
    + destruct (generate_legal_moves C (board s) (GoBoard.to_play (board s)))
        as [moves|] eqn:Emoves; [|discriminate].
      rewrite (bind_Return _ _ _ moves _ eq_refl).
      rewrite (moves_at_Ok _ _ Emoves).
      destruct (nb_loop_wf n fuel depth Hdepth) with
        (ms := Py.split_on " "%char moves) (s := set_clock (S (clock s)) s)
        (result := false) as (ck & Hloop); auto.
      * intros s0 Hwf0.
        destruct (IHn fuel s0 (depth + 1)) as (ck & Hrec); auto; try lia.
        exists ck. rewrite Hrec.
        replace (depth + 1 =? 0) with false by (symmetry; apply Z.eqb_neq; lia).
        now rewrite app_nil_r.
      * exists ck. rewrite Hloop. reflexivity.
Qed.


Lemma max_of_ge x l : In x l -> x <= max_of l.
Proof.
  destruct l as [|y l]; [intros []|]. rewrite max_of_cons. intros [-> | H].
  - apply fold_max_le.
  - now apply fold_max_ge.
Qed.

Lemma in_time_now s :
  in_time C s ->
  Qle_bool (process_time C (clock s) - starttime s) (inject_Z (timelimit s)) = true.
Proof. intros H; apply H. Qed.

(** The loop of a frame below the root, within the time limit: it cuts
    off at [beta] on a move whose negated value reaches [beta], and
    otherwise ends on the best of the lower bound and the negated values. *)
Lemma ab_loop_value n fuel beta d :
  1 <= d ->
  (forall s alpha' beta',
      alpha' < beta' ->
      well_formed C n (board s) = true -> notdone s = false -> winMoves s = [] ->
      in_time C s ->
      exists r ck,
        alphabeta C fuel alpha' beta' (d + 1) s =
          (Return (RInt r), searched s false [] ck) /\
        within alpha' beta' (value C n (board s)) r) ->
  forall ms s a,
    a < beta ->
    forallb (move_ok C (well_formed C n) (board s)) ms = true ->
    notdone s = false -> winMoves s = [] -> in_time C s ->
    exists r ck,
      ab_loop C (alphabeta C fuel) beta d ms a s =
        (Return (RInt r), searched s false [] ck) /\
      ((r = beta /\
        Exists (fun m => beta <= - value C n (child C (board s) m)) ms) \/
       (r = fold_left Z.max (map (fun m => - value C n (child C (board s) m)) ms) a /\
        Forall (fun m => - value C n (child C (board s) m) < beta) ms)).
Proof.
  intros Hd IH ms. induction ms as [|m ms IHms]; intros s a Ha Hms Hnd Hwm Hin.
  - exists a, (clock s). split.
    + cbn [ab_loop]. destruct s; simpl in *; subst; reflexivity.
    + right. split; [reflexivity | constructor].
  - cbn [forallb] in Hms. apply andb_true_iff in Hms. destruct Hms as [Hm Hms].
    destruct (move_ok_spec _ _ _ Hm) as (rc & ok & Hcoord & Hmove & Hplaced & Hwf).
    set (b' := child C (board s) m) in *.
    set (p := _coord_to_point C (board s) (fst rc) (snd rc)) in *.
    destruct (IH (set_board b' s) (- beta) (- a)) as (rc' & ck & Hrec & Hwithin);
      auto; try lia.
    cbn [board set_board] in Hwithin.
    cbn [ab_loop].
    rewrite (bind_Return self _ s s s eq_refl).
    rewrite Hcoord.
    rewrite (bind_Return _ _ s (Some rc) s eq_refl).
    rewrite (bind_Return _ _ s rc s eq_refl).
    fold p.
    rewrite (bind_Return _ _ s ok (set_board b' s))
      by (unfold on_board; rewrite Hmove; reflexivity).
    rewrite (bind_Return _ _ _ (Some (- rc')) (searched (set_board b' s) false [] ck))
      by (unfold try_except, bind; rewrite Hrec; reflexivity).
    rewrite (bind_Return _ _ _ tt (searched s false [] ck))
      by (rewrite (undo_placed (board s) p b') by (auto; reflexivity); reflexivity).
    replace (d =? 0) with false by (symmetry; apply Z.eqb_neq; lia).
    rewrite andb_false_r. cbn [andb].
    rewrite (bind_Return self _ (searched s false [] ck) _ _ eq_refl).
    cbn [notdone winMoves searched is_nil orb negb].
    unfold within in Hwithin.
    destruct (beta <=? - rc') eqn:Ecut.
    + apply Z.leb_le in Ecut.
      exists beta, ck. split; [reflexivity|]. left. split; [reflexivity|].
      constructor. fold b'. lia.
    + apply Z.leb_gt in Ecut.
      destruct (IHms (searched s false [] ck) (if a <? - rc' then - rc' else a))
        as (r & ck' & Hloop & Hres); auto.
      { destruct (a <? - rc'); lia. }
      exists r, ck'. split; [exact Hloop|].
      cbn [board searched] in Hres.
      destruct Hres as [[-> Hex] | [-> Hall]].
      * left. split; [reflexivity|]. now constructor 2.
      * right. split.
        -- cbn [map fold_left]. fold b'. f_equal.
           destruct (a <? - rc') eqn:E;
             [apply Z.ltb_lt in E | apply Z.ltb_ge in E]; lia.
        -- constructor; [fold b'; lia | exact Hall].
Qed.

(** A frame below the root, within the time limit, with a window that is
    not empty, on a well-formed tree. *)
Lemma alphabeta_value n :
  forall fuel s alpha beta d,
    1 <= d -> (n < fuel)%nat -> alpha < beta ->
    well_formed C n (board s) = true -> notdone s = false -> winMoves s = [] ->
    in_time C s ->
    exists r ck,
      alphabeta C fuel alpha beta d s = (Return (RInt r), searched s false [] ck) /\
      within alpha beta (value C n (board s)) r.
Proof.
  induction n as [|n IHn]; intros [|fuel] s alpha beta d Hd Hfuel Hab Hwf Hnd Hwm Hin;
    try lia;
    rewrite alphabeta_S;
    unfold bind at 1, time_process_time at 1;
    rewrite (bind_Return self _ (set_clock (S (clock s)) s) _ _ eq_refl);
    cbn [notdone winMoves set_clock timelimit starttime board];
    rewrite Hnd, Hwm, (in_time_now s Hin); cbn [is_nil orb negb].
  - cbn [well_formed] in Hwf. cbn [value].
    destruct (get_winner C (board s)); [|discriminate].
    exists (staticallyEvaluateForToPlay C (board s)), (S (clock s)). split.
    + destruct s; simpl in *; subst; reflexivity.
    + unfold within. lia.
  - rewrite well_formed_S in Hwf. cbn [value].
    destruct (get_winner C (board s)).
    + exists (staticallyEvaluateForToPlay C (board s)), (S (clock s)). split.
      * destruct s; simpl in *; subst; reflexivity.
      * unfold within. lia.
    + destruct (generate_legal_moves C (board s) (GoBoard.to_play (board s)))
        as [moves|] eqn:Emoves; [|discriminate].
      rewrite (bind_Return _ _ _ moves _ eq_refl).
      rewrite (moves_at_Ok _ _ Emoves).
      destruct (ab_loop_value n fuel beta d Hd) with
        (ms := Py.split_on " "%char moves) (s := set_clock (S (clock s)) s) (a := alpha)
        as (r & ck & Hloop & Hres); auto.
      { intros s0 a0 b0 Hab0 Hwf0 Hnd0 Hwm0 Hin0. apply IHn; auto; lia. }
      exists r, ck. split; [exact Hloop|].
      cbn [board set_clock] in Hres.
      pose proof (split_on_go_nonempty " "%char (list_ascii_of_string moves) []) as Hne.
      fold (Py.split_on " "%char moves) in Hne.
      destruct (Py.split_on " "%char moves) as [|m0 ms0]; [congruence|].
      set (x := fun m => - value C n (child C (board s) m)) in *.
      unfold within. destruct Hres as [[-> Hex] | [-> Hall]].
      * apply Exists_exists in Hex. destruct Hex as (m & Hm & Hx).
        assert (H : x m <= max_of (map x (m0 :: ms0)))
          by (apply max_of_ge, in_map, Hm).
        subst x. cbv beta in H. lia.
      * cbn [map fold_left]. rewrite fold_max_max. rewrite max_of_cons.
        assert (fold_left Z.max (map x ms0) (x m0) < beta).
        { inversion Hall; subst. apply fold_max_lt; [assumption|].
          apply Forall_map. assumption. }
        subst x. cbv beta in *. lia.
Qed.


(** With a static evaluation that agrees with the board's winner, the
    negamax value of a well-formed tree is positive when the side to move
    wins and negative when it does not. *)
Lemma value_sign n :
  signed_evaluation C ->
  forall b,
    well_formed C n b = true ->
    (wins C n b = true -> 0 < value C n b) /\
    (wins C n b = false -> value C n b < 0).
Proof.
  intros Hsign. induction n as [|n IHn]; intros b Hwf.
  - cbn [well_formed] in Hwf. cbn [wins value].
    destruct (get_winner C b) as [w|] eqn:Ew; [|discriminate].
    destruct (Hsign b w Ew) as [H1 H2]. split; intros H.
    + apply Z.eqb_eq in H. auto.
    + apply Z.eqb_neq in H. auto.
  - rewrite well_formed_S in Hwf. cbn [wins value].
    destruct (get_winner C b) as [w|] eqn:Ew.
    + destruct (Hsign b w Ew) as [H1 H2]. split; intros H.
      * apply Z.eqb_eq in H. auto.
      * apply Z.eqb_neq in H. auto.
    + unfold moves_at.
      destruct (generate_legal_moves C b (GoBoard.to_play b)) as [moves|];
        [|discriminate].
      pose proof (split_on_go_nonempty " "%char (list_ascii_of_string moves) []) as Hne.
      fold (Py.split_on " "%char moves) in Hne.
      assert (Hch : forall m, In m (Py.split_on " "%char moves) ->
                              well_formed C n (child C b m) = true).
      { intros m Hm. rewrite forallb_forall in Hwf.
        destruct (move_ok_spec _ _ _ (Hwf m Hm)) as (_ & _ & _ & _ & _ & H). exact H. }
      destruct (Py.split_on " "%char moves) as [|m0 ms0]; [congruence|].
      split; intros H.
      * apply existsb_exists in H. destruct H as (m & Hm & Hw).
        apply negb_true_iff in Hw.
        destruct (IHn _ (Hch m Hm)) as [_ Hneg]. specialize (Hneg Hw).
        pose proof (max_of_ge (- value C n (child C b m))
                      (map (fun m => - value C n (child C b m)) (m0 :: ms0))) as Hge.
        assert (Hin : In (- value C n (child C b m))
                         (map (fun m => - value C n (child C b m)) (m0 :: ms0))).
        { apply (in_map (fun m => - value C n (child C b m))). exact Hm. }
        specialize (Hge Hin). lia.
      * assert (Hall : forall m, In m (m0 :: ms0) -> 0 < value C n (child C b m)).
        { intros m Hm. destruct (IHn _ (Hch m Hm)) as [Hpos _]. apply Hpos.
          destruct (wins C n (child C b m)) eqn:E; [reflexivity|].
          exfalso. assert (Hex : existsb (fun m => negb (wins C n (child C b m)))
                                         (m0 :: ms0) = true).
          { apply existsb_exists. exists m. split; [exact Hm|]. now rewrite E. }
          congruence. }
        cbn [map]. rewrite max_of_cons.
        apply fold_max_lt.
        -- specialize (Hall m0 (or_introl eq_refl)). lia.
        -- apply Forall_map. apply Forall_forall. intros m Hm.
           specialize (Hall m (or_intror Hm)). lia.
Qed.

(** The loop of the root frame, within the time limit, with a lower bound
    below zero and an upper bound above: it stops on the first move whose
    negated value is not negative and records it. *)
Lemma ab_loop_root n fuel beta :
  0 < beta ->
  (forall s alpha' beta',
      alpha' < beta' ->
      well_formed C n (board s) = true -> notdone s = false -> winMoves s = [] ->
      in_time C s ->
      exists r ck,
        alphabeta C fuel alpha' beta' (0 + 1) s =
          (Return (RInt r), searched s false [] ck) /\
        within alpha' beta' (value C n (board s)) r) ->
  forall ms s a,
    a < 0 ->
    forallb (move_ok C (well_formed C n) (board s)) ms = true ->
    notdone s = false -> winMoves s = [] -> in_time C s ->
    exists r ck,
      ab_loop C (alphabeta C fuel) beta 0 ms a s =
        (Return r,
         searched s false
           (firstn 1 (filter (fun m => 0 <=? - value C n (child C (board s) m)) ms))
           ck) /\
      (r = RAbort <->
       filter (fun m => 0 <=? - value C n (child C (board s) m)) ms <> []).
Proof.
  intros Hbeta IH ms. induction ms as [|m ms IHms]; intros s a Ha Hms Hnd Hwm Hin.
  - exists (RInt a), (clock s). split.
    + cbn [ab_loop filter firstn]. destruct s; simpl in *; subst; reflexivity.
    + cbn [filter]. split; [discriminate | congruence].
  - cbn [forallb] in Hms. apply andb_true_iff in Hms. destruct Hms as [Hm Hms].
    destruct (move_ok_spec _ _ _ Hm) as (rc & ok & Hcoord & Hmove & Hplaced & Hwf).
    set (b' := child C (board s) m) in *.
    set (p := _coord_to_point C (board s) (fst rc) (snd rc)) in *.
    destruct (IH (set_board b' s) (- beta) (- a)) as (rc' & ck & Hrec & Hwithin);
      auto; try lia.
    cbn [board set_board] in Hwithin.
    cbn [ab_loop].
    rewrite (bind_Return self _ s s s eq_refl).
    rewrite Hcoord.
    rewrite (bind_Return _ _ s (Some rc) s eq_refl).
    rewrite (bind_Return _ _ s rc s eq_refl).
    fold p.
    rewrite (bind_Return _ _ s ok (set_board b' s))
      by (unfold on_board; rewrite Hmove; reflexivity).
    rewrite (bind_Return _ _ _ (Some (- rc')) (searched (set_board b' s) false [] ck))
      by (unfold try_except, bind; rewrite Hrec; reflexivity).
    rewrite (bind_Return _ _ _ tt (searched s false [] ck))
      by (rewrite (undo_placed (board s) p b') by (auto; reflexivity); reflexivity).
    cbn [Z.eqb andb filter]. fold b'.
    unfold within in Hwithin.
    destruct (0 <=? - value C n b') eqn:Egood.
    + apply Z.leb_le in Egood.
      replace (a <? - rc') with true by (symmetry; apply Z.ltb_lt; lia).
      replace (0 <=? - rc') with true by (symmetry; apply Z.leb_le; lia).
      cbn [andb]. exists RAbort, ck. split; [reflexivity|].
      split; [discriminate | reflexivity].
    + apply Z.leb_gt in Egood.
      replace (0 <=? - rc') with false by (symmetry; apply Z.leb_gt; lia).
      rewrite andb_false_r.
      rewrite (bind_Return self _ (searched s false [] ck) _ _ eq_refl).
      cbn [notdone winMoves searched is_nil orb negb].
      replace (beta <=? - rc') with false by (symmetry; apply Z.leb_gt; lia).
      destruct (IHms (searched s false [] ck) (if a <? - rc' then - rc' else a))
        as (r & ck' & Hloop & Hres); auto.
      { destruct (a <? - rc'); lia. }
      exists r, ck'. split; [exact Hloop | exact Hres].
Qed.

(** The root frame within the time limit, with a window around zero, on a
    well-formed tree with an evaluation that agrees with the winner: it
    records the first of the winning moves, if there is one. *)
Lemma alphabeta_root n :
  signed_evaluation C ->
  forall fuel s alpha beta,
    (n < fuel)%nat -> alpha < 0 -> 0 < beta ->
    well_formed C n (board s) = true -> notdone s = false -> winMoves s = [] ->
    in_time C s ->
    exists r ck,
      alphabeta C fuel alpha beta 0 s =
        (Return r, searched s false (firstn 1 (winning_moves C n (board s))) ck) /\
      (r = RAbort <-> winning_moves C n (board s) <> []).
Proof.
  intros Hsign. destruct n as [|n]; intros [|fuel] s alpha beta Hfuel Ha Hb Hwf Hnd Hwm Hin;
    try lia;
    rewrite alphabeta_S;
    unfold bind at 1, time_process_time at 1;
    rewrite (bind_Return self _ (set_clock (S (clock s)) s) _ _ eq_refl);
    cbn [notdone winMoves set_clock timelimit starttime board];
    rewrite Hnd, Hwm, (in_time_now s Hin); cbn [is_nil orb negb].
  - cbn [well_formed] in Hwf. unfold winning_moves.
    destruct (get_winner C (board s)); [|discriminate].
    exists (RInt (staticallyEvaluateForToPlay C (board s))), (S (clock s)). split.
    + destruct s; simpl in *; subst; reflexivity.
    + split; [discriminate | congruence].
  - rewrite well_formed_S in Hwf. unfold winning_moves.
    destruct (get_winner C (board s)).
    + exists (RInt (staticallyEvaluateForToPlay C (board s))), (S (clock s)). split.
      * destruct s; simpl in *; subst; reflexivity.
      * split; [discriminate | congruence].
    + destruct (generate_legal_moves C (board s) (GoBoard.to_play (board s)))
        as [moves|] eqn:Emoves; [|discriminate].
      rewrite (bind_Return _ _ _ moves _ eq_refl).
      rewrite (moves_at_Ok _ _ Emoves).
      destruct (ab_loop_root n fuel beta Hb) with
        (ms := Py.split_on " "%char moves) (s := set_clock (S (clock s)) s) (a := alpha)
        as (r & ck & Hloop & Hres); auto.
      { intros s0 a0 b0 Hab0 Hwf0 Hnd0 Hwm0 Hin0.
        apply alphabeta_value; auto; lia. }
      cbn [board set_clock] in Hloop, Hres.
      assert (Hfilter :
        filter (fun m => 0 <=? - value C n (child C (board s) m))
               (Py.split_on " "%char moves) =
        filter (fun m => negb (wins C n (child C (board s) m)))
               (Py.split_on " "%char moves)).
      { apply filter_ext_in. intros m Hm.
        rewrite forallb_forall in Hwf.
        destruct (move_ok_spec _ _ _ (Hwf m Hm)) as (_ & _ & _ & _ & _ & Hc).
        destruct (value_sign n Hsign _ Hc) as [Hpos Hneg].
        destruct (wins C n (child C (board s) m)); cbn [negb].
        - apply Z.leb_gt. specialize (Hpos eq_refl). lia.
        - apply Z.leb_le. specialize (Hneg eq_refl). lia. }
      rewrite Hfilter in Hloop, Hres.
      exists r, ck. split; [exact Hloop | exact Hres].
Qed.


Lemma wins_winning_moves n b :
  get_winner C b = None ->
  wins C n b = negb (is_nil (winning_moves C n b)).
Proof.
  intros Hw. unfold winning_moves. destruct n as [|n]; cbn [wins]; rewrite Hw.
  - reflexivity.
  - induction (moves_at C b) as [|m ms IH]; cbn [existsb filter]; [reflexivity|].
    destruct (negb (wins C n (child C b m))); [reflexivity | exact IH].
Qed.

(** X17: on a well-formed game tree [negamaxBoolean] returns whether the
    side to move wins the tree, and leaves the board, the time-exceeded
    flag and everything else as they were: at depth 0 it appends all the
    winning moves, in the order of the enumeration, below it none; while no
    winner is reported, it returns True exactly when there is a winning
    move. *)
Theorem negamaxBoolean_decides (n fuel : nat) (depth : Z) (s : GtpConnection) :
  well_formed C n (board s) = true ->
  (n < fuel)%nat ->
  0 <= depth ->
  (exists ck,
      negamaxBoolean C fuel depth s =
      (Return (wins C n (board s)),
       searched s (notdone s)
         (winMoves s ++ (if depth =? 0 then winning_moves C n (board s) else []))
         ck)) /\
  (get_winner C (board s) = None ->
   wins C n (board s) = negb (is_nil (winning_moves C n (board s)))).
Proof.
  intros Hwf Hfuel Hdepth. split.
  - now apply negamaxBoolean_wf.
  - apply wins_winning_moves.
Qed.

(** X18: below the root and within the time limit, a frame of the
    alpha-beta search on a well-formed tree returns an integer that is
    fail-hard for the negamax value of the position: the value itself when
    it lies inside the window, at most [alpha] when the value is, at least
    [beta] when the value is; the board and the flags are as they were. *)
Theorem alphabeta_fail_hard (n fuel : nat) (alpha beta d : Z) (s : GtpConnection) :
  well_formed C n (board s) = true ->
  (n < fuel)%nat ->
  1 <= d ->
  alpha < beta ->
  notdone s = false -> winMoves s = [] ->
  in_time C s ->
  exists r ck,
    alphabeta C fuel alpha beta d s = (Return (RInt r), searched s false [] ck) /\
    (value C n (board s) <= alpha -> r <= alpha) /\
    (beta <= value C n (board s) -> beta <= r) /\
    (alpha < value C n (board s) < beta -> r = value C n (board s)).
Proof.
  intros Hwf Hfuel Hd Hab Hnd Hwm Hin.
  destruct (alphabeta_value n fuel s alpha beta d Hd Hfuel Hab Hwf Hnd Hwm Hin)
    as (r & ck & Hrun & Hwithin).
  exists r, ck. split; [exact Hrun | exact Hwithin].
Qed.

(** X19: the two solvers agree.  On a well-formed tree, within the time
    limit and with an evaluation that agrees with the board's winner, the
    root frame of the alpha-beta search records exactly the first of the
    winning moves that [negamaxBoolean] collects at depth 0, and while no
    winner is reported it aborts on a recorded move exactly when
    [negamaxBoolean] returns True; both leave the board as it was. *)
Theorem alphabeta_agrees_with_negamax (n fuel : nat) (alpha beta : Z)
    (s : GtpConnection) :
  signed_evaluation C ->
  well_formed C n (board s) = true ->
  (n < fuel)%nat ->
  alpha < 0 -> 0 < beta ->
  notdone s = false -> winMoves s = [] ->
  in_time C s ->
  exists r_ab s_ab r_nb s_nb,
    alphabeta C fuel alpha beta 0 s = (Return r_ab, s_ab) /\
    negamaxBoolean C fuel 0 s = (Return r_nb, s_nb) /\
    winMoves s_ab = firstn 1 (winMoves s_nb) /\
    board s_ab = board s /\ board s_nb = board s /\
    (get_winner C (board s) = None -> (r_nb = true <-> r_ab = RAbort)).
Proof.
  intros Hsign Hwf Hfuel Ha Hb Hnd Hwm Hin.
  destruct (alphabeta_root n Hsign fuel s alpha beta Hfuel Ha Hb Hwf Hnd Hwm Hin)
    as (r_ab & ck & Hab & Habort).
  destruct (negamaxBoolean_wf n fuel s 0 (Z.le_refl 0) Hfuel Hwf) as (ck' & Hnb).
  rewrite Hwm in Hnb. cbn [Z.eqb app] in Hnb.
  eexists _, _, _, _. split; [exact Hab|]. split; [exact Hnb|].
  split; [reflexivity|]. split; [reflexivity|]. split; [reflexivity|].
  intros Hw. rewrite (wins_winning_moves n _ Hw), Habort.
  destruct (winning_moves C n (board s)); cbn [is_nil negb];
    split; congruence.
Qed.

(** X20: what [solve] decides.  Outside generation mode, on a well-formed
    tree, with an evaluation that agrees with the board's winner and a clock
    that stays within the time limit, [solve] answers the colour of the
    side to move and the first, in the order of the enumeration, of the
    moves after which the other side does not win the tree; when there is
    no such move it answers the opponent's colour; the board is as it
    was. *)
Theorem solve_cmd_decides (n fuel : nat) (args : list string) (s : GtpConnection) :
  signed_evaluation C ->
  genCall s = false ->
  well_formed C n (board s) = true ->
  (n < fuel)%nat ->
  is_color (GoBoard.to_play (board s)) ->
  opponent C BLACK = WHITE ->
  opponent C WHITE = BLACK ->
  in_time C (solve_entry C s) ->
  exists ck,
    solve_cmd C fuel args s =
    (Return tt,
     set_stdout
       (stdout s ++
        [success (solve_payload C (GoBoard.to_play (board s)) false
                    (firstn 1 (winning_moves C n (board s))))])%list
       (searched (solve_entry C s) false
          (firstn 1 (winning_moves C n (board s))) ck)).
Proof.
  intros Hsign Hgen Hwf Hfuel Hcol Hob How Hin.
  destruct (alphabeta_root n Hsign fuel (solve_entry C s) (-100000) 100000 Hfuel)
    as (r & ck & Hrun & _); auto; try lia.
  cbn [board solve_entry set_starttime set_clock set_notdone set_winMoves] in Hrun.
  exists ck.
  rewrite solve_cmd_unfold, (bind_Return _ _ _ _ _ Hrun).
  rewrite (bind_Return self _ _ _ _ eq_refl).
  cbn [genCall searched solve_entry winMoves notdone board
       set_starttime set_clock set_notdone set_winMoves].
  rewrite Hgen. cbn [negb].
  destruct (winning_moves C n (board s)) as [|w ws]; cbn [firstn].
  - cbn [len List.length Z.of_nat Z.eqb negb].
    assert (Hopp : is_color (opponent C (GoBoard.to_play (board s)))).
    { destruct Hcol as [-> | ->]; [rewrite Hob; now right | rewrite How; now left]. }
    rewrite (stone_color _ Hopp). reflexivity.
  - rewrite len_cons_nonzero. rewrite (stone_color _ Hcol). reflexivity.
Qed.

End Solvers.

Section Timelimit.

Variable C : Collaborators.

(** X21: [timelimit] stores whatever integer its argument reads as, with
    no check of the range that its usage message gives; after a negative
    one, on a clock that does not run backwards, every [solve] outside
    generation mode answers [unknown]. *)
Theorem timelimit_unchecked (fuel : nat) (line a0 : string) (rest : list string)
    (s : GtpConnection) (n : Z) :
  parse_line line = Some ("timelimit", a0 :: rest) ->
  int_of_str a0 = Ok n ->
  let s' := set_stdout (stdout s ++ [success EmptyString])%list (set_timelimit n s) in
  get_cmd C fuel line s = (Return tt, s') /\
  (n < 0 -> genCall s = false ->
   (process_time C (clock s) <= process_time C (S (clock s)))%Q ->
   forall fuel' args,
     stdout (snd (solve_cmd C (S fuel') args s')) =
     (stdout s' ++ [success "unknown"])%list).
Proof.
  intros Hline Hint s'. split.
  - rewrite (get_cmd_dispatch C fuel line "timelimit" (a0 :: rest)
               timelimit_cmd s Hline);
      [ | discriminate
        | intros required usage H; inversion H; unfold len; simpl List.length; lia
        | reflexivity ].
    unfold try_except_Exception, timelimit_cmd.
    rewrite getitem_0.
    rewrite (bind_Return (lift (Ok a0)) _ s a0 s eq_refl).
    rewrite Hint.
    rewrite (bind_Return (lift (Ok n)) _ s n s eq_refl).
    reflexivity.
  - intros Hn Hgen Hclock fuel' args.
    assert (Hlate : Qle_bool (first_duration C s') (inject_Z (timelimit s')) = false).
    { destruct (Qle_bool (first_duration C s') (inject_Z (timelimit s'))) eqn:E;
        [|reflexivity].
      apply Qle_bool_iff in E. unfold first_duration in E.
      subst s'. cbn [clock timelimit set_stdout set_timelimit] in E.
      assert (Hneg : (inject_Z n < 0)%Q) by (unfold Qlt; simpl; lia).
      lra. }
    rewrite solve_cmd_unfold.
    rewrite (bind_Return _ _ _ _ _
               (alphabeta_late C fuel' _ _ _ (solve_entry C s') eq_refl eq_refl Hlate)).
    rewrite (bind_Return self _ _ _ _ eq_refl).
    cbn [genCall winMoves notdone board set_clock set_starttime set_notdone
         set_winMoves solve_entry].
    subst s'. cbn [genCall set_stdout set_timelimit]. rewrite Hgen. reflexivity.
Qed.

End Timelimit.

(** ** Further checked instances on the reference board *)

Lemma get_cmd_skips_witness :
  get_cmd Ref.collaborators 0 (Ref.line "# a comment") (Ref.start 2) =
  (Return tt, Ref.start 2).
Proof.
  apply (get_cmd_skips Ref.collaborators 0 (Ref.line "# a comment") (Ref.start 2)).
  left; reflexivity.
Defined.

Lemma parse_line_request_id_witness :
  parse_line ("10" ++ Ref.line " known_command quit") =
  Some ("known_command", ["quit"]).
Proof.
  apply (parse_line_request_id "10" (Ref.line " known_command quit")).
  - reflexivity.
  - reflexivity.
Defined.

Lemma parse_line_words_witness : Forall token ["play"; "b"; "a1"].
Proof.
  apply (parse_line_words (Ref.line "  play b   a1 ") "play" ["b"; "a1"]).
  reflexivity.
Defined.

Lemma get_cmd_unknown_witness :
  get_cmd Ref.collaborators 0 (Ref.line "bogus 1 2") (Ref.start 2) =
  (Return tt,
   set_stdout (stdout (Ref.start 2) ++ [failure "Unknown command"])%list
     (Ref.start 2)).
Proof.
  apply (get_cmd_unknown Ref.collaborators 0 (Ref.line "bogus 1 2") "bogus"
           ["1"; "2"] (Ref.start 2)).
  - reflexivity.
  - reflexivity.
Defined.

Lemma get_cmd_too_few_arguments_witness :
  get_cmd Ref.collaborators 0 (Ref.line "komi") (Ref.start 2) =
  (Return tt,
   set_stdout (stdout (Ref.start 2) ++ [failure "Usage: komi FLOAT"])%list
     (Ref.start 2)).
Proof.
  apply (get_cmd_too_few_arguments Ref.collaborators 0 (Ref.line "komi") "komi" []
           1 "Usage: komi FLOAT" (Ref.start 2)).
  - reflexivity.
  - discriminate.
  - reflexivity.
  - reflexivity.
Defined.

Lemma get_cmd_reraises_witness :
  start_connection_loop Ref.collaborators 0
    [Ref.line "timelimit abc"; Ref.line "solve"] (Ref.start 2) =
  (Raise (Exception "ValueError" "invalid literal for int() with base 10: 'abc'"),
   Ref.start 2).
Proof.
  refine (proj2 (get_cmd_reraises Ref.collaborators 0 (Ref.line "timelimit abc")
                   "timelimit" ["abc"] timelimit_cmd (Ref.start 2) (Ref.start 2)
                   "ValueError" "invalid literal for int() with base 10: 'abc'"
                   [Ref.line "solve"] _ _ _ _ _)).
  - reflexivity.
  - discriminate.
  - intros required usage H. inversion H. vm_compute. discriminate.
  - reflexivity.
  - reflexivity.
Defined.

Lemma known_command_agrees_witness :
  get_cmd Ref.collaborators 0 (Ref.line "known_command quit") (Ref.start 2) =
  (Return tt,
   set_stdout (stdout (Ref.start 2) ++ [success "true"])%list (Ref.start 2)).
Proof.
  apply (known_command_agrees Ref.collaborators 0 (Ref.line "known_command quit")
           "quit" [] (Ref.start 2)).
  reflexivity.
Defined.

Lemma solve_cmd_late_witness :
  solve_cmd Ref.collaborators 1 [] Ref.hurried =
  (Return tt,
   set_stdout (stdout Ref.hurried ++ [success "unknown"])%list
     (searched (solve_entry Ref.collaborators Ref.hurried) true [] 2)).
Proof.
  apply (solve_cmd_late Ref.collaborators 0 [] Ref.hurried).
  - reflexivity.
  - vm_compute; reflexivity.
Defined.

Lemma solve_cmd_silent_in_generation_witness :
  stdout (snd (solve_cmd Ref.collaborators 5 [] Ref.generating))
    = stdout Ref.generating /\
  stderr (snd (solve_cmd Ref.collaborators 5 [] Ref.generating))
    = stderr Ref.generating.
Proof.
  apply (solve_cmd_silent_in_generation Ref.collaborators 5 [] Ref.generating).
  reflexivity.
Defined.


(** The eight commands that do not reach for the board. *)
Example commands_away_from_board :
  filter (fun cmd => negb (existsb (String.eqb cmd) board_commands)) command_names =
  ["protocol_version"; "quit"; "name"; "komi"; "version"; "known_command";
   "list_commands"; "timelimit"].
Proof. reflexivity. Qed.

Lemma get_cmd_same_settings_witness :
  komi (snd (get_cmd Ref.collaborators 5 (Ref.line "solve") Ref.after_a1))
    = komi Ref.after_a1 /\
  timelimit (snd (get_cmd Ref.collaborators 5 (Ref.line "solve") Ref.after_a1))
    = timelimit Ref.after_a1.
Proof.
  apply (get_cmd_same_settings Ref.collaborators 5 (Ref.line "solve") Ref.after_a1).
  intros cmd args H. vm_compute in H. inversion H. split; discriminate.
Defined.

Lemma genmove_resigns_witness :
  genmove_cmd Ref.collaborators 5 ["w"] Ref.full1 =
  (Return tt,
   set_stdout (stdout Ref.full1 ++ [success "resign"])%list
     (set_notdone false Ref.full1)).
Proof.
  apply (genmove_resigns Ref.collaborators 5 "w" [] Ref.full1 WHITE BLACK).
  - reflexivity.
  - reflexivity.
Defined.

Lemma genmove_plays_witness :
  fst (genmove_cmd Ref.collaborators 5 ["w"] Ref.after_a1) = Return tt /\
  stdout (snd (genmove_cmd Ref.collaborators 5 ["w"] Ref.after_a1)) =
    [success EmptyString; success "b1"] /\
  GoBoard.board (board (snd (genmove_cmd Ref.collaborators 5 ["w"] Ref.after_a1))) =
    [BLACK; WHITE; Ref.empty; Ref.empty].
Proof.
  rewrite (genmove_plays Ref.collaborators 5 "w" [] Ref.after_a1
             (snd (solve_cmd Ref.collaborators 5 ["w"] (genmove_entry "w" Ref.after_a1)))
             (snd (genmove_choose Ref.collaborators WHITE
                     (set_genCall false
                        (snd (solve_cmd Ref.collaborators 5 ["w"]
                                (genmove_entry "w" Ref.after_a1))))))
             WHITE 1
             (GoBoard.mk 2 [BLACK; WHITE; Ref.empty; Ref.empty] BLACK)
             true (1, 2) "b1").
  - vm_compute. repeat split; reflexivity.
  - reflexivity.
  - reflexivity.
  - vm_compute; reflexivity.
  - vm_compute; reflexivity.
  - vm_compute; reflexivity.
  - vm_compute; reflexivity.
  - reflexivity.
  - reflexivity.
Defined.

Lemma genmove_failure_silences_solve_witness :
  exists s2,
    genmove_cmd Ref.no_winner 5 ["w"] Ref.full1 = (Return tt, s2) /\
    genCall s2 = true /\
    stdout s2 = [success "Error: wrong coordinate"] /\
    forall fuel' args, stdout (snd (solve_cmd Ref.no_winner fuel' args s2)) = stdout s2.
Proof.
  destruct (genmove_failure_silences_solve Ref.no_winner 5 "w" [] Ref.full1
              (snd (solve_cmd Ref.no_winner 5 ["w"] (genmove_entry "w" Ref.full1)))
              WHITE "ValueError" "wrong coordinate")
    as (Hrun & Hgen & Hsilent).
  - reflexivity.
  - reflexivity.
  - vm_compute; reflexivity.
  - eexists. split; [exact Hrun|]. split; [exact Hgen|].
    split; [reflexivity | exact Hsilent].
Defined.

Lemma ref_signed_evaluation time winner legal mover :
  winner = Ref.get_winner ->
  signed_evaluation (Ref.collaborators_with time winner legal mover).
Proof.
  intros -> b w Hw. cbn in Hw |- *.
  unfold Ref.staticallyEvaluateForToPlay. rewrite Hw.
  destruct (w =? GoBoard.to_play b) eqn:E; split; intros H; lia.
Qed.

Lemma negamaxBoolean_decides_witness :
  (exists ck,
      negamaxBoolean Ref.collaborators 5 0 Ref.after_a1 =
      (Return (wins Ref.collaborators 4 (board Ref.after_a1)),
       searched Ref.after_a1 (notdone Ref.after_a1)
         (winMoves Ref.after_a1 ++ winning_moves Ref.collaborators 4 (board Ref.after_a1))
         ck)) /\
  winning_moves Ref.collaborators 4 (board Ref.after_a1) = ["b1"; "a2"; "b2"].
Proof.
  split.
  - refine (proj1 (negamaxBoolean_decides Ref.collaborators 4 5 0 Ref.after_a1 _ _ _)).
    + vm_compute; reflexivity.
    + lia.
    + lia.
  - vm_compute; reflexivity.
Defined.

Lemma alphabeta_fail_hard_witness :
  exists r ck,
    alphabeta Ref.frozen 5 (-100000) 100000 1 Ref.after_a1 =
      (Return (RInt r), searched Ref.after_a1 false [] ck) /\
    (value Ref.frozen 4 (board Ref.after_a1) <= -100000 -> r <= -100000) /\
    (100000 <= value Ref.frozen 4 (board Ref.after_a1) -> 100000 <= r) /\
    (-100000 < value Ref.frozen 4 (board Ref.after_a1) < 100000 ->
     r = value Ref.frozen 4 (board Ref.after_a1)).
Proof.
  apply (alphabeta_fail_hard Ref.frozen 4 5 (-100000) 100000 1 Ref.after_a1).
  - vm_compute; reflexivity.
  - lia.
  - lia.
  - lia.
  - reflexivity.
  - reflexivity.
  - intros k. reflexivity.
Defined.

Lemma alphabeta_agrees_with_negamax_witness :
  exists r_ab s_ab r_nb s_nb,
    alphabeta Ref.frozen 5 (-100000) 100000 0 Ref.after_a1 = (Return r_ab, s_ab) /\
    negamaxBoolean Ref.frozen 5 0 Ref.after_a1 = (Return r_nb, s_nb) /\
    winMoves s_ab = firstn 1 (winMoves s_nb) /\
    board s_ab = board Ref.after_a1 /\ board s_nb = board Ref.after_a1 /\
    (get_winner Ref.frozen (board Ref.after_a1) = None ->
     (r_nb = true <-> r_ab = RAbort)).
Proof.
  apply (alphabeta_agrees_with_negamax Ref.frozen 4 5 (-100000) 100000 Ref.after_a1).
  - apply ref_signed_evaluation. reflexivity.
  - vm_compute; reflexivity.
  - lia.
  - lia.
  - lia.
  - reflexivity.
  - reflexivity.
  - intros k. reflexivity.
Defined.

Lemma solve_cmd_decides_witness :
  exists ck,
    solve_cmd Ref.frozen 5 [] Ref.after_a1 =
    (Return tt,
     set_stdout
       (stdout Ref.after_a1 ++
        [success (solve_payload Ref.frozen (GoBoard.to_play (board Ref.after_a1)) false
                    (firstn 1 (winning_moves Ref.frozen 4 (board Ref.after_a1))))])%list
       (searched (solve_entry Ref.frozen Ref.after_a1) false
          (firstn 1 (winning_moves Ref.frozen 4 (board Ref.after_a1))) ck)).
Proof.
  apply (solve_cmd_decides Ref.frozen 4 5 [] Ref.after_a1).
  - apply ref_signed_evaluation. reflexivity.
  - reflexivity.
  - vm_compute; reflexivity.
  - lia.
  - right; reflexivity.
  - reflexivity.
  - reflexivity.
  - intros k. reflexivity.
Defined.

Lemma timelimit_unchecked_witness :
  get_cmd Ref.collaborators 0 (Ref.line "timelimit -5") (Ref.start 2) =
  (Return tt,
   set_stdout (stdout (Ref.start 2) ++ [success EmptyString])%list
     (set_timelimit (-5) (Ref.start 2))).
Proof.
  refine (proj1 (timelimit_unchecked Ref.collaborators 0 (Ref.line "timelimit -5")
                   "-5" [] (Ref.start 2) (-5) _ _)).
  - reflexivity.
  - reflexivity.
Defined.

(** The two solvers on the 2 x 2 board after [play b a1]: White wins with
    any move, the plain solver collects the three of them and the
    alpha-beta solver stops on the first. *)
Example solvers_after_a1 :
  winMoves (snd (negamaxBoolean Ref.frozen 5 0 Ref.after_a1)) = ["b1"; "a2"; "b2"] /\
  fst (negamaxBoolean Ref.frozen 5 0 Ref.after_a1) = Return true /\
  winMoves (snd (alphabeta Ref.frozen 5 (-100000) 100000 0 Ref.after_a1)) = ["b1"] /\
  fst (alphabeta Ref.frozen 5 (-100000) 100000 0 Ref.after_a1) = Return RAbort.
Proof. vm_compute. repeat split; reflexivity. Qed.
